(** * The autotuner of the "References" application (APP_REFS.ino)

    A shallow embedding of [ReferenceChannel], the per-channel automatic
    calibration state machine, and of the collaborators it talks to (the
    frequency meter, the DAC driver, the scrolling history).  Integers are
    [Z] with the wrap-around of their C++ type written out; [float] is IEEE
    binary32, computed with the Standard Library's [SpecFloat]. *)

From Stdlib Require Import ZArith Bool Lia.
From Stdlib Require Import Floats.SpecFloat.
From stdpp Require Import base list functions.

Local Open Scope Z_scope.

(** ** Machine integers *)

(** Truncation to the low bits, as a conversion to the unsigned type does;
    the signed types are the same bits read in two's complement. *)
Definition wrap_u8 (n : Z) : Z := Z.land n 0xFF.
Definition wrap_u16 (n : Z) : Z := Z.land n 0xFFFF.
Definition wrap_u32 (n : Z) : Z := Z.land n 0xFFFFFFFF.
Definition wrap_s16 (n : Z) : Z := Z.land (n + 0x8000) 0xFFFF - 0x8000.
Definition wrap_s32 (n : Z) : Z :=
  Z.land (n + 0x80000000) 0xFFFFFFFF - 0x80000000.

(** ** Single-precision floats *)

Module F32.
Definition prec : Z := 24.
Definition emax : Z := 128.

Definition zero : spec_float := S754_zero false.
Definition add : spec_float -> spec_float -> spec_float := SFadd prec emax.
Definition mul : spec_float -> spec_float -> spec_float := SFmul prec emax.
Definition div : spec_float -> spec_float -> spec_float := SFdiv prec emax.
(** [a < b]; false as soon as one side is a NaN. *)
Definition ltb : spec_float -> spec_float -> bool := SFltb.
(** [a > b] is [b < a]. *)
Definition gtb (a b : spec_float) : bool := SFltb b a.

(** Conversion of an integer, as in [(float)n]. *)
Definition of_Z (n : Z) : spec_float := binary_normalize prec emax n 0 false.

(** The float nearest to the positive fraction [p / q]: the quotient is
    taken with 64 spare bits and a sticky last bit, then rounded once. *)
Definition of_ratio (p q : positive) : spec_float :=
  let k := 64 + Z.log2 (Z.pos q) in
  let n := Z.shiftl (Z.pos p) k in
  let sticky := if n mod Z.pos q =? 0 then 0 else 1 in
  binary_normalize prec emax (Z.lor (n / Z.pos q) sticky) (- k) false.

(** A decimal literal [digits * 10^-scale] with an [f] suffix. *)
Definition dec (digits : positive) (scale : Z) : spec_float :=
  of_ratio digits (Z.to_pos (10 ^ scale)).
End F32.

Abbreviation float := spec_float.

(** ** Constants and enumerations *)

(** OC_options.h: both lines are commented out. *)
Definition VOLTAGE_SCALING_SUPPORT : bool := false.
Definition BUCHLA_SUPPORT : bool := false.

Definition FREQ_MEASURE_TIMEOUT : Z := 512.
Definition ERROR_TIMEOUT : Z := Z.shiftl FREQ_MEASURE_TIMEOUT 4.
Definition MAX_NUM_PASSES : Z := 1500.
Definition CONVERGE_PASSES : Z := 5.
Definition kHistoryDepth : nat := 10.

(** Modelled from the spec: the macro [OCTAVES] of the DAC header, which is
    not part of the sources at hand; "OCTAVES = 10 covered range (-3 V
    through +7 V, 11 points including endpoints)". *)
Definition OCTAVES : Z := 10.

(** Modelled from the spec: the DAC channel enumeration, "four DAC
    channels"; [DAC_CHANNEL_LAST] is their number. *)
Inductive DAC_CHANNEL : Type :=
  DAC_CHANNEL_A | DAC_CHANNEL_B | DAC_CHANNEL_C | DAC_CHANNEL_D.

#[global] Instance DAC_CHANNEL_eq_dec : EqDecision DAC_CHANNEL.
Proof. solve_decision. Defined.

Definition DAC_CHANNEL_index (ch : DAC_CHANNEL) : Z :=
  match ch with
  | DAC_CHANNEL_A => 0
  | DAC_CHANNEL_B => 1
  | DAC_CHANNEL_C => 2
  | DAC_CHANNEL_D => 3
  end.

(** enum ReferenceSetting *)
Definition REF_SETTING_OCTAVE : nat := 0.
Definition REF_SETTING_SEMI : nat := 1.
Definition REF_SETTING_RANGE : nat := 2.
Definition REF_SETTING_RATE : nat := 3.
Definition REF_SETTING_NOTES_OR_BPM : nat := 4.
Definition REF_SETTING_A_ABOVE_MID_C_INTEGER : nat := 5.
Definition REF_SETTING_A_ABOVE_MID_C_MANTISSA : nat := 6.
Definition REF_SETTING_PPQN : nat := 7.
Definition REF_SETTING_AUTOTUNE : nat := 8.
Definition REF_SETTING_DUMMY : nat := 9.
(** Only declared under [#ifdef BUCHLA_SUPPORT]. *)
Definition REF_SETTING_VOLTAGE_SCALING : nat := 10.
Definition REF_SETTING_LAST : nat := if BUCHLA_SUPPORT then 11%nat else 10%nat.

(** enum AUTO_CALIBRATION_STEP; the member [autotuner_step_] is a [uint8_t]
    that is also incremented past the last enumerator. *)
Abbreviation DAC_VOLT_0_ARM := 0 (only parsing).
Abbreviation DAC_VOLT_0_BASELINE := 1 (only parsing).
Abbreviation DAC_VOLT_3m := 2 (only parsing).
Abbreviation DAC_VOLT_2m := 3 (only parsing).
Abbreviation DAC_VOLT_1m := 4 (only parsing).
Abbreviation DAC_VOLT_0 := 5 (only parsing).
Abbreviation DAC_VOLT_1 := 6 (only parsing).
Abbreviation DAC_VOLT_2 := 7 (only parsing).
Abbreviation DAC_VOLT_3 := 8 (only parsing).
Abbreviation DAC_VOLT_4 := 9 (only parsing).
Abbreviation DAC_VOLT_5 := 10 (only parsing).
Abbreviation DAC_VOLT_6 := 11 (only parsing).
Abbreviation AUTO_CALIBRATION_STEP_LAST := 12 (only parsing).

(** ** The collaborators *)

(** Modelled from the spec: [OC::vfx::ScrollingHistory<float, kHistoryDepth>],
    declared outside the sources at hand; "ring buffer of the last
    HISTORY_DEPTH emitted frequencies, with an update call each emit to
    shift its visual state".  The entries are kept oldest first. *)
Module ScrollingHistory.
Record t : Type := mk { entries : list float }.

(** Modelled from the spec: [Init] fills the buffer with the initial value. *)
Definition Init (initial_value : float) : t :=
  mk (replicate kHistoryDepth initial_value).
(** Modelled from the spec: [Push] drops the oldest entry and appends the
    new one. *)
Definition Push (value : float) (h : t) : t :=
  mk (drop 1 (entries h) ++ [value]).
(** Modelled from the spec: [Read] copies the entries out, oldest first. *)
Definition Read (h : t) : list float := entries h.
(** Modelled from the spec: [Update] advances the scroll animation only. *)
Definition Update (h : t) : t := h.
End ScrollingHistory.

(** Modelled from the spec: the DAC driver, section 4.5, "calibration
    data used: enum {Default, Auto}". *)
Inductive CalibrationData : Type := CALIBRATION_DEFAULT | CALIBRATION_AUTO.

Module DAC.
(** Modelled from the spec: per channel, the raw code written last, which
    calibration table is live, and the learned table. *)
Record t : Type := mk {
  values : DAC_CHANNEL -> Z;
  calibration_used : DAC_CHANNEL -> CalibrationData;
  auto_calibration : DAC_CHANNEL -> list Z
}.

(** Modelled from the spec: "set(channel, raw_code) -- unbuffered write". *)
Definition set (ch : DAC_CHANNEL) (code : Z) (d : t) : t :=
  mk (<[ch := code]> (values d)) (calibration_used d) (auto_calibration d).
(** Modelled from the spec: "select factory table as live". *)
Definition set_default_channel_calibration_data (ch : DAC_CHANNEL) (d : t) : t :=
  mk (values d) (<[ch := CALIBRATION_DEFAULT]> (calibration_used d))
     (auto_calibration d).
(** Modelled from the spec: "select learned table as live". *)
Definition set_auto_channel_calibration_data (ch : DAC_CHANNEL) (d : t) : t :=
  mk (values d) (<[ch := CALIBRATION_AUTO]> (calibration_used d))
     (auto_calibration d).
(** Modelled from the spec: "mutate learned entry". *)
Definition update_auto_channel_calibration_data
    (ch : DAC_CHANNEL) (octave : Z) (code : Z) (d : t) : t :=
  mk (values d) (calibration_used d)
     (<[ch := <[Z.to_nat octave := code]> (auto_calibration d ch)]>
        (auto_calibration d)).
(** Modelled from the spec: which table is live. *)
Definition calibration_data_used (ch : DAC_CHANNEL) (d : t) : CalibrationData :=
  calibration_used d ch.
End DAC.

(** Modelled from the spec: the frequency meter, "produces timer-tick
    counts per zero-crossing; provides available() and read() poll-style
    API".  The pending counts are queued oldest first. *)
Module FreqMeasure.
Definition t : Type := list Z.

(** Modelled from the spec: a count is pending. *)
Definition available (fm : t) : bool :=
  match fm with [] => false | _ :: _ => true end.
(** Modelled from the spec: the oldest pending count, taken off the queue. *)
Definition read (fm : t) : Z * t :=
  match fm with [] => (0, []) | n :: fm' => (n, fm') end.
(** Modelled from the spec: the capture interrupt queues one more period
    count. *)
Definition capture (n : Z) (fm : t) : t := fm ++ [wrap_u32 n].
End FreqMeasure.

(** What the channel reaches outside itself. *)
Record Hardware : Type := mkHardware {
  freq_measure : FreqMeasure.t;
  dac : DAC.t
}.

Definition with_freq_measure (fm : FreqMeasure.t) (hw : Hardware) : Hardware :=
  mkHardware fm (dac hw).
Definition with_dac (d : DAC.t) (hw : Hardware) : Hardware :=
  mkHardware (freq_measure hw) d.

(** Constants and pure helpers of the firmware that the sources at hand
    use but do not define. *)
Class Platform : Type := {
  (** [FreqMeasure.countToFrequency] *)
  countToFrequency : Z -> float;
  (** [OC::calibration_data.dac.calibrated_octaves], the factory table *)
  calibrated_octaves : DAC_CHANNEL -> Z -> Z;
  (** [OC::DAC::kOctaveZero] *)
  kOctaveZero : Z;
  (** [OC::DAC::semitone_to_scaled_voltage_dac] *)
  semitone_to_scaled_voltage_dac : DAC_CHANNEL -> Z -> Z -> Z -> Z;
  OC_CORE_TIMER_RATE : Z
}.

(** ** The channel *)

Record ReferenceChannel : Type := mkReferenceChannel {
  values_ : list Z;  (* settings::SettingsBase storage, indexed by ReferenceSetting *)
  rate_phase_ : Z;  (* uint32_t *)
  mod_offset_ : Z;  (* int *)
  last_pitch_ : Z;  (* int32_t *)
  autotuner_ : bool;
  autotuner_step_ : Z;  (* uint8_t *)
  auto_DAC_offset_error_ : Z;  (* int32_t *)
  auto_frequency_ : float;
  auto_target_frequencies_ : list float;  (* float[OCTAVES + 1] *)
  auto_calibration_data_ : list Z;  (* int16_t[OCTAVES + 1] *)
  auto_last_frequency_ : float;
  auto_next_step_ : bool;
  auto_error_ : bool;
  auto_ready_ : bool;
  autotune_completed_ : bool;
  auto_freq_sum_ : Z;  (* uint32_t *)
  auto_freq_count_ : Z;  (* uint32_t *)
  ticks_since_last_freq_ : Z;  (* uint32_t *)
  auto_num_passes_ : Z;  (* uint32_t *)
  F_correction_factor_ : Z;  (* uint16_t *)
  correction_direction_ : bool;
  correction_cnt_positive_ : Z;  (* int16_t *)
  correction_cnt_negative_ : Z;  (* int16_t *)
  octaves_cnt_ : Z;  (* int16_t *)
  dac_channel_ : DAC_CHANNEL;
  history_ : ScrollingHistory.t  (* ScrollingHistory<float, kHistoryDepth> *)
}.

(** Assignment to one member; every other member is copied. *)
Definition with_values_ (v : list Z) (c : ReferenceChannel) : ReferenceChannel :=
  match c with
  | mkReferenceChannel _ x1 x2 x3 x4 x5 x6 x7 x8 x9 x10 x11 x12 x13 x14 x15
      x16 x17 x18 x19 x20 x21 x22 x23 x24 x25 =>
    mkReferenceChannel v x1 x2 x3 x4 x5 x6 x7 x8 x9 x10 x11 x12 x13 x14 x15
      x16 x17 x18 x19 x20 x21 x22 x23 x24 x25
  end.
Definition with_rate_phase_ (v : Z) (c : ReferenceChannel) : ReferenceChannel :=
  match c with
  | mkReferenceChannel x0 _ x2 x3 x4 x5 x6 x7 x8 x9 x10 x11 x12 x13 x14 x15
      x16 x17 x18 x19 x20 x21 x22 x23 x24 x25 =>
    mkReferenceChannel x0 v x2 x3 x4 x5 x6 x7 x8 x9 x10 x11 x12 x13 x14 x15
      x16 x17 x18 x19 x20 x21 x22 x23 x24 x25
  end.
Definition with_mod_offset_ (v : Z) (c : ReferenceChannel) : ReferenceChannel :=
  match c with
  | mkReferenceChannel x0 x1 _ x3 x4 x5 x6 x7 x8 x9 x10 x11 x12 x13 x14 x15
      x16 x17 x18 x19 x20 x21 x22 x23 x24 x25 =>
    mkReferenceChannel x0 x1 v x3 x4 x5 x6 x7 x8 x9 x10 x11 x12 x13 x14 x15
      x16 x17 x18 x19 x20 x21 x22 x23 x24 x25
  end.
Definition with_last_pitch_ (v : Z) (c : ReferenceChannel) : ReferenceChannel :=
  match c with
  | mkReferenceChannel x0 x1 x2 _ x4 x5 x6 x7 x8 x9 x10 x11 x12 x13 x14 x15
      x16 x17 x18 x19 x20 x21 x22 x23 x24 x25 =>
    mkReferenceChannel x0 x1 x2 v x4 x5 x6 x7 x8 x9 x10 x11 x12 x13 x14 x15
      x16 x17 x18 x19 x20 x21 x22 x23 x24 x25
  end.
Definition with_autotuner_ (v : bool) (c : ReferenceChannel) : ReferenceChannel :=
  match c with
  | mkReferenceChannel x0 x1 x2 x3 _ x5 x6 x7 x8 x9 x10 x11 x12 x13 x14 x15
      x16 x17 x18 x19 x20 x21 x22 x23 x24 x25 =>
    mkReferenceChannel x0 x1 x2 x3 v x5 x6 x7 x8 x9 x10 x11 x12 x13 x14 x15
      x16 x17 x18 x19 x20 x21 x22 x23 x24 x25
  end.
Definition with_autotuner_step_ (v : Z) (c : ReferenceChannel) : ReferenceChannel :=
  match c with
  | mkReferenceChannel x0 x1 x2 x3 x4 _ x6 x7 x8 x9 x10 x11 x12 x13 x14 x15
      x16 x17 x18 x19 x20 x21 x22 x23 x24 x25 =>
    mkReferenceChannel x0 x1 x2 x3 x4 v x6 x7 x8 x9 x10 x11 x12 x13 x14 x15
      x16 x17 x18 x19 x20 x21 x22 x23 x24 x25
  end.
Definition with_auto_DAC_offset_error_ (v : Z) (c : ReferenceChannel) : ReferenceChannel :=
  match c with
  | mkReferenceChannel x0 x1 x2 x3 x4 x5 _ x7 x8 x9 x10 x11 x12 x13 x14 x15
      x16 x17 x18 x19 x20 x21 x22 x23 x24 x25 =>
    mkReferenceChannel x0 x1 x2 x3 x4 x5 v x7 x8 x9 x10 x11 x12 x13 x14 x15
      x16 x17 x18 x19 x20 x21 x22 x23 x24 x25
  end.
Definition with_auto_frequency_ (v : float) (c : ReferenceChannel) : ReferenceChannel :=
  match c with
  | mkReferenceChannel x0 x1 x2 x3 x4 x5 x6 _ x8 x9 x10 x11 x12 x13 x14 x15
      x16 x17 x18 x19 x20 x21 x22 x23 x24 x25 =>
    mkReferenceChannel x0 x1 x2 x3 x4 x5 x6 v x8 x9 x10 x11 x12 x13 x14 x15
      x16 x17 x18 x19 x20 x21 x22 x23 x24 x25
  end.
Definition with_auto_target_frequencies_ (v : list float) (c : ReferenceChannel) : ReferenceChannel :=
  match c with
  | mkReferenceChannel x0 x1 x2 x3 x4 x5 x6 x7 _ x9 x10 x11 x12 x13 x14 x15
      x16 x17 x18 x19 x20 x21 x22 x23 x24 x25 =>
    mkReferenceChannel x0 x1 x2 x3 x4 x5 x6 x7 v x9 x10 x11 x12 x13 x14 x15
      x16 x17 x18 x19 x20 x21 x22 x23 x24 x25
  end.
Definition with_auto_calibration_data_ (v : list Z) (c : ReferenceChannel) : ReferenceChannel :=
  match c with
  | mkReferenceChannel x0 x1 x2 x3 x4 x5 x6 x7 x8 _ x10 x11 x12 x13 x14 x15
      x16 x17 x18 x19 x20 x21 x22 x23 x24 x25 =>
    mkReferenceChannel x0 x1 x2 x3 x4 x5 x6 x7 x8 v x10 x11 x12 x13 x14 x15
      x16 x17 x18 x19 x20 x21 x22 x23 x24 x25
  end.
Definition with_auto_last_frequency_ (v : float) (c : ReferenceChannel) : ReferenceChannel :=
  match c with
  | mkReferenceChannel x0 x1 x2 x3 x4 x5 x6 x7 x8 x9 _ x11 x12 x13 x14 x15 x16
      x17 x18 x19 x20 x21 x22 x23 x24 x25 =>
    mkReferenceChannel x0 x1 x2 x3 x4 x5 x6 x7 x8 x9 v x11 x12 x13 x14 x15 x16
      x17 x18 x19 x20 x21 x22 x23 x24 x25
  end.
Definition with_auto_next_step_ (v : bool) (c : ReferenceChannel) : ReferenceChannel :=
  match c with
  | mkReferenceChannel x0 x1 x2 x3 x4 x5 x6 x7 x8 x9 x10 _ x12 x13 x14 x15 x16
      x17 x18 x19 x20 x21 x22 x23 x24 x25 =>
    mkReferenceChannel x0 x1 x2 x3 x4 x5 x6 x7 x8 x9 x10 v x12 x13 x14 x15 x16
      x17 x18 x19 x20 x21 x22 x23 x24 x25
  end.
Definition with_auto_error_ (v : bool) (c : ReferenceChannel) : ReferenceChannel :=
  match c with
  | mkReferenceChannel x0 x1 x2 x3 x4 x5 x6 x7 x8 x9 x10 x11 _ x13 x14 x15 x16
      x17 x18 x19 x20 x21 x22 x23 x24 x25 =>
    mkReferenceChannel x0 x1 x2 x3 x4 x5 x6 x7 x8 x9 x10 x11 v x13 x14 x15 x16
      x17 x18 x19 x20 x21 x22 x23 x24 x25
  end.
Definition with_auto_ready_ (v : bool) (c : ReferenceChannel) : ReferenceChannel :=
  match c with
  | mkReferenceChannel x0 x1 x2 x3 x4 x5 x6 x7 x8 x9 x10 x11 x12 _ x14 x15 x16
      x17 x18 x19 x20 x21 x22 x23 x24 x25 =>
    mkReferenceChannel x0 x1 x2 x3 x4 x5 x6 x7 x8 x9 x10 x11 x12 v x14 x15 x16
      x17 x18 x19 x20 x21 x22 x23 x24 x25
  end.
Definition with_autotune_completed_ (v : bool) (c : ReferenceChannel) : ReferenceChannel :=
  match c with
  | mkReferenceChannel x0 x1 x2 x3 x4 x5 x6 x7 x8 x9 x10 x11 x12 x13 _ x15 x16
      x17 x18 x19 x20 x21 x22 x23 x24 x25 =>
    mkReferenceChannel x0 x1 x2 x3 x4 x5 x6 x7 x8 x9 x10 x11 x12 x13 v x15 x16
      x17 x18 x19 x20 x21 x22 x23 x24 x25
  end.
Definition with_auto_freq_sum_ (v : Z) (c : ReferenceChannel) : ReferenceChannel :=
  match c with
  | mkReferenceChannel x0 x1 x2 x3 x4 x5 x6 x7 x8 x9 x10 x11 x12 x13 x14 _ x16
      x17 x18 x19 x20 x21 x22 x23 x24 x25 =>
    mkReferenceChannel x0 x1 x2 x3 x4 x5 x6 x7 x8 x9 x10 x11 x12 x13 x14 v x16
      x17 x18 x19 x20 x21 x22 x23 x24 x25
  end.
Definition with_auto_freq_count_ (v : Z) (c : ReferenceChannel) : ReferenceChannel :=
  match c with
  | mkReferenceChannel x0 x1 x2 x3 x4 x5 x6 x7 x8 x9 x10 x11 x12 x13 x14 x15 _
      x17 x18 x19 x20 x21 x22 x23 x24 x25 =>
    mkReferenceChannel x0 x1 x2 x3 x4 x5 x6 x7 x8 x9 x10 x11 x12 x13 x14 x15 v
      x17 x18 x19 x20 x21 x22 x23 x24 x25
  end.
Definition with_ticks_since_last_freq_ (v : Z) (c : ReferenceChannel) : ReferenceChannel :=
  match c with
  | mkReferenceChannel x0 x1 x2 x3 x4 x5 x6 x7 x8 x9 x10 x11 x12 x13 x14 x15
      x16 _ x18 x19 x20 x21 x22 x23 x24 x25 =>
    mkReferenceChannel x0 x1 x2 x3 x4 x5 x6 x7 x8 x9 x10 x11 x12 x13 x14 x15
      x16 v x18 x19 x20 x21 x22 x23 x24 x25
  end.
Definition with_auto_num_passes_ (v : Z) (c : ReferenceChannel) : ReferenceChannel :=
  match c with
  | mkReferenceChannel x0 x1 x2 x3 x4 x5 x6 x7 x8 x9 x10 x11 x12 x13 x14 x15
      x16 x17 _ x19 x20 x21 x22 x23 x24 x25 =>
    mkReferenceChannel x0 x1 x2 x3 x4 x5 x6 x7 x8 x9 x10 x11 x12 x13 x14 x15
      x16 x17 v x19 x20 x21 x22 x23 x24 x25
  end.
Definition with_F_correction_factor_ (v : Z) (c : ReferenceChannel) : ReferenceChannel :=
  match c with
  | mkReferenceChannel x0 x1 x2 x3 x4 x5 x6 x7 x8 x9 x10 x11 x12 x13 x14 x15
      x16 x17 x18 _ x20 x21 x22 x23 x24 x25 =>
    mkReferenceChannel x0 x1 x2 x3 x4 x5 x6 x7 x8 x9 x10 x11 x12 x13 x14 x15
      x16 x17 x18 v x20 x21 x22 x23 x24 x25
  end.
Definition with_correction_direction_ (v : bool) (c : ReferenceChannel) : ReferenceChannel :=
  match c with
  | mkReferenceChannel x0 x1 x2 x3 x4 x5 x6 x7 x8 x9 x10 x11 x12 x13 x14 x15
      x16 x17 x18 x19 _ x21 x22 x23 x24 x25 =>
    mkReferenceChannel x0 x1 x2 x3 x4 x5 x6 x7 x8 x9 x10 x11 x12 x13 x14 x15
      x16 x17 x18 x19 v x21 x22 x23 x24 x25
  end.
Definition with_correction_cnt_positive_ (v : Z) (c : ReferenceChannel) : ReferenceChannel :=
  match c with
  | mkReferenceChannel x0 x1 x2 x3 x4 x5 x6 x7 x8 x9 x10 x11 x12 x13 x14 x15
      x16 x17 x18 x19 x20 _ x22 x23 x24 x25 =>
    mkReferenceChannel x0 x1 x2 x3 x4 x5 x6 x7 x8 x9 x10 x11 x12 x13 x14 x15
      x16 x17 x18 x19 x20 v x22 x23 x24 x25
  end.
Definition with_correction_cnt_negative_ (v : Z) (c : ReferenceChannel) : ReferenceChannel :=
  match c with
  | mkReferenceChannel x0 x1 x2 x3 x4 x5 x6 x7 x8 x9 x10 x11 x12 x13 x14 x15
      x16 x17 x18 x19 x20 x21 _ x23 x24 x25 =>
    mkReferenceChannel x0 x1 x2 x3 x4 x5 x6 x7 x8 x9 x10 x11 x12 x13 x14 x15
      x16 x17 x18 x19 x20 x21 v x23 x24 x25
  end.
Definition with_octaves_cnt_ (v : Z) (c : ReferenceChannel) : ReferenceChannel :=
  match c with
  | mkReferenceChannel x0 x1 x2 x3 x4 x5 x6 x7 x8 x9 x10 x11 x12 x13 x14 x15
      x16 x17 x18 x19 x20 x21 x22 _ x24 x25 =>
    mkReferenceChannel x0 x1 x2 x3 x4 x5 x6 x7 x8 x9 x10 x11 x12 x13 x14 x15
      x16 x17 x18 x19 x20 x21 x22 v x24 x25
  end.
Definition with_dac_channel_ (v : DAC_CHANNEL) (c : ReferenceChannel) : ReferenceChannel :=
  match c with
  | mkReferenceChannel x0 x1 x2 x3 x4 x5 x6 x7 x8 x9 x10 x11 x12 x13 x14 x15
      x16 x17 x18 x19 x20 x21 x22 x23 _ x25 =>
    mkReferenceChannel x0 x1 x2 x3 x4 x5 x6 x7 x8 x9 x10 x11 x12 x13 x14 x15
      x16 x17 x18 x19 x20 x21 x22 x23 v x25
  end.
Definition with_history_ (v : ScrollingHistory.t) (c : ReferenceChannel) : ReferenceChannel :=
  match c with
  | mkReferenceChannel x0 x1 x2 x3 x4 x5 x6 x7 x8 x9 x10 x11 x12 x13 x14 x15
      x16 x17 x18 x19 x20 x21 x22 x23 x24 _ =>
    mkReferenceChannel x0 x1 x2 x3 x4 x5 x6 x7 x8 x9 x10 x11 x12 x13 x14 x15
      x16 x17 x18 x19 x20 x21 x22 x23 x24 v
  end.

(** The members of [ReferenceChannel]; [num_enabled_settings_] and
    [enabled_settings_] only feed the menu and are left out. *)

Section ReferenceChannel.
Context `{Platform}.

(** The default column of [SETTINGS_DECLARE]; [CHANNEL_PPQN_4] is 2. *)
Definition default_values : list Z :=
  [0; 0; 0; 0; 0; 440; 0; 2; 0; 0] ++ (if BUCHLA_SUPPORT then [0] else []).

Definition value_at (c : ReferenceChannel) (setting : nat) : Z :=
  default 0 (values_ c !! setting).

Definition get_octave (c : ReferenceChannel) : Z := value_at c REF_SETTING_OCTAVE.
Definition get_semitone (c : ReferenceChannel) : Z := value_at c REF_SETTING_SEMI.
Definition get_range (c : ReferenceChannel) : Z := value_at c REF_SETTING_RANGE.
Definition get_rate (c : ReferenceChannel) : Z :=
  wrap_u32 (value_at c REF_SETTING_RATE).

Definition get_voltage_scaling (c : ReferenceChannel) : Z :=
  if BUCHLA_SUPPORT then wrap_u8 (value_at c REF_SETTING_VOLTAGE_SCALING)
  else 0.

Definition autotuner_active (c : ReferenceChannel) : Z :=
  if autotuner_ c && negb (autotuner_step_ c =? 0)
  then wrap_u8 (DAC_CHANNEL_index (dac_channel_ c) + 1)
  else 0.

Definition autotuner_completed (c : ReferenceChannel) : bool :=
  autotune_completed_ c.
Definition autotuner_error (c : ReferenceChannel) : bool := auto_error_ c.
Definition auto_tune_step (c : ReferenceChannel) : Z := autotuner_step_ c.
Definition get_auto_frequency (c : ReferenceChannel) : float :=
  auto_frequency_ c.

(** The loop [for (i = 0; i <= OCTAVES; i++)] writes entry [i] of the two
    arrays; they do not depend on each other, so each is folded on its
    own. *)
Definition reset_calibration_data (c : ReferenceChannel) : ReferenceChannel :=
  let indices := seq 0 (Z.to_nat (OCTAVES + 1)) in
  let c := with_auto_calibration_data_
             (foldl (fun data i => <[i := 0]> data)
                    (auto_calibration_data_ c) indices) c in
  with_auto_target_frequencies_
    (foldl (fun targets i => <[i := F32.zero]> targets)
           (auto_target_frequencies_ c) indices) c.

Definition auto_reset_step (c : ReferenceChannel) : ReferenceChannel :=
  let c := with_auto_num_passes_ 0 c in
  let c := with_auto_DAC_offset_error_ 0 c in
  let c := with_correction_direction_ false c in
  let c := with_correction_cnt_negative_ 0 c in
  let c := with_correction_cnt_positive_ 0 c in
  let c := with_F_correction_factor_ 0xFF c in
  with_auto_ready_ false c.

Definition reset_autotuner (c : ReferenceChannel) : ReferenceChannel :=
  let c := with_ticks_since_last_freq_ 0 c in
  let c := with_auto_frequency_ F32.zero c in
  let c := with_auto_last_frequency_ F32.zero c in
  let c := with_auto_error_ false c in
  let c := with_auto_ready_ false c in
  let c := with_autotuner_ false c in
  let c := with_autotuner_step_ 0 c in
  let c := with_F_correction_factor_ 0xFF c in
  let c := with_correction_direction_ false c in
  let c := with_correction_cnt_positive_ 0 c in
  let c := with_correction_cnt_negative_ 0 c in
  let c := with_octaves_cnt_ 0 c in
  let c := with_auto_num_passes_ 0 c in
  let c := with_auto_DAC_offset_error_ 0 c in
  let c := with_autotune_completed_ false c in
  reset_calibration_data c.

(** [void autotuner_arm(uint8_t _status)]: the argument is converted to
    the [uint8_t] of the parameter, so that 256 arrives as 0. *)
Definition autotuner_arm (_status : Z) (c : ReferenceChannel) : ReferenceChannel :=
  let _status := wrap_u8 _status in
  let c := reset_autotuner c in
  with_autotuner_ (negb (_status =? 0)) c.

Definition autotuner_run (c : ReferenceChannel) (hw : Hardware)
  : ReferenceChannel * Hardware :=
  let c := with_autotuner_step_
             (if autotuner_ c then DAC_VOLT_0_BASELINE else DAC_VOLT_0_ARM) c in
  if autotuner_step_ c =? DAC_VOLT_0_BASELINE
  then (c, with_dac (DAC.set_default_channel_calibration_data
                       (dac_channel_ c) (dac hw)) hw)
  else (c, hw).

Definition Init (dac_channel : DAC_CHANNEL) (c : ReferenceChannel)
  : ReferenceChannel :=
  let c := with_values_ default_values c in
  let c := with_rate_phase_ 0 c in
  let c := with_mod_offset_ 0 c in
  let c := with_last_pitch_ 0 c in
  let c := with_autotuner_ false c in
  let c := with_autotuner_step_ DAC_VOLT_0_ARM c in
  let c := with_dac_channel_ dac_channel c in
  let c := with_auto_DAC_offset_error_ 0 c in
  let c := with_auto_frequency_ F32.zero c in
  let c := with_auto_last_frequency_ F32.zero c in
  let c := with_auto_freq_sum_ 0 c in
  let c := with_auto_freq_count_ 0 c in
  let c := with_auto_ready_ false c in
  let c := with_ticks_since_last_freq_ 0 c in
  let c := with_auto_next_step_ false c in
  let c := with_autotune_completed_ false c in
  let c := with_F_correction_factor_ 0xFF c in
  let c := with_correction_direction_ false c in
  let c := with_correction_cnt_positive_ 0 c in
  let c := with_correction_cnt_negative_ 0 c in
  let c := reset_calibration_data c in
  with_history_ (ScrollingHistory.Init F32.zero) c.

(** [auto_frequency]: the averager.  The result is the returned flag, the
    channel and the hardware after the call.  [OC::ui._Poke()] only keeps
    the screen awake. *)
Definition auto_frequency (c : ReferenceChannel) (hw : Hardware)
  : bool * ReferenceChannel * Hardware :=
  let c := if ERROR_TIMEOUT <? ticks_since_last_freq_ c
           then with_auto_error_ true c else c in
  if FreqMeasure.available (freq_measure hw) then
    let sample := FreqMeasure.read (freq_measure hw) in
    let hw := with_freq_measure (snd sample) hw in
    let c := with_auto_freq_sum_ (wrap_u32 (auto_freq_sum_ c + fst sample)) c in
    let c := with_auto_freq_count_ (wrap_u32 (auto_freq_count_ c + 1)) c in
    (* take more time as we're converging toward the target frequency *)
    let _wait := if F_correction_factor_ c =? 0x1
                 then Z.shiftl FREQ_MEASURE_TIMEOUT 2
                 else Z.shiftr FREQ_MEASURE_TIMEOUT 2 in
    if _wait <? ticks_since_last_freq_ c then
      let c := with_auto_frequency_
                 (countToFrequency (auto_freq_sum_ c / auto_freq_count_ c)) c in
      let c := with_history_
                 (ScrollingHistory.Push (auto_frequency_ c) (history_ c)) c in
      let c := with_auto_freq_sum_ 0 c in
      let c := with_auto_ready_ true c in
      let c := with_auto_freq_count_ 0 c in
      let c := with_ticks_since_last_freq_ 0 c in
      let c := with_history_ (ScrollingHistory.Update (history_ c)) c in
      (true, c, hw)
    else (false, c, hw)
  else (false, c, hw).

(** The sum of the history entries, accumulated from [0.0f] in reading
    order, then averaged together with the latest frequency. *)
Definition average_with_history (c : ReferenceChannel) : float :=
  let history := ScrollingHistory.Read (history_ c) in
  let average := foldl F32.add F32.zero (take kHistoryDepth history) in
  F32.div (F32.add (auto_frequency_ c) average)
          (F32.of_Z (Z.of_nat kHistoryDepth + 1)).

(** The unrolled powers of two of the baseline step, one table per
    voltage scaling. *)
Definition derive_target_frequencies (scaling : Z) (target_frequency : float)
  : list float :=
  match scaling with
  | 1 => (* 1.2V/octave *)
    map (F32.mul target_frequency)
      [ F32.dec 1767766952966368931843 22;   (* -3V = 2**(-3.0/1.2) *)
        F32.dec 3149802624737182976666 22;   (* -2V = 2**(-2.0/1.2) *)
        F32.dec 5612310241546865086093 22;   (* -1V = 2**(-1.0/1.2) *)
        F32.dec 10 1;                        (* 0V = 2**(0.0/1.2) *)
        F32.dec 17817974362806785482150 22;  (* +1V = 2**(1.0/1.2) *)
        F32.dec 31748021039363991668836 22;  (* +2V = 2**(2.0/1.2) *)
        F32.dec 56568542494923805818985 22;  (* +3V = 2**(3.0/1.2) *)
        F32.dec 100793683991589855253324 22; (* +4V = 2**(4.0/1.2) *)
        F32.dec 179593927729499718282113 22; (* +5V = 2**(5.0/1.2) *)
        F32.dec 320 1;                       (* +6V = 2**(6.0/1.2) *)
        F32.dec 570175179609817419645879 22 ]
  | 2 => (* 2V/octave *)
    map (F32.mul target_frequency)
      [ F32.dec 3535533905932737863687 22;   (* -3V = 2**(-3.0/2.0) *)
        F32.dec 5 1;                         (* -2V = 2**(-2.0/2.0) *)
        F32.dec 7071067811865475727373 22;   (* -1V = 2**(-1.0/2.0) *)
        F32.dec 10 1;                        (* 0V  = 2**(0.0/2.0) *)
        F32.dec 14142135623730951454746 22;  (* +1V = 2**(1.0/2.0) *)
        F32.dec 20 1;                        (* +2V = 2**(2.0/2.0) *)
        F32.dec 28284271247461902909492 22;  (* +3V = 2**(3.0/2.0) *)
        F32.dec 40 1;                        (* +4V = 2**(4.0/2.0) *)
        F32.dec 56568542494923805818985 22;  (* +5V = 2**(5.0/2.0) *)
        F32.dec 80 1;                        (* +6V = 2**(6.0/2.0) *)
        F32.dec 113137084989847611637970 22 ]
  | _ => (* 1V/octave, and the default *)
    map (F32.mul target_frequency)
      [ F32.dec 125 3;   (* -3V *)
        F32.dec 25 2;    (* -2V *)
        F32.dec 5 1;     (* -1V *)
        F32.dec 10 1;    (* 0V *)
        F32.dec 20 1;    (* +1V *)
        F32.dec 40 1;    (* +2V *)
        F32.dec 80 1;    (* +3V *)
        F32.dec 160 1;   (* +4V *)
        F32.dec 320 1;   (* +5V *)
        F32.dec 640 1;   (* +6V *)
        F32.dec 1280 1 ]
  end.

Definition target_at (c : ReferenceChannel) (i : Z) : float :=
  default F32.zero (auto_target_frequencies_ c !! Z.to_nat i).

(** [case DAC_VOLT_0_BASELINE:] of [measure_frequency_and_calc_error] --
    0V baseline / calibration point: in this case, we don't correct. *)
Definition case_DAC_VOLT_0_BASELINE (c : ReferenceChannel) (hw : Hardware)
  : ReferenceChannel * Hardware :=
  let r := auto_frequency c hw in
  let _update := fst (fst r) in
  let c := snd (fst r) in
  let hw := snd r in
  if _update && (Z.of_nat kHistoryDepth <? auto_num_passes_ c) then
    let c := with_auto_last_frequency_ (auto_frequency_ c) c in
    (* ... and derive target frequencies *)
    let target_frequency := average_with_history c in   (* 0V *)
    let c := with_auto_target_frequencies_
               (derive_target_frequencies (get_voltage_scaling c)
                                          target_frequency) c in
    (* reset step, and proceed: *)
    let c := auto_reset_step c in
    let c := with_autotuner_step_ (wrap_u8 (autotuner_step_ c + 1)) c in
    (c, hw)
  else if _update then
    (with_auto_num_passes_ (wrap_u32 (auto_num_passes_ c + 1)) c, hw)
  else (c, hw).

(** [case DAC_VOLT_3m: ... case DAC_VOLT_6:] *)
Definition case_DAC_VOLT (c : ReferenceChannel) (hw : Hardware)
  : ReferenceChannel * Hardware :=
  let r := auto_frequency c hw in
  let _update := fst (fst r) in
  let c := snd (fst r) in
  let hw := snd r in
  if _update && (MAX_NUM_PASSES <? auto_num_passes_ c) then
    (* target frequency reached *)
    (* throw error, if things don't seem to double ... *)
    let c := if (DAC_VOLT_2m <? autotuner_step_ c)
                && F32.gtb (F32.mul (auto_last_frequency_ c) (F32.dec 125 2))
                           (auto_frequency_ c)
             then with_auto_error_ true c else c in
    (* store last frequency: *)
    let c := with_auto_last_frequency_ (average_with_history c) c in
    (* and DAC correction value: *)
    let c := with_auto_calibration_data_
               (<[Z.to_nat (autotuner_step_ c - DAC_VOLT_3m)
                  := wrap_s16 (auto_DAC_offset_error_ c)]>
                  (auto_calibration_data_ c)) c in
    (* and reset step: *)
    let c := auto_reset_step c in
    let c := with_autotuner_step_ (wrap_u8 (autotuner_step_ c + 1)) c in
    (c, hw)
  else if _update then
    (* count passes *)
    let c := with_auto_num_passes_ (wrap_u32 (auto_num_passes_ c + 1)) c in
    (* and correct frequency *)
    let target := target_at c (autotuner_step_ c - DAC_VOLT_3m) in
    let c :=
      if F32.gtb target (auto_frequency_ c) then
        (* update correction factor? *)
        let c := if negb (correction_direction_ c)
                 then with_F_correction_factor_
                        (wrap_u16 (Z.lor (Z.shiftr (F_correction_factor_ c) 1) 1)) c
                 else c in
        let c := with_correction_direction_ true c in
        let c := with_auto_DAC_offset_error_
                   (wrap_s32 (auto_DAC_offset_error_ c + F_correction_factor_ c)) c in
        (* we're converging -- count passes, so we can stop after x attempts: *)
        if F_correction_factor_ c =? 0x1
        then with_correction_cnt_positive_
               (wrap_s16 (correction_cnt_positive_ c + 1)) c
        else c
      else if F32.ltb target (auto_frequency_ c) then
        (* update correction factor? *)
        let c := if correction_direction_ c
                 then with_F_correction_factor_
                        (wrap_u16 (Z.lor (Z.shiftr (F_correction_factor_ c) 1) 1)) c
                 else c in
        let c := with_correction_direction_ false c in
        let c := with_auto_DAC_offset_error_
                   (wrap_s32 (auto_DAC_offset_error_ c - F_correction_factor_ c)) c in
        (* we're converging -- count passes, so we can stop after x attempts: *)
        if F_correction_factor_ c =? 0x1
        then with_correction_cnt_negative_
               (wrap_s16 (correction_cnt_negative_ c + 1)) c
        else c
      else c in
    (* approaching target? if so, go to next step. *)
    let c := if (CONVERGE_PASSES <? correction_cnt_positive_ c)
                && (CONVERGE_PASSES <? correction_cnt_negative_ c)
             then with_auto_num_passes_ (Z.shiftl MAX_NUM_PASSES 1) c
             else c in
    (c, hw)
  else (c, hw).

(** [case AUTO_CALIBRATION_STEP_LAST:] -- step through the octaves. *)
Definition case_AUTO_CALIBRATION_STEP_LAST (c : ReferenceChannel) (hw : Hardware)
  : ReferenceChannel * Hardware :=
  let r :=
    if 2000 <? ticks_since_last_freq_ c then
      let new_auto_calibration_point :=
        wrap_s32 (calibrated_octaves (dac_channel_ c) (octaves_cnt_ c)
                  + default 0 (auto_calibration_data_ c
                                 !! Z.to_nat (octaves_cnt_ c))) in
      (* write to DAC and update data *)
      let d := DAC.set (dac_channel_ c) new_auto_calibration_point (dac hw) in
      let d := DAC.update_auto_channel_calibration_data
                 (dac_channel_ c) (octaves_cnt_ c)
                 new_auto_calibration_point d in
      let c := with_ticks_since_last_freq_ 0 c in
      let c := with_octaves_cnt_ (wrap_s16 (octaves_cnt_ c + 1)) c in
      (c, with_dac d hw)
    else (c, hw) in
  let c := fst r in
  let hw := snd r in
  (* then stop ... *)
  if OCTAVES <? octaves_cnt_ c then
    let c := with_autotune_completed_ true c in
    (* and point to auto data ... *)
    let hw := with_dac (DAC.set_auto_channel_calibration_data
                          (dac_channel_ c) (dac hw)) hw in
    let c := with_autotuner_step_ (wrap_u8 (autotuner_step_ c + 1)) c in
    (c, hw)
  else (c, hw).

Definition measure_frequency_and_calc_error (c : ReferenceChannel) (hw : Hardware)
  : ReferenceChannel * Hardware :=
  match autotuner_step_ c with
  | DAC_VOLT_0_ARM =>
    (* do nothing *)
    (c, hw)
  | DAC_VOLT_0_BASELINE => case_DAC_VOLT_0_BASELINE c hw
  | DAC_VOLT_3m | DAC_VOLT_2m | DAC_VOLT_1m | DAC_VOLT_0 | DAC_VOLT_1
  | DAC_VOLT_2 | DAC_VOLT_3 | DAC_VOLT_4 | DAC_VOLT_5 | DAC_VOLT_6 =>
    case_DAC_VOLT c hw
  | AUTO_CALIBRATION_STEP_LAST => case_AUTO_CALIBRATION_STEP_LAST c hw
  | _ =>
    let c := with_autotuner_step_ DAC_VOLT_0_ARM c in
    let c := with_autotuner_ false c in
    (c, hw)
  end.

Definition autotune_updateDAC (c : ReferenceChannel) (hw : Hardware)
  : ReferenceChannel * Hardware :=
  match autotuner_step_ c with
  | DAC_VOLT_0_ARM =>
    let c := with_F_correction_factor_ 0x1 c in   (* don't go so fast *)
    let r := auto_frequency c hw in
    let c := snd (fst r) in
    let hw := snd r in
    (c, with_dac (DAC.set (dac_channel_ c)
                    (calibrated_octaves (dac_channel_ c) kOctaveZero)
                    (dac hw)) hw)
  | DAC_VOLT_0_BASELINE =>
    (* set DAC to 0.000V, default calibration: *)
    (c, with_dac (DAC.set (dac_channel_ c)
                    (calibrated_octaves (dac_channel_ c) kOctaveZero)
                    (dac hw)) hw)
  | AUTO_CALIBRATION_STEP_LAST =>
    (* do nothing *)
    (c, hw)
  | _ =>
    (* set DAC to calibration point + error *)
    let _default_calibration_point :=
      calibrated_octaves (dac_channel_ c) (autotuner_step_ c - DAC_VOLT_3m) in
    (c, with_dac (DAC.set (dac_channel_ c)
                    (wrap_s32 (_default_calibration_point
                               + auto_DAC_offset_error_ c))
                    (dac hw)) hw)
  end.

Definition Update (c : ReferenceChannel) (hw : Hardware)
  : ReferenceChannel * Hardware :=
  if autotuner_ c then
    let r := autotune_updateDAC c hw in
    let c := fst r in
    (with_ticks_since_last_freq_ (wrap_u32 (ticks_since_last_freq_ c + 1)) c,
     snd r)
  else
    let octave := get_octave c in
    let range := get_range c in
    let r :=
      if negb (range =? 0) then
        let c := with_rate_phase_ (wrap_u32 (rate_phase_ c + OC_CORE_TIMER_RATE)) c in
        let c := if wrap_u32 (get_rate c * 1000000) <=? rate_phase_ c
                 then with_mod_offset_ (wrap_s32 (1 - mod_offset_ c))
                        (with_rate_phase_ 0 c)
                 else c in
        (c, wrap_s32 (octave + wrap_s32 (mod_offset_ c * range)))
      else
        let c := with_rate_phase_ 0 c in
        let c := with_mod_offset_ 0 c in
        (c, octave) in
    let c := fst r in
    let octave := snd r in
    let semitone := get_semitone c in
    let hw := with_dac
                (DAC.set (dac_channel_ c)
                   (semitone_to_scaled_voltage_dac (dac_channel_ c) semitone
                      octave (get_voltage_scaling c))
                   (dac hw)) hw in
    (with_last_pitch_
       (wrap_s32 (Z.shiftl (wrap_s32 (semitone + wrap_s32 (octave * 12))) 7)) c,
     hw).

End ReferenceChannel.

(** ** Executions

    A channel is driven through its public members: the timer interrupt
    calls [Update] and, for the channel being tuned,
    [measure_frequency_and_calc_error]; the autotuner menu arms, runs and
    resets; the capture interrupt of the frequency meter queues period
    counts in between. *)

Inductive Call : Type :=
| capture (count : Z)
| call_Update
| call_measure_frequency_and_calc_error
| call_autotuner_arm (_status : Z)
| call_autotuner_run
| call_reset_autotuner
| call_autotuner_reset_completed
| call_use_default
| call_use_auto_calibration.

Section Executions.
Context `{Platform}.

Definition exec (s : ReferenceChannel * Hardware) (e : Call)
  : ReferenceChannel * Hardware :=
  let c := fst s in
  let hw := snd s in
  match e with
  | capture n =>
    (c, with_freq_measure (FreqMeasure.capture n (freq_measure hw)) hw)
  | call_Update => Update c hw
  | call_measure_frequency_and_calc_error => measure_frequency_and_calc_error c hw
  | call_autotuner_arm _status => (autotuner_arm _status c, hw)
  | call_autotuner_run => autotuner_run c hw
  | call_reset_autotuner => (reset_autotuner c, hw)
  | call_autotuner_reset_completed => (with_autotune_completed_ false c, hw)
  | call_use_default =>
    (c, with_dac (DAC.set_default_channel_calibration_data
                    (dac_channel_ c) (dac hw)) hw)
  | call_use_auto_calibration =>
    (c, with_dac (DAC.set_auto_channel_calibration_data
                    (dac_channel_ c) (dac hw)) hw)
  end.

Definition run (s : ReferenceChannel * Hardware) (calls : list Call)
  : ReferenceChannel * Hardware :=
  foldl exec s calls.

(** Does this call make the averager emit a frequency to the state
    machine?  (In the ARM step the averager runs inside [Update] and its
    result is dropped.) *)
Definition emits (s : ReferenceChannel * Hardware) (e : Call) : bool :=
  match e with
  | call_measure_frequency_and_calc_error =>
    (1 <=? autotuner_step_ (fst s)) && (autotuner_step_ (fst s) <=? 11)
    && fst (fst (auto_frequency (fst s) (snd s)))
  | _ => false
  end.

Fixpoint count_emits (s : ReferenceChannel * Hardware) (calls : list Call) : nat :=
  match calls with
  | [] => 0%nat
  | e :: calls' =>
    ((if emits s e then 1 else 0) + count_emits (exec s e) calls')%nat
  end.

(** The channel as the static object holds it before [Init]: every member
    zero. *)
Definition static_storage : ReferenceChannel :=
  mkReferenceChannel (replicate REF_SETTING_LAST 0) 0 0 0 false 0 0 F32.zero
    (replicate 11 F32.zero) (replicate 11 0) F32.zero false false false false
    0 0 0 0 0 false 0 0 0 DAC_CHANNEL_A
    (ScrollingHistory.mk (replicate kHistoryDepth F32.zero)).

Definition power_on_dac : DAC.t :=
  DAC.mk (fun _ => 0) (fun _ => CALIBRATION_DEFAULT) (fun _ => replicate 11 0).

Definition power_on (ch : DAC_CHANNEL) : ReferenceChannel * Hardware :=
  (Init ch static_storage, mkHardware [] power_on_dac).

(** The states a channel can be in: those some sequence of calls leads to
    after power-on. *)
Inductive reachable (ch : DAC_CHANNEL) : ReferenceChannel * Hardware -> Prop :=
| reachable_power_on : reachable ch (power_on ch)
| reachable_exec s e : reachable ch s -> reachable ch (exec s e).

(** One timer interrupt with the channel being tuned, after the capture
    of one period of [count] bus cycles. *)
Definition tick (count : Z) : list Call :=
  [capture count; call_Update; call_measure_frequency_and_calc_error].

Definition ticks (n : nat) (count : Z) : list Call :=
  concat (replicate n (tick count)).

End Executions.

(** ** A bench set-up for the examples

    A 60 MHz bus clock, so that a period of 600000 cycles is 100 Hz; a
    factory table of 6553 codes per volt. *)
Definition bench : Platform :=
  {| countToFrequency n := F32.div (F32.of_Z 60000000) (F32.of_Z n);
     calibrated_octaves _ k := 6553 * k;
     kOctaveZero := 3;
     semitone_to_scaled_voltage_dac _ semitone octave _ :=
       6553 * (octave + 3) + (6553 * semitone) / 12;
     OC_CORE_TIMER_RATE := 60 |}.

(** ** What the convergence controller sees

    The controller compares the target of the step with the frequency just
    emitted; the three outcomes of the two float comparisons are named. *)

Inductive Sign : Type := target_above | target_below | on_target.

#[global] Instance Sign_eq_dec : EqDecision Sign.
Proof. solve_decision. Defined.

Section Controller.
Context `{Platform}.

(** The channel as [auto_frequency] leaves it. *)
Definition measured (s : ReferenceChannel * Hardware) : ReferenceChannel :=
  snd (fst (auto_frequency (fst s) (snd s))).

Definition observation (s : ReferenceChannel * Hardware) : Sign :=
  let c := measured s in
  let target := target_at c (autotuner_step_ c - DAC_VOLT_3m) in
  if F32.gtb target (auto_frequency_ c) then target_above
  else if F32.ltb target (auto_frequency_ c) then target_below
  else on_target.

(** The call is an emit that finds the pass budget of a voltage step used
    up: the step is stored and left. *)
Definition advances (s : ReferenceChannel * Hardware) (e : Call) : bool :=
  emits s e && (DAC_VOLT_3m <=? autotuner_step_ (fst s))
  && (MAX_NUM_PASSES <? auto_num_passes_ (fst s)).

(** The call is an emit on which the controller corrects. *)
Definition corrects (s : ReferenceChannel * Hardware) (e : Call) : bool :=
  emits s e && (DAC_VOLT_3m <=? autotuner_step_ (fst s))
  && negb (MAX_NUM_PASSES <? auto_num_passes_ (fst s)).

(** The corrections of the current step, in order: what was observed and
    the halving factor after the correction.  The log ends where the step
    is left. *)
Fixpoint step_log (s : ReferenceChannel * Hardware) (calls : list Call)
  : list (Sign * Z) :=
  match calls with
  | [] => []
  | e :: calls' =>
    if advances s e then []
    else (if corrects s e
          then [(observation s, F_correction_factor_ (fst (exec s e)))]
          else [])
         ++ step_log (exec s e) calls'
  end.

(** What the emit that leaves a voltage step finds and what it leaves
    behind: the step, whether the averager emits, the passes, the outcome
    of [auto_last_frequency_ * 1.25f > auto_frequency_], the error flag
    and the corrections before; the error flag, the step and the
    corrections after. *)
Definition leaving_report (s : ReferenceChannel * Hardware)
  : Z * bool * Z * bool * bool * list Z * bool * Z * list Z :=
  let c := fst s in
  let hw := snd s in
  let c' := fst (measure_frequency_and_calc_error c hw) in
  (autotuner_step_ c,
   fst (fst (auto_frequency c hw)),
   auto_num_passes_ c,
   F32.gtb (F32.mul (auto_last_frequency_ c) (F32.dec 125 2))
           (auto_frequency_ (measured (c, hw))),
   auto_error_ (measured (c, hw)),
   auto_calibration_data_ c,
   auto_error_ c',
   autotuner_step_ c',
   auto_calibration_data_ c').

End Controller.

(** [(F_correction_factor_ >> 1) | 1u], stored back in the [uint16_t]. *)
Definition halved (F : Z) : Z := wrap_u16 (Z.lor (Z.shiftr F 1) 1).

(** The controller halves the factor when the observation asks for the
    direction opposite to [correction_direction_]. *)
Definition turns (direction : bool) (sign : Sign) : bool :=
  match sign with
  | target_above => negb direction
  | target_below => direction
  | on_target => false
  end.

(** Calls made from the interrupts, none from the menu. *)
Definition from_interrupt (e : Call) : Prop :=
  match e with
  | capture _ | call_Update | call_measure_frequency_and_calc_error => True
  | _ => False
  end.

(** Every observation is off target and differs from the one before. *)
Fixpoint alternating (signs : list Sign) : Prop :=
  match signs with
  | [] => True
  | a :: rest =>
    a <> on_target
    /\ match rest with [] => True | b :: _ => a <> b end
    /\ alternating rest
  end.

(** Strictly decreasing down to 1, constant from there. *)
Fixpoint halving (factors : list Z) : Prop :=
  match factors with
  | [] => True
  | a :: rest =>
    match rest with
    | [] => True
    | b :: _ => if a =? 1 then b = 1 else b < a
    end
    /\ halving rest
  end.

(** The invariant behind the bound on the correction: the halving factor
    stays within a byte, and every pass of the step has moved the
    correction by at most one factor. *)
Definition offset_bounded (c : ReferenceChannel) : Prop :=
  1 <= F_correction_factor_ c <= 0xFF
  /\ 0 <= auto_num_passes_ c
  /\ Z.abs (auto_DAC_offset_error_ c)
     <= 0xFF * Z.min (auto_num_passes_ c) (MAX_NUM_PASSES + 1).

(** ** Scenarios on the bench *)

Section Scenarios.
#[local] Existing Instance bench.

(** Channel A is armed, primes for ten ticks and is run, the oscillator
    at 100 Hz. *)
Definition armed_and_run : ReferenceChannel * Hardware :=
  run (power_on DAC_CHANNEL_A)
      ([call_autotuner_arm 1] ++ ticks 10 600000 ++ [call_autotuner_run]).

(** The oscillator stays at 100 Hz whatever the DAC does, for [n] ticks.
    In BASELINE an emit takes 2049 ticks, in a voltage step 129. *)
Definition constant_vco (n : nat) : ReferenceChannel * Hardware :=
  run armed_and_run (ticks n 600000).

(** The state in which tick [n] calls
    [measure_frequency_and_calc_error]: the period is captured and
    [Update] has run. *)
Definition measuring_at (n : nat) : ReferenceChannel * Hardware :=
  run (constant_vco (n - 1)) [capture 600000; call_Update].

Definition before_twelfth_emit : ReferenceChannel * Hardware :=
  measuring_at (2049 * 12 - 10).

(** The -3 V step is entered by the twelfth emit. *)
Definition entering_DAC_VOLT_3m : ReferenceChannel * Hardware :=
  constant_vco (2049 * 12 - 10).

(** From the entry of a voltage step to the tick whose emit leaves it:
    1501 corrections, 129 ticks each, and the capture and [Update] of the
    tick after. *)
Definition about_to_leave (s : ReferenceChannel * Hardware)
  : ReferenceChannel * Hardware :=
  run s (ticks (129 * 1502 - 1) 600000 ++ [capture 600000; call_Update]).

Definition next_step (s : ReferenceChannel * Hardware)
  : ReferenceChannel * Hardware :=
  about_to_leave (measure_frequency_and_calc_error (fst s) (snd s)).

Definition leaving_3m : ReferenceChannel * Hardware :=
  about_to_leave entering_DAC_VOLT_3m.

(** The run through the first three voltage steps: the correction at the
    end of the -3 V step, and the reports of leaving the -2 V and the -1 V
    step. *)
Definition non_tracking_report :=
  let s3 := leaving_3m in
  let s2 := next_step s3 in
  let s1 := next_step s2 in
  (auto_DAC_offset_error_ (fst s3), leaving_report s2, leaving_report s1).

(** Three emits into the -3 V step. *)
Definition three_corrections : ReferenceChannel * Hardware :=
  constant_vco (2049 * 12 - 10 + 129 * 3).


(** In the -3 V step (target 12.5 Hz) the oscillator is heard at 12 Hz and
    13 Hz in turn, one emit each. *)
Definition below_then_above : list Call :=
  ticks 129 5000000 ++ ticks 129 4615385.
Definition alternating_vco : list Call :=
  below_then_above ++ below_then_above ++ below_then_above
  ++ ticks 129 5000000.

(** The other way round: first at 100 Hz, then at 12 Hz. *)
Definition above_then_below : list Call :=
  ticks 129 600000 ++ ticks 129 5000000.

(** Armed, with nothing at the input, and ticked 8193 times. *)
Definition armed_in_silence : ReferenceChannel * Hardware :=
  run (autotuner_arm 1 (fst (power_on DAC_CHANNEL_A)),
       snd (power_on DAC_CHANNEL_A))
      (replicate (Z.to_nat 8193) call_Update).

(** A channel in the commit step with the last octave still to write. *)
Definition finishing_commit : ReferenceChannel * Hardware :=
  (with_ticks_since_last_freq_ 2001
     (with_octaves_cnt_ 10
        (with_autotuner_step_ AUTO_CALIBRATION_STEP_LAST
           (fst armed_and_run))),
   snd armed_and_run).

End Scenarios.

(** * The rest of the application *)

(** ** Further observations on a channel *)

(** The menu calls that start over: [autotuner_arm] and [reset_autotuner]. *)
Definition resets (e : Call) : bool :=
  match e with
  | call_autotuner_arm _ | call_reset_autotuner => true
  | _ => false
  end.

(** The values of an [int16_t]. *)
Definition int16 (n : Z) : Prop := - 0x8000 <= n <= 0x7FFF.

(** The two arrays of [OCTAVES + 1] entries have their size, the
    corrections are [int16_t] values, and the last correction, the one at
    index [OCTAVES], is zero. *)
Definition tables_in_shape (c : ReferenceChannel) : Prop :=
  length (auto_calibration_data_ c) = 11%nat
  /\ length (auto_target_frequencies_ c) = 11%nat
  /\ Forall int16 (auto_calibration_data_ c)
  /\ auto_calibration_data_ c !! 10%nat = Some 0.

(** What the DAC driver holds for one channel. *)
Definition dac_state (ch : DAC_CHANNEL) (d : DAC.t)
  : Z * CalibrationData * list Z :=
  (DAC.values d ch, DAC.calibration_used d ch, DAC.auto_calibration d ch).


(** What the normal (non-autotuner) output path of [Update] works on: the
    settings, the modulation phase and offset, and the pitch shown by the
    screensaver. *)
Definition output_state (c : ReferenceChannel) : list Z * Z * Z * Z :=
  (values_ c, rate_phase_ c, mod_offset_ c, last_pitch_ c).

(** The {min, max} columns of [SETTINGS_DECLARE]. *)
Definition value_attr : list (Z * Z) :=
  [ (-3, 6);      (* Octave *)
    (0, 11);      (* Semitone *)
    (-3, 3);      (* Mod range oct *)
    (0, 30);      (* Mod rate (s) *)
    (0, 1);       (* Notes/BPM *)
    (400, 480);   (* A above mid C *)
    (0, 99);      (* > mantissa *)
    (0, 9);       (* > ppqn: CHANNEL_PPQN_1 .. CHANNEL_PPQN_LAST - 1 *)
    (0, 0);       (* --> autotune *)
    (0, 0) ]      (* dummy *)
  ++ (if BUCHLA_SUPPORT then [(0, 2)] else []).

(** Every setting is within its declared range. *)
Definition settings_in_range (c : ReferenceChannel) : Prop :=
  Forall2 (fun value attr => fst attr <= value <= snd attr)
          (values_ c) value_attr.

(** The convergence counters only count at the finest step of the DAC
    correction: while one of them is not zero the factor is 1. *)
Definition counting_at_unit_factor (c : ReferenceChannel) : Prop :=
  correction_cnt_positive_ c <> 0 \/ correction_cnt_negative_ c <> 0 ->
  F_correction_factor_ c = 1.

Section MoreScenarios.
#[local] Existing Instance bench.

(** Armed in silence and ticked once more: the time-out has struck. *)
Definition silence_latched : ReferenceChannel * Hardware :=
  exec armed_in_silence call_Update.

(** A channel entering the commit step, with the corrections of a run. *)
Definition entering_commit : ReferenceChannel * Hardware :=
  (with_ticks_since_last_freq_ 0
     (with_auto_calibration_data_ [-52; -41; -30; -18; -7; 4; 16; 27; 38; 50; 61]
        (with_autotuner_step_ AUTO_CALIBRATION_STEP_LAST (fst armed_and_run))),
   snd armed_and_run).

(** The commit step has run: 11 octaves, 2001 ticks each. *)
Definition committed : ReferenceChannel * Hardware :=
  run entering_commit (ticks (11 * 2001) 600000).

(** Channel B set to F in octave -3, modulated by -3 octaves at the
    fastest rate. *)
Definition modulating : ReferenceChannel * Hardware :=
  (with_values_ [-3; 5; -3; 0; 0; 440; 0; 2; 0; 0]
     (fst (power_on DAC_CHANNEL_B)),
   snd (power_on DAC_CHANNEL_B)).

(** The -3 V step after the seven corrections of [alternating_vco]. *)
Definition settling : ReferenceChannel * Hardware :=
  run entering_DAC_VOLT_3m alternating_vco.

End MoreScenarios.

(** ** The application

    [ReferencesApp] owns the four channels and the tuner display fed from
    the frequency meter while no channel is being tuned. *)

Definition wrap_s8 (n : Z) : Z := Z.land (n + 0x80) 0xFF - 0x80.

(** Double-precision floats: IEEE binary64, with the conversions the
    application uses. *)
Module F64.
Definition prec : Z := 53.
Definition emax : Z := 1024.

Definition zero : spec_float := S754_zero false.
Definition add : spec_float -> spec_float -> spec_float := SFadd prec emax.
Definition mul : spec_float -> spec_float -> spec_float := SFmul prec emax.
Definition div : spec_float -> spec_float -> spec_float := SFdiv prec emax.

(** Conversion of an integer, as in [static_cast<double>(n)]. *)
Definition of_Z (n : Z) : spec_float := binary_normalize prec emax n 0 false.

(** The double nearest to the positive fraction [p / q]. *)
Definition of_ratio (p q : positive) : spec_float :=
  let k := 64 + Z.log2 (Z.pos q) in
  let n := Z.shiftl (Z.pos p) k in
  let sticky := if n mod Z.pos q =? 0 then 0 else 1 in
  binary_normalize prec emax (Z.lor (n / Z.pos q) sticky) (- k) false.

(** A decimal literal [digits * 10^-scale]. *)
Definition dec (digits : positive) (scale : Z) : spec_float :=
  of_ratio digits (Z.to_pos (10 ^ scale)).

(** The promotion of a [float]: the same number, in the binary64 format. *)
Definition of_float (f : spec_float) : spec_float :=
  match f with
  | S754_finite s m e => binary_normalize prec emax (cond_Zopp s (Z.pos m)) e s
  | _ => f
  end.

(** [static_cast<float>(d)]: rounded to binary32. *)
Definition to_float (d : spec_float) : spec_float :=
  match d with
  | S754_finite s m e =>
    binary_normalize F32.prec F32.emax (cond_Zopp s (Z.pos m)) e s
  | _ => d
  end.

(** The integer part, towards zero; there is none for an infinity or a
    NaN. *)
Definition truncate (d : spec_float) : option Z :=
  match d with
  | S754_zero _ => Some 0
  | S754_finite s m e =>
    Some (cond_Zopp s (if 0 <=? e then Z.pos m * 2 ^ e
                       else Z.pos m / 2 ^ (- e)))
  | _ => None
  end.

(** Conversion to [uint32_t] and to [int32_t]: the integer part when the
    type can hold it; the conversion is undefined otherwise. *)
Definition to_uint32 (d : spec_float) : option Z :=
  match truncate d with
  | Some n => if (0 <=? n) && (n <? 2 ^ 32) then Some n else None
  | None => None
  end.

Definition to_int32 (d : spec_float) : option Z :=
  match truncate d with
  | Some n => if (- 2 ^ 31 <=? n) && (n <? 2 ^ 31) then Some n else None
  | None => None
  end.
End F64.

Definition kAaboveMidCtoC0 : float := F64.dec 3716272234383494188492 23.

(** enum ChannelPpqn *)
Definition CHANNEL_PPQN_1 : Z := 0.
Definition CHANNEL_PPQN_2 : Z := 1.
Definition CHANNEL_PPQN_4 : Z := 2.
Definition CHANNEL_PPQN_8 : Z := 3.
Definition CHANNEL_PPQN_16 : Z := 4.
Definition CHANNEL_PPQN_24 : Z := 5.
Definition CHANNEL_PPQN_32 : Z := 6.
Definition CHANNEL_PPQN_48 : Z := 7.
Definition CHANNEL_PPQN_64 : Z := 8.
Definition CHANNEL_PPQN_96 : Z := 9.
Definition CHANNEL_PPQN_LAST : Z := 10.

(** The functions of the C library the tuner display calls. *)
Class Libm : Type := {
  log2f : float -> float;
  (** [round], on doubles *)
  round : float -> float
}.

(** The remaining getters of [ReferenceChannel]. *)
Definition get_channel (c : ReferenceChannel) : Z :=
  DAC_CHANNEL_index (dac_channel_ c).

Definition get_notes_or_bpm (c : ReferenceChannel) : Z :=
  wrap_u8 (default 0 (values_ c !! REF_SETTING_NOTES_OR_BPM)).

Definition get_a_above_mid_c (c : ReferenceChannel) : float :=
  let mantissa_divisor := F64.of_Z 100 in
  F64.add
    (F64.of_Z (default 0 (values_ c !! REF_SETTING_A_ABOVE_MID_C_INTEGER)))
    (F64.div
       (F64.of_Z (default 0 (values_ c !! REF_SETTING_A_ABOVE_MID_C_MANTISSA)))
       mantissa_divisor).

Definition get_a_above_mid_c_mantissa (c : ReferenceChannel) : Z :=
  wrap_u8 (default 0 (values_ c !! REF_SETTING_A_ABOVE_MID_C_MANTISSA)).

Definition get_channel_ppqn (c : ReferenceChannel) : Z :=
  default 0 (values_ c !! REF_SETTING_PPQN).

Definition get_octave_cnt (c : ReferenceChannel) : Z :=
  wrap_u8 (octaves_cnt_ c + 1).

(** [update_enabled_settings]: the entries written to [enabled_settings_],
    in order; their number is [num_enabled_settings_]. *)
Definition update_enabled_settings (c : ReferenceChannel) : list nat :=
  [REF_SETTING_OCTAVE; REF_SETTING_SEMI; REF_SETTING_RANGE; REF_SETTING_RATE;
   REF_SETTING_AUTOTUNE]
  ++ (if decide (DAC_CHANNEL_D = dac_channel_ c)
      then [REF_SETTING_NOTES_OR_BPM; REF_SETTING_A_ABOVE_MID_C_INTEGER;
            REF_SETTING_A_ABOVE_MID_C_MANTISSA; REF_SETTING_PPQN]
      else [REF_SETTING_DUMMY; REF_SETTING_DUMMY])
  ++ (if BUCHLA_SUPPORT then [REF_SETTING_VOLTAGE_SCALING] else []).

Definition num_enabled_settings (c : ReferenceChannel) : Z :=
  Z.of_nat (length (update_enabled_settings c)).

Definition enabled_setting_at (c : ReferenceChannel) (index : Z) : option nat :=
  update_enabled_settings c !! Z.to_nat index.

(** The channels in the order of the array. *)
Definition all_channels : list DAC_CHANNEL :=
  [DAC_CHANNEL_A; DAC_CHANNEL_B; DAC_CHANNEL_C; DAC_CHANNEL_D].

(** The channel at an array index, if the index is within the array. *)
Definition channel_of_index (i : Z) : option DAC_CHANNEL :=
  match i with
  | 0 => Some DAC_CHANNEL_A
  | 1 => Some DAC_CHANNEL_B
  | 2 => Some DAC_CHANNEL_C
  | 3 => Some DAC_CHANNEL_D
  | _ => None
  end.

Module ReferencesApp.

(** The members; the array [channels_] is a function of its index.  The
    menu cursor and the autotuner screen are left out. *)
Record t : Type := mk {
  channels_ : DAC_CHANNEL -> ReferenceChannel;
  selected_channel : Z;                  (* ui.selected_channel *)
  freq_sum_ : float;                     (* double *)
  freq_count_ : Z;                       (* uint32_t *)
  frequency_ : float;
  milliseconds_since_last_freq_ : Z;     (* elapsedMillis *)
  freq_decicents_deviation_ : Z;         (* int32_t *)
  freq_octave_ : Z;                      (* int8_t *)
  freq_note_ : Z;                        (* int8_t *)
  freq_decicents_residual_ : Z           (* int32_t *)
}.

Definition with_channels_ (channels : DAC_CHANNEL -> ReferenceChannel) (app : t)
  : t :=
  match app with
  | mk _ x1 x2 x3 x4 x5 x6 x7 x8 x9 => mk channels x1 x2 x3 x4 x5 x6 x7 x8 x9
  end.

Section Members.
Context `{Platform} `{Libm}.

Definition Init (app : t) : t :=
  mk (fun dac_channel => Init dac_channel (channels_ app dac_channel))
     (DAC_CHANNEL_index DAC_CHANNEL_D)
     F64.zero 0 F32.zero (milliseconds_since_last_freq_ app) 0 0 0 0.

Definition get_frequency (app : t) : float := frequency_ app.

Definition get_ppqn (app : t) : float :=
  let selector := get_channel_ppqn (channels_ app DAC_CHANNEL_D) in
  if selector =? CHANNEL_PPQN_1 then F64.to_float (F64.dec 10 1)
  else if selector =? CHANNEL_PPQN_2 then F64.to_float (F64.dec 20 1)
  else if selector =? CHANNEL_PPQN_4 then F64.to_float (F64.dec 40 1)
  else if selector =? CHANNEL_PPQN_8 then F64.to_float (F64.dec 80 1)
  else if selector =? CHANNEL_PPQN_16 then F64.to_float (F64.dec 160 1)
  else if selector =? CHANNEL_PPQN_24 then F64.to_float (F64.dec 240 1)
  else if selector =? CHANNEL_PPQN_32 then F64.to_float (F64.dec 320 1)
  else if selector =? CHANNEL_PPQN_48 then F64.to_float (F64.dec 480 1)
  else if selector =? CHANNEL_PPQN_64 then F64.to_float (F64.dec 640 1)
  else if selector =? CHANNEL_PPQN_96 then F64.to_float (F64.dec 960 1)
  else F64.to_float (F64.dec 80 1).

Definition get_bpm (app : t) : float :=
  F64.to_float
    (F64.div (F64.mul (F64.dec 600 1) (F64.of_float (frequency_ app)))
             (F64.of_float (get_ppqn app))).

Definition get_C0_freq (app : t) : float :=
  F64.to_float (F64.mul (get_a_above_mid_c (channels_ app DAC_CHANNEL_D))
                        kAaboveMidCtoC0).

Definition get_octave (app : t) : Z := freq_octave_ app.
Definition get_note (app : t) : Z := freq_note_ app.

(** [for (auto &channel : channels_) channel.Update();] *)
Definition update_channels
    (channels : DAC_CHANNEL -> ReferenceChannel) (hw : Hardware)
  : (DAC_CHANNEL -> ReferenceChannel) * Hardware :=
  foldl (fun st ch =>
           let r := Update (fst st ch) (snd st) in
           (<[ch := fst r]> (fst st), snd r))
        (channels, hw) all_channels.

(** [_autotuner_active_channel], a [uint8_t] that sums what
    [autotuner_active] returns for the four channels. *)
Definition active_channels_sum (channels : DAC_CHANNEL -> ReferenceChannel) : Z :=
  foldl (fun n ch => wrap_u8 (n + autotuner_active (channels ch)))
        0 all_channels.

(** The display fields derived from a new deviation. *)
Definition with_deviation (freq_decicents_deviation : Z) (app : t) : t :=
  let freq_octave := wrap_s8 (wrap_s32 (- 2 + freq_decicents_deviation ÷ 12000)) in
  let freq_note :=
    wrap_s8 (wrap_s32 (freq_decicents_deviation
                       - wrap_s32 ((freq_octave + 2) * 12000)) ÷ 1000) in
  let freq_decicents_residual :=
    wrap_s32 (Z.rem (wrap_s32 (freq_decicents_deviation
                               - wrap_s32 ((freq_octave - 1) * 12000)))
                    1000
              - 500) in
  match app with
  | mk x0 x1 x2 x3 x4 x5 _ _ _ _ =>
    mk x0 x1 x2 x3 x4 x5 freq_decicents_deviation freq_octave freq_note
       freq_decicents_residual
  end.

(** The timer interrupt.  There is no result where the C++ has undefined
    behaviour: an index past the array of channels, a conversion of a
    double that the integer type cannot hold. *)
Definition ISR (app : t) (hw : Hardware) : option (t * Hardware) :=
  let r := update_channels (channels_ app) hw in
  let app := with_channels_ (fst r) app in
  let hw := snd r in
  let _autotuner_active_channel := active_channels_sum (channels_ app) in
  if negb (_autotuner_active_channel =? 0) then
    match channel_of_index (_autotuner_active_channel - 1) with
    | Some ch =>
      let m := measure_frequency_and_calc_error (channels_ app ch) hw in
      Some (with_channels_ (<[ch := fst m]> (channels_ app)) app, snd m)
    | None => None
    end
  else if FreqMeasure.available (freq_measure hw) then
    (* average several readings together *)
    let sample := FreqMeasure.read (freq_measure hw) in
    let hw := with_freq_measure (snd sample) hw in
    let freq_sum := F64.add (freq_sum_ app) (F64.of_Z (fst sample)) in
    let freq_count := wrap_u32 (freq_count_ app + 1) in
    if 750 <? milliseconds_since_last_freq_ app then
      match F64.to_uint32 (F64.div freq_sum (F64.of_Z freq_count)) with
      | Some count =>
        let frequency := countToFrequency count in
        let app := mk (channels_ app) (selected_channel app) F64.zero 0
                      frequency 0 (freq_decicents_deviation_ app)
                      (freq_octave_ app) (freq_note_ app)
                      (freq_decicents_residual_ app) in
        match F64.to_int32
                (F64.add
                   (round (F64.mul (F64.of_Z 12000)
                             (F64.of_float
                                (log2f (F32.div frequency (get_C0_freq app))))))
                   (F64.of_Z 500)) with
        | Some deviation => Some (with_deviation deviation app, hw)
        | None => None
        end
      | None => None
      end
    else
      Some (mk (channels_ app) (selected_channel app) freq_sum freq_count
               (frequency_ app) (milliseconds_since_last_freq_ app)
               (freq_decicents_deviation_ app) (freq_octave_ app)
               (freq_note_ app) (freq_decicents_residual_ app),
            hw)
  else if 100000 <? milliseconds_since_last_freq_ app then
    Some (mk (channels_ app) (selected_channel app) (freq_sum_ app)
             (freq_count_ app) F32.zero (milliseconds_since_last_freq_ app)
             (freq_decicents_deviation_ app) (freq_octave_ app)
             (freq_note_ app) (freq_decicents_residual_ app),
          hw)
  else Some (app, hw).

End Members.
End ReferencesApp.

(** The tuner display fields of the application. *)
Definition tuner_reading (app : ReferencesApp.t) : Z * Z * Z * Z :=
  (ReferencesApp.freq_decicents_deviation_ app, ReferencesApp.freq_octave_ app,
   ReferencesApp.freq_note_ app, ReferencesApp.freq_decicents_residual_ app).

(** [ppqn_labels], the labels of the ppqn setting in the menu: the
    characters of " 1", " 2", " 4", " 8", "16", "24", "32", "48", "64",
    "96". *)
Definition ppqn_labels : list (list Z) :=
  [ [32; 49]; [32; 50]; [32; 52]; [32; 56]; [49; 54]; [50; 52]; [51; 50];
    [52; 56]; [54; 52]; [57; 54] ].

(** The number a label shows: its decimal digits. *)
Definition label_value (label : list Z) : Z :=
  foldl (fun n char =>
           if (48 <=? char) && (char <=? 57) then 10 * n + (char - 48) else n)
        0 label.

(** ** The application on the bench *)

(** The C library on the bench: [round] is exact (halves away from zero);
    [log2f] takes the logarithm to 40 fractional bits by repeated squaring
    and rounds that to a float. *)
Definition log2_bits (m : positive) : Z :=
  let k := Z.log2 (Z.pos m) in
  (* y in [1, 2), scaled by 2^64 *)
  let y0 := Z.shiftl (Z.pos m) (64 - k) in
  fst (Nat.iter 40
         (fun st => let y := Z.shiftr (snd st * snd st) 64 in
                    if Z.shiftl 2 64 <=? y
                    then (2 * fst st + 1, Z.shiftr y 1)
                    else (2 * fst st, y))
         (k, y0)).

Definition bench_libm : Libm :=
  {| log2f x :=
       match x with
       | S754_finite false m e =>
         binary_normalize F32.prec F32.emax
           (log2_bits m + Z.shiftl e 40) (- 40) false
       | S754_zero _ => S754_infinity true
       | S754_infinity false => x
       | _ => S754_nan
       end;
     round d :=
       match d with
       | S754_finite s m e =>
         if 0 <=? e then d
         else
           let q := Z.pos m / 2 ^ (- e) in
           let r := Z.pos m mod 2 ^ (- e) in
           let q := if 2 ^ (- e) <=? 2 * r then q + 1 else q in
           if q =? 0 then S754_zero s else F64.of_Z (cond_Zopp s q)
       | _ => d
       end |}.

Section AppScenarios.
#[local] Existing Instance bench.
#[local] Existing Instance bench_libm.

(** The application after [Init]. *)
Definition app_power_on : ReferencesApp.t * Hardware :=
  (ReferencesApp.Init
     (ReferencesApp.mk (fun _ => static_storage) 0 F64.zero 0 F32.zero 0
                       0 0 0 0),
   mkHardware [] power_on_dac).

(** The menu arms and runs one channel. *)
Definition arm_and_run (ch : DAC_CHANNEL) (s : ReferencesApp.t * Hardware)
  : ReferencesApp.t * Hardware :=
  let r := autotuner_run
             (autotuner_arm 1 (ReferencesApp.channels_ (fst s) ch)) (snd s) in
  (ReferencesApp.with_channels_
     (<[ch := fst r]> (ReferencesApp.channels_ (fst s))) (fst s),
   snd r).

Definition tuning_B : ReferencesApp.t * Hardware :=
  arm_and_run DAC_CHANNEL_B app_power_on.

Definition tuning_A_and_B : ReferencesApp.t * Hardware :=
  arm_and_run DAC_CHANNEL_A tuning_B.

(** No channel is tuned, a period of 440 Hz is pending, and the last
    reading is 751 ms old. *)
Definition listening : ReferencesApp.t * Hardware :=
  (ReferencesApp.mk (ReferencesApp.channels_ (fst app_power_on)) 3
                    F64.zero 0 F32.zero 751 0 0 0 0,
   mkHardware [136364] power_on_dac).

(** What the interrupt makes of it. *)
Definition heard : ReferencesApp.t * Hardware :=
  default listening (ReferencesApp.ISR (fst listening) (snd listening)).

End AppScenarios.

(** Every channel knows its own place in the array, as
    [ReferencesApp::Init] leaves it. *)
Definition channels_in_place (app : ReferencesApp.t) : Prop :=
  forall ch, dac_channel_ (ReferencesApp.channels_ app ch) = ch.

(** ** The screensaver *)

(** Constants and macros of the firmware headers that the screensaver
    uses. *)
Class Display : Type := {
  (** The macro [CONSTRAIN(x, lb, ub)], as the value it leaves in [x] *)
  CONSTRAIN : Z -> Z -> Z -> Z;
  (** [menu::kIndentDx] *)
  kIndentDx : Z;
  (** [menu::kTextDy] *)
  kTextDy : Z;
  (** [OC::kBitmapLoopMarkerW] *)
  kBitmapLoopMarkerW : Z
}.

(** The two formats of [print_voltage]: "%01d" and "%03d". *)
Inductive Format : Type := format_01d | format_03d.

(** The calls on [graphics], in the order they are made.  Coordinates
    ([weegfx::coord_t]) are integers; a character is its code. *)
Inductive Draw : Type :=
| setPixel (x y : Z)
| setPrintPos (x y : Z)
| movePrintPos (dx dy : Z)
| print_char (c : Z)
  (** [graphics.print(OC::Strings::note_names_unpadded[index])] *)
| print_note_name (index : Z)
| printf (format : Format) (n : Z)
| drawHLine (x y w : Z)
  (** [data] is the offset into [OC::bitmap_loop_markers_8] *)
| drawBitmap8 (x y w : Z) (data : Z).

Definition print_voltage (octave fraction : Z) : list Draw :=
  [printf format_01d octave;
   movePrintPos (- 1) 0; print_char 46 (* '.' *);
   movePrintPos (- 2) 0; printf format_03d fraction].

Section Screensaver.
Context `{Platform} `{Display}.

(** [ReferenceChannel::RenderScreensaver]; [app] is [references_app].
    [chan] arrives as the [uint8_t] of the parameter.  There is no result
    for a [chan] past the array of channels. *)
Definition RenderScreensaver
    (app : ReferencesApp.t) (this : ReferenceChannel) (start_x : Z) (chan : Z)
  : option (list Draw) :=
  match channel_of_index (wrap_u8 chan) with
  | None => None
  | Some ch =>
    let scaling := get_voltage_scaling (ReferencesApp.channels_ app ch) in
    (* Mostly borrowed from QQ *)
    let x := start_x + 26 in
    let y := 34 in
    let draws := [setPixel x y] in
    let pitch := last_pitch_ this in
    let unscaled_pitch := last_pitch_ this in
    let pitch :=
      match scaling with
      | 1 => (* 1.2V/oct *) Z.shiftr (wrap_s32 (pitch * 19661)) 14
      | 2 => (* 2V/oct *) wrap_s32 (Z.shiftl pitch 1)
      | _ => (* 1V/oct *) pitch
      end in
    let pitch := wrap_s32 (pitch + Z.shiftl (kOctaveZero * 12) 7) in
    let unscaled_pitch :=
      wrap_s32 (unscaled_pitch + Z.shiftl (kOctaveZero * 12) 7) in
    let pitch := CONSTRAIN pitch 0 (Z.shiftl 120 7) in
    let octave := pitch ÷ Z.shiftl 12 7 in
    let unscaled_octave := unscaled_pitch ÷ Z.shiftl 12 7 in
    let pitch := wrap_s32 (pitch - wrap_s32 (Z.shiftl (octave * 12) 7)) in
    let unscaled_pitch :=
      wrap_s32 (unscaled_pitch
                - wrap_s32 (Z.shiftl (unscaled_octave * 12) 7)) in
    let semitone := Z.shiftr pitch 7 in
    let unscaled_semitone := Z.shiftr unscaled_pitch 7 in
    let y := 34 - unscaled_semitone * 2 in
    let draws :=
      draws ++ [if unscaled_semitone <? 6
                then setPrintPos (start_x + kIndentDx) (y - 7)
                else setPrintPos (start_x + kIndentDx) y] in
    let draws := draws ++ [print_note_name unscaled_semitone] in
    let draws := draws ++ [drawHLine (start_x + 16) y 8] in
    let draws :=
      draws ++ [drawBitmap8 (start_x + 28) (34 - unscaled_octave * 2 - 1)
                            kBitmapLoopMarkerW kBitmapLoopMarkerW] in
    let octave := wrap_s32 (octave - kOctaveZero) in
    (* Try and round to 3 digits *)
    let semitone :=
      match scaling with
      | 1 => (* 1.2V/oct *)
        let semitone := Z.rem ((semitone * 10000 + 40) ÷ 100) 1000 in
        (* fudge *)
        let semitone := if octave =? - 2 then semitone - 100 else semitone in
        if (octave =? - 3) && negb (semitone =? 0)
        then semitone - 100 else semitone
      | _ => (* 2V/oct, 1V/oct *)
        Z.rem ((semitone * 10000 + 50) ÷ 120) 1000
      end in
    (* We want [sign]d.ddd = 6 chars in 32px space; with the current font
       width of 6px that's too tight, so squeeze in the mini minus... *)
    let y := kTextDy in
    let draws := draws ++ [setPrintPos (start_x + kIndentDx) y] in
    Some
      (draws
       ++ (if 0 <=? octave then print_voltage octave semitone
           else
             [drawHLine start_x (y + 3) 2]
             ++ (if negb (semitone =? 0)
                 then print_voltage (- octave - 1) (1000 - semitone)
                 else print_voltage (- octave) 0)))
  end.

End Screensaver.

(** The number a [print_voltage] shows, in thousandths, with the mini
    minus drawn before it or not. *)
Definition shown (minus : bool) (octave fraction : Z) : Z :=
  (if minus then - 1 else 1) * (1000 * octave + fraction).

(** The bench display: the usual clamp, and the layout constants. *)
Definition bench_display : Display :=
  {| CONSTRAIN x lb ub := if x <? lb then lb else if ub <? x then ub else x;
     kIndentDx := 2;
     kTextDy := 4;
     kBitmapLoopMarkerW := 8 |}.

Section ScreensaverScenarios.
#[local] Existing Instance bench.

(** Channel B after one tick of [modulating]: F in octave -6. *)
Definition modulated : ReferenceChannel :=
  fst (Update (fst modulating) (snd modulating)).

End ScreensaverScenarios.

(** * Properties *)

(** ** Machine integers *)

Lemma wrap_u8_mod n : wrap_u8 n = n mod 2 ^ 8.
Proof. unfold wrap_u8. change 0xFF with (Z.ones 8). apply Z.land_ones. lia. Qed.

Lemma wrap_u16_mod n : wrap_u16 n = n mod 2 ^ 16.
Proof. unfold wrap_u16. change 0xFFFF with (Z.ones 16). apply Z.land_ones. lia. Qed.

Lemma wrap_u32_mod n : wrap_u32 n = n mod 2 ^ 32.
Proof.
  unfold wrap_u32. change 0xFFFFFFFF with (Z.ones 32). apply Z.land_ones. lia.
Qed.

Lemma wrap_s16_mod n : wrap_s16 n = (n + 2 ^ 15) mod 2 ^ 16 - 2 ^ 15.
Proof.
  unfold wrap_s16. change 0xFFFF with (Z.ones 16).
  rewrite Z.land_ones by lia. reflexivity.
Qed.

Lemma wrap_s32_mod n : wrap_s32 n = (n + 2 ^ 31) mod 2 ^ 32 - 2 ^ 31.
Proof.
  unfold wrap_s32. change 0xFFFFFFFF with (Z.ones 32).
  rewrite Z.land_ones by lia. reflexivity.
Qed.

Lemma wrap_u8_small n : 0 <= n < 2 ^ 8 -> wrap_u8 n = n.
Proof. intros. rewrite wrap_u8_mod. apply Z.mod_small. lia. Qed.

Lemma wrap_u16_small n : 0 <= n < 2 ^ 16 -> wrap_u16 n = n.
Proof. intros. rewrite wrap_u16_mod. apply Z.mod_small. lia. Qed.

Lemma wrap_u32_small n : 0 <= n < 2 ^ 32 -> wrap_u32 n = n.
Proof. intros. rewrite wrap_u32_mod. apply Z.mod_small. lia. Qed.

Lemma wrap_s32_small n : - 2 ^ 31 <= n < 2 ^ 31 -> wrap_s32 n = n.
Proof. intros. rewrite wrap_s32_mod, Z.mod_small; lia. Qed.

Lemma wrap_u32_range n : 0 <= wrap_u32 n < 2 ^ 32.
Proof. rewrite wrap_u32_mod. apply Z.mod_pos_bound. lia. Qed.

(** Setting the low bit adds at most one. *)
Lemma lor_1_bounds a : 0 <= a -> a <= Z.lor a 1 <= a + 1 /\ 1 <= Z.lor a 1.
Proof.
  intros Ha. destruct a as [|p|p]; [cbv [Z.lor]; lia | | lia].
  destruct p; cbv [Z.lor Pos.lor]; lia.
Qed.

(** The halving of the correction factor: [(F >> 1) | 1u]. *)
Lemma halve_bounds F :
  1 <= F <= 0xFFFF ->
  let F' := wrap_u16 (Z.lor (Z.shiftr F 1) 1) in
  1 <= F' <= F /\ (1 < F -> F' < F) /\ (F = 1 -> F' = 1).
Proof.
  intros HF F'. subst F'.
  rewrite Z.shiftr_div_pow2 by lia. change (2 ^ 1) with 2.
  assert (0 <= F / 2) by (apply Z.div_pos; lia).
  destruct (lor_1_bounds (F / 2)) as [[Hlo Hhi] Hone]; [lia|].
  assert (F / 2 * 2 <= F) by (pose proof (Z.mul_div_le F 2); lia).
  rewrite wrap_u16_small by lia.
  split; [lia|]. split.
  - intros HF1. destruct (Z.eq_dec F 2) as [->|Hne]; [reflexivity | lia].
  - intros HF1. subst F. reflexivity.
Qed.

Section Properties.
Context `{Platform}.

(** ** What [auto_frequency] leaves alone *)

Ltac frame_auto_frequency :=
  intros;
  match goal with c : ReferenceChannel |- _ => destruct c end;
  unfold auto_frequency; simpl;
  repeat match goal with
         | |- context [if ?b then _ else _] => destruct b
         end; reflexivity.

Lemma auto_frequency_step c hw :
  autotuner_step_ (snd (fst (auto_frequency c hw))) = autotuner_step_ c.
Proof. frame_auto_frequency. Qed.

Lemma auto_frequency_passes c hw :
  auto_num_passes_ (snd (fst (auto_frequency c hw))) = auto_num_passes_ c.
Proof. frame_auto_frequency. Qed.

Lemma auto_frequency_offset c hw :
  auto_DAC_offset_error_ (snd (fst (auto_frequency c hw)))
  = auto_DAC_offset_error_ c.
Proof. frame_auto_frequency. Qed.

Lemma auto_frequency_factor c hw :
  F_correction_factor_ (snd (fst (auto_frequency c hw)))
  = F_correction_factor_ c.
Proof. frame_auto_frequency. Qed.

Lemma auto_frequency_direction c hw :
  correction_direction_ (snd (fst (auto_frequency c hw)))
  = correction_direction_ c.
Proof. frame_auto_frequency. Qed.

Lemma auto_frequency_autotuner c hw :
  autotuner_ (snd (fst (auto_frequency c hw))) = autotuner_ c.
Proof. frame_auto_frequency. Qed.

Lemma auto_frequency_completed c hw :
  autotune_completed_ (snd (fst (auto_frequency c hw))) = autotune_completed_ c.
Proof. frame_auto_frequency. Qed.

Lemma auto_frequency_channel c hw :
  dac_channel_ (snd (fst (auto_frequency c hw))) = dac_channel_ c.
Proof. frame_auto_frequency. Qed.

Lemma auto_frequency_calibration_data c hw :
  auto_calibration_data_ (snd (fst (auto_frequency c hw)))
  = auto_calibration_data_ c.
Proof. frame_auto_frequency. Qed.

Lemma auto_frequency_last_frequency c hw :
  auto_last_frequency_ (snd (fst (auto_frequency c hw)))
  = auto_last_frequency_ c.
Proof. frame_auto_frequency. Qed.

Lemma auto_frequency_targets c hw :
  auto_target_frequencies_ (snd (fst (auto_frequency c hw)))
  = auto_target_frequencies_ c.
Proof. frame_auto_frequency. Qed.

Lemma auto_frequency_dac c hw : dac (snd (auto_frequency c hw)) = dac hw.
Proof. frame_auto_frequency. Qed.

(** The error flag is only ever raised by the averager. *)
Lemma auto_frequency_error_kept c hw :
  auto_error_ c = true -> auto_error_ (snd (fst (auto_frequency c hw))) = true.
Proof.
  intros E. destruct c. unfold auto_frequency. simpl in *.
  repeat match goal with
         | |- context [if ?b then _ else _] => destruct b
         end; simpl; auto.
Qed.

Lemma auto_frequency_timeout c hw :
  ERROR_TIMEOUT < ticks_since_last_freq_ c ->
  auto_error_ (snd (fst (auto_frequency c hw))) = true.
Proof.
  intros Ht. destruct c. unfold auto_frequency. simpl in *.
  apply Z.ltb_lt in Ht. rewrite Ht. simpl.
  repeat match goal with
         | |- context [if ?b then _ else _] => destruct b
         end; reflexivity.
Qed.

(** ** The dispatch on the step *)

Lemma measure_in_DAC_VOLT c hw :
  DAC_VOLT_3m <= autotuner_step_ c <= DAC_VOLT_6 ->
  measure_frequency_and_calc_error c hw = case_DAC_VOLT c hw.
Proof.
  intros Hs. unfold measure_frequency_and_calc_error.
  assert (Hcases : autotuner_step_ c = 2 \/ autotuner_step_ c = 3
                   \/ autotuner_step_ c = 4 \/ autotuner_step_ c = 5
                   \/ autotuner_step_ c = 6 \/ autotuner_step_ c = 7
                   \/ autotuner_step_ c = 8 \/ autotuner_step_ c = 9
                   \/ autotuner_step_ c = 10 \/ autotuner_step_ c = 11) by lia.
  repeat destruct Hcases as [-> | Hcases]; try reflexivity.
  rewrite Hcases. reflexivity.
Qed.

Lemma measure_dispatch c hw :
  measure_frequency_and_calc_error c hw =
  if autotuner_step_ c =? DAC_VOLT_0_ARM then (c, hw)
  else if autotuner_step_ c =? DAC_VOLT_0_BASELINE
       then case_DAC_VOLT_0_BASELINE c hw
  else if (DAC_VOLT_3m <=? autotuner_step_ c)
          && (autotuner_step_ c <=? DAC_VOLT_6)
       then case_DAC_VOLT c hw
  else if autotuner_step_ c =? AUTO_CALIBRATION_STEP_LAST
       then case_AUTO_CALIBRATION_STEP_LAST c hw
  else (with_autotuner_ false (with_autotuner_step_ DAC_VOLT_0_ARM c), hw).
Proof.
  unfold measure_frequency_and_calc_error.
  destruct (autotuner_step_ c) as [|p|p]; [reflexivity | | reflexivity].
  destruct p as [[[[p|p|]|[p|p|]|]|[[p|p|]|[p|p|]|]|]
                |[[[p|p|]|[p|p|]|]|[[p|p|]|[p|p|]|]|]|];
    cbv beta iota delta [Z.eqb Z.leb Z.compare Pos.eqb Pos.compare
                         Pos.compare_cont andb];
    reflexivity.
Qed.

(** ** Reset *)

Lemma reset_calibration_data_clears c :
  length (auto_calibration_data_ c) = 11%nat ->
  auto_calibration_data_ (reset_calibration_data c) = replicate 11 0.
Proof.
  destruct c as [? ? ? ? ? ? ? ? ? data ? ? ? ? ? ? ? ? ? ? ? ? ? ? ? ?].
  cbn [auto_calibration_data_]. intros Hlen.
  destruct data as [|x0 l]; [discriminate|].
  do 10 (destruct l as [|? l]; [discriminate|]).
  destruct l; [reflexivity | discriminate].
Qed.

Lemma reset_autotuner_data c :
  auto_calibration_data_ (reset_autotuner c)
  = auto_calibration_data_ (reset_calibration_data c).
Proof.
  destruct c. reflexivity.
Qed.

(** C6: after [reset_autotuner] the eleven correction entries are zero,
    the measured and the last-settled frequency are zero, and the channel
    is in the ARM step with the autotuner switched off (idle). *)
Theorem reset_autotuner_clears (c : ReferenceChannel) :
  length (auto_calibration_data_ c) = 11%nat ->
  auto_calibration_data_ (reset_autotuner c) = replicate 11 0
  /\ auto_frequency_ (reset_autotuner c) = F32.zero
  /\ auto_last_frequency_ (reset_autotuner c) = F32.zero
  /\ autotuner_step_ (reset_autotuner c) = DAC_VOLT_0_ARM
  /\ autotuner_ (reset_autotuner c) = false.
Proof.
  intros Hlen. split.
  - rewrite reset_autotuner_data. apply reset_calibration_data_clears, Hlen.
  - destruct c. repeat split.
Qed.

(** ** The target table *)

(** C4: when BASELINE completes with a 0 V frequency of 100 Hz, the table
    written is exactly 12.5, 25, 50, 100, 200, 400, 800, 1600, 3200, 6400
    and 12800 Hz. *)
Theorem target_table_at_100Hz (c : ReferenceChannel) (hw : Hardware) :
  autotuner_step_ c = DAC_VOLT_0_BASELINE ->
  fst (fst (auto_frequency c hw)) = true ->
  Z.of_nat kHistoryDepth < auto_num_passes_ c ->
  average_with_history (measured (c, hw)) = F32.of_Z 100 ->
  auto_target_frequencies_ (fst (measure_frequency_and_calc_error c hw))
  = [F32.dec 125 1; F32.of_Z 25; F32.of_Z 50; F32.of_Z 100; F32.of_Z 200;
     F32.of_Z 400; F32.of_Z 800; F32.of_Z 1600; F32.of_Z 3200; F32.of_Z 6400;
     F32.of_Z 12800].
Proof.
  intros Hstep Hemit Hpasses Hf0.
  rewrite measure_dispatch, Hstep. cbn [Z.eqb Pos.eqb].
  unfold case_DAC_VOLT_0_BASELINE. rewrite Hemit, auto_frequency_passes.
  apply Z.ltb_lt in Hpasses. rewrite Hpasses. cbn [andb fst].
  unfold measured in Hf0. cbn [fst snd] in Hf0. revert Hf0.
  destruct (auto_frequency c hw) as [[u c'] hw']. destruct c'.
  unfold average_with_history. simpl. intros ->. vm_compute. reflexivity.
Qed.

(** C9: without BUCHLA_SUPPORT the voltage scaling read is 0 for every
    channel, and a call of [measure_frequency_and_calc_error] either leaves
    the target table as it is or writes the 1 V/octave table; the 1.2 V and
    2 V tables are never written. *)
Theorem voltage_scaling_always_1V (c : ReferenceChannel) (hw : Hardware) :
  get_voltage_scaling c = 0
  /\ (auto_target_frequencies_ (fst (measure_frequency_and_calc_error c hw))
      = auto_target_frequencies_ c
      \/ auto_target_frequencies_ (fst (measure_frequency_and_calc_error c hw))
         = map (F32.mul (average_with_history (measured (c, hw))))
               [F32.dec 125 3; F32.dec 25 2; F32.dec 5 1; F32.dec 10 1;
                F32.dec 20 1; F32.dec 40 1; F32.dec 80 1; F32.dec 160 1;
                F32.dec 320 1; F32.dec 640 1; F32.dec 1280 1]).
Proof.
  split; [reflexivity|].
  rewrite measure_dispatch.
  unfold case_DAC_VOLT_0_BASELINE, case_DAC_VOLT,
    case_AUTO_CALIBRATION_STEP_LAST, measured.
  cbn [fst snd].
  pose proof (auto_frequency_targets c hw) as Hframe.
  destruct (auto_frequency c hw) as [[u c'] hw'].
  destruct c, c'. cbn [fst snd] in *. simpl in Hframe.
  unfold average_with_history.
  repeat (simpl;
          match goal with
          | |- context [if ?b then _ else _] => destruct b
          end);
    simpl; first [left; assumption | left; reflexivity | right; reflexivity].
Qed.

(** ** One equation per call *)

Lemma exec_capture c hw n :
  exec (c, hw) (capture n)
  = (c, with_freq_measure (FreqMeasure.capture n (freq_measure hw)) hw).
Proof. reflexivity. Qed.

Lemma exec_Update c hw : exec (c, hw) call_Update = Update c hw.
Proof. reflexivity. Qed.

Lemma exec_measure c hw :
  exec (c, hw) call_measure_frequency_and_calc_error
  = measure_frequency_and_calc_error c hw.
Proof. reflexivity. Qed.

Lemma exec_arm c hw _status :
  exec (c, hw) (call_autotuner_arm _status) = (autotuner_arm _status c, hw).
Proof. reflexivity. Qed.

Lemma exec_run c hw : exec (c, hw) call_autotuner_run = autotuner_run c hw.
Proof. reflexivity. Qed.

Lemma exec_reset c hw :
  exec (c, hw) call_reset_autotuner = (reset_autotuner c, hw).
Proof. reflexivity. Qed.

Lemma exec_reset_completed c hw :
  exec (c, hw) call_autotuner_reset_completed
  = (with_autotune_completed_ false c, hw).
Proof. reflexivity. Qed.

Lemma exec_use_default c hw :
  exec (c, hw) call_use_default
  = (c, with_dac (DAC.set_default_channel_calibration_data
                    (dac_channel_ c) (dac hw)) hw).
Proof. reflexivity. Qed.

Lemma exec_use_auto_calibration c hw :
  exec (c, hw) call_use_auto_calibration
  = (c, with_dac (DAC.set_auto_channel_calibration_data
                    (dac_channel_ c) (dac hw)) hw).
Proof. reflexivity. Qed.

Ltac exec_equation :=
  rewrite ?exec_capture, ?exec_Update, ?exec_measure, ?exec_arm, ?exec_run,
    ?exec_reset, ?exec_reset_completed, ?exec_use_default,
    ?exec_use_auto_calibration.

Ltac exec_equation_in H :=
  rewrite ?exec_capture, ?exec_Update, ?exec_measure, ?exec_arm, ?exec_run,
    ?exec_reset, ?exec_reset_completed, ?exec_use_default,
    ?exec_use_auto_calibration in H.

(** ** How the step moves *)

Ltac split_ifs :=
  repeat (simpl;
          match goal with
          | |- context [if ?b then _ else _] => destruct b eqn:?
          end);
  simpl.

Lemma case_DAC_VOLT_0_BASELINE_step c hw :
  autotuner_step_ (fst (case_DAC_VOLT_0_BASELINE c hw)) = autotuner_step_ c
  \/ autotuner_step_ (fst (case_DAC_VOLT_0_BASELINE c hw))
     = wrap_u8 (autotuner_step_ c + 1).
Proof.
  unfold case_DAC_VOLT_0_BASELINE.
  pose proof (auto_frequency_step c hw) as Hstep.
  destruct (auto_frequency c hw) as [[u c'] hw'].
  destruct c, c'. cbn [fst snd] in *. simpl in Hstep.
  split_ifs; rewrite Hstep; auto.
Qed.

Lemma case_DAC_VOLT_step c hw :
  autotuner_step_ (fst (case_DAC_VOLT c hw)) = autotuner_step_ c
  \/ autotuner_step_ (fst (case_DAC_VOLT c hw))
     = wrap_u8 (autotuner_step_ c + 1).
Proof.
  unfold case_DAC_VOLT.
  pose proof (auto_frequency_step c hw) as Hstep.
  destruct (auto_frequency c hw) as [[u c'] hw'].
  destruct c, c'. cbn [fst snd] in *. simpl in Hstep.
  split_ifs; rewrite Hstep; auto.
Qed.

(** Leaving the last step raises the completion flag and makes the
    learned table the live one. *)
Lemma case_AUTO_CALIBRATION_STEP_LAST_step c hw :
  autotuner_step_ (fst (case_AUTO_CALIBRATION_STEP_LAST c hw))
  = autotuner_step_ c
  \/ autotune_completed_ (fst (case_AUTO_CALIBRATION_STEP_LAST c hw)) = true
     /\ DAC.calibration_data_used
          (dac_channel_ (fst (case_AUTO_CALIBRATION_STEP_LAST c hw)))
          (dac (snd (case_AUTO_CALIBRATION_STEP_LAST c hw)))
        = CALIBRATION_AUTO.
Proof.
  unfold case_AUTO_CALIBRATION_STEP_LAST. destruct c.
  split_ifs; auto; right; split; try reflexivity;
    unfold DAC.calibration_data_used; simpl; apply fn_lookup_insert.
Qed.

Lemma autotune_updateDAC_step c hw :
  autotuner_step_ (fst (autotune_updateDAC c hw)) = autotuner_step_ c.
Proof.
  unfold autotune_updateDAC.
  repeat case_match; cbn [fst snd]; rewrite ?auto_frequency_step;
    destruct c; simpl in *; congruence.
Qed.

Lemma Update_step c hw :
  autotuner_step_ (fst (Update c hw)) = autotuner_step_ c.
Proof.
  unfold Update. destruct (autotuner_ c) eqn:Ha.
  - pose proof (autotune_updateDAC_step c hw) as Hs.
    destruct (autotune_updateDAC c hw) as [c' hw'].
    destruct c'. simpl in *. exact Hs.
  - destruct c. split_ifs; reflexivity.
Qed.

Lemma reset_autotuner_step c : autotuner_step_ (reset_autotuner c) = 0.
Proof. destruct c. reflexivity. Qed.

Lemma autotuner_arm_step _status c :
  autotuner_step_ (autotuner_arm _status c) = 0.
Proof. destruct c. reflexivity. Qed.

Lemma autotuner_run_step c hw :
  autotuner_step_ (fst (autotuner_run c hw)) = 0
  \/ autotuner_step_ (fst (autotuner_run c hw)) = 1.
Proof. destruct c as [? ? ? ? [] ?]; simpl; auto. Qed.

(** C7: whichever call takes the channel into the step after
    [AUTO_CALIBRATION_STEP_LAST] (DONE), the completion flag is raised and
    the DAC driver uses the learned ("auto") table for the channel. *)
Theorem done_entered_with_auto_table
    (s : ReferenceChannel * Hardware) (e : Call) :
  autotuner_step_ (fst s) <> AUTO_CALIBRATION_STEP_LAST + 1 ->
  autotuner_step_ (fst (exec s e)) = AUTO_CALIBRATION_STEP_LAST + 1 ->
  autotune_completed_ (fst (exec s e)) = true
  /\ DAC.calibration_data_used (dac_channel_ (fst (exec s e)))
                               (dac (snd (exec s e)))
     = CALIBRATION_AUTO.
Proof.
  destruct s as [c hw]. cbn [fst snd]. intros Hbefore Hafter.
  destruct e; exec_equation; exec_equation_in Hafter;
    cbn [fst snd] in Hafter |- *.
  - (* capture *) contradiction.
  - (* Update *)
    rewrite Update_step in Hafter. contradiction.
  - (* measure_frequency_and_calc_error *)
    rewrite measure_dispatch in Hafter |- *.
    destruct (autotuner_step_ c =? 0) eqn:E0;
      [cbn [fst] in Hafter; contradiction|].
    destruct (autotuner_step_ c =? 1) eqn:E1.
    { apply Z.eqb_eq in E1.
      destruct (case_DAC_VOLT_0_BASELINE_step c hw) as [Hs | Hs];
        rewrite Hs, ?E1 in Hafter; [lia | discriminate]. }
    destruct ((2 <=? autotuner_step_ c) && (autotuner_step_ c <=? 11)) eqn:E2.
    { apply andb_true_iff in E2 as [Hlo Hhi].
      apply Z.leb_le in Hlo, Hhi.
      destruct (case_DAC_VOLT_step c hw) as [Hs | Hs];
        rewrite Hs in Hafter; [contradiction|].
      rewrite wrap_u8_small in Hafter; lia. }
    destruct (autotuner_step_ c =? 12) eqn:E3.
    { destruct (case_AUTO_CALIBRATION_STEP_LAST_step c hw) as [Hs | Hs];
        [rewrite Hs in Hafter; contradiction | exact Hs]. }
    destruct c. simpl in Hafter. discriminate.
  - (* autotuner_arm *)
    rewrite autotuner_arm_step in Hafter. discriminate.
  - (* autotuner_run *)
    destruct (autotuner_run_step c hw) as [Hs | Hs];
      rewrite Hs in Hafter; discriminate.
  - (* reset_autotuner *)
    rewrite reset_autotuner_step in Hafter. discriminate.
  - (* autotuner_reset_completed *) destruct c. contradiction.
  - (* use_default *) contradiction.
  - (* use_auto_calibration *) contradiction.
Qed.

(** ** No signal *)

Lemma Update_in_ARM c hw :
  autotuner_ c = true ->
  autotuner_step_ c = DAC_VOLT_0_ARM ->
  freq_measure hw = [] ->
  let s := Update c hw in
  autotuner_ (fst s) = true
  /\ autotuner_step_ (fst s) = DAC_VOLT_0_ARM
  /\ freq_measure (snd s) = []
  /\ ticks_since_last_freq_ (fst s) = wrap_u32 (ticks_since_last_freq_ c + 1)
  /\ (auto_error_ c = true \/ ERROR_TIMEOUT < ticks_since_last_freq_ c ->
      auto_error_ (fst s) = true).
Proof.
  destruct c, hw. simpl. intros -> -> ->.
  unfold Update, autotune_updateDAC, auto_frequency. simpl.
  destruct (ERROR_TIMEOUT <? _) eqn:Ht; simpl;
    repeat split; auto.
  intros [He | He]; [exact He|]. apply Z.ltb_lt in He. congruence.
Qed.

Lemma silent_updates_in_ARM c hw n :
  autotuner_ c = true ->
  autotuner_step_ c = DAC_VOLT_0_ARM ->
  freq_measure hw = [] ->
  ticks_since_last_freq_ c = 0 ->
  let s := run (c, hw) (replicate n call_Update) in
  autotuner_ (fst s) = true
  /\ autotuner_step_ (fst s) = DAC_VOLT_0_ARM
  /\ freq_measure (snd s) = []
  /\ (Z.of_nat n <= ERROR_TIMEOUT + 1 ->
      ticks_since_last_freq_ (fst s) = Z.of_nat n)
  /\ (ERROR_TIMEOUT + 1 < Z.of_nat n -> auto_error_ (fst s) = true).
Proof.
  intros Ha Hs Hfm Ht. change ERROR_TIMEOUT with 8192. induction n as [|n IH].
  - cbn [replicate run foldl fst snd]. repeat split; auto; lia.
  - replace (S n) with (n + 1)%nat by lia.
    rewrite replicate_add. unfold run in *. rewrite foldl_app.
    cbn [replicate foldl].
    destruct (foldl exec (c, hw) (replicate n call_Update)) as [c1 hw1].
    cbn [fst snd] in IH. destruct IH as (Ha1 & Hs1 & Hfm1 & Hticks & Herr).
    rewrite exec_Update.
    destruct (Update_in_ARM c1 hw1 Ha1 Hs1 Hfm1) as (Ha2 & Hs2 & Hfm2 & Ht2 & He2).
    change ERROR_TIMEOUT with 8192 in He2.
    repeat split; auto.
    + intros Hn. rewrite Ht2, Hticks by lia.
      rewrite wrap_u32_small; lia.
    + intros Hn. apply He2.
      destruct (Z_le_gt_dec (Z.of_nat n) (8192 + 1)) as [Hle | Hgt].
      * right. rewrite Hticks by exact Hle. lia.
      * left. apply Herr. lia.
Qed.

(** C10: the averager raises the error flag whenever more than
    [ERROR_TIMEOUT] ticks have passed, whatever the step; and a channel that
    is armed and then only ticked, with no signal at the input, has the
    flag raised after 8194 calls of [Update] while still in the ARM step. *)
Theorem no_signal_latches_in_ARM
    (c : ReferenceChannel) (hw : Hardware) (n : nat) :
  (ERROR_TIMEOUT < ticks_since_last_freq_ c ->
   auto_error_ (snd (fst (auto_frequency c hw))) = true)
  /\ (let s := run (autotuner_arm 1 c, with_freq_measure [] hw)
                   (replicate (Z.to_nat 8194 + n) call_Update) in
      autotuner_step_ (fst s) = DAC_VOLT_0_ARM
      /\ autotuner_ (fst s) = true
      /\ auto_error_ (fst s) = true).
Proof.
  split; [apply auto_frequency_timeout|].
  destruct (silent_updates_in_ARM (autotuner_arm 1 c) (with_freq_measure [] hw)
              (Z.to_nat 8194 + n)) as (Ha & Hs & _ & _ & Herr);
    try (destruct c; reflexivity).
  cbv zeta. repeat split; auto.
  apply Herr. change ERROR_TIMEOUT with 8192. lia.
Qed.

(** ** The bound on the correction *)

Ltac bool_to_Prop :=
  repeat match goal with
         | H : (_ && _) = true |- _ => apply andb_true_iff in H as [? ?]
         | H : (_ <? _) = true |- _ => apply Z.ltb_lt in H
         | H : (_ <? _) = false |- _ => apply Z.ltb_ge in H
         | H : (_ <=? _) = true |- _ => apply Z.leb_le in H
         | H : (_ <=? _) = false |- _ => apply Z.leb_gt in H
         | H : (_ =? _) = true |- _ => apply Z.eqb_eq in H
         | H : (_ =? _) = false |- _ => apply Z.eqb_neq in H
         | H : negb _ = true |- _ => apply negb_true_iff in H
         | H : negb _ = false |- _ => apply negb_false_iff in H
         end.

Lemma case_DAC_VOLT_bounded c hw :
  offset_bounded c -> offset_bounded (fst (case_DAC_VOLT c hw)).
Proof.
  unfold case_DAC_VOLT, offset_bounded.
  pose proof (auto_frequency_factor c hw) as HF.
  pose proof (auto_frequency_passes c hw) as Hp.
  pose proof (auto_frequency_offset c hw) as Ho.
  destruct (auto_frequency c hw) as [[u c'] hw'].
  destruct c, c'. cbn [fst snd] in *. simpl in HF, Hp, Ho. subst.
  simpl. change MAX_NUM_PASSES with 1500.
  change (Z.shiftl 1500 1) with 3000.
  intros (HF & Hp & Ho).
  destruct u; cbn [andb]; [|simpl; auto].
  destruct (1500 <? _) eqn:Hmax; [split_ifs; lia|].
  apply Z.ltb_ge in Hmax. cbn [negb].
  match type of HF with
  | 1 <= ?F <= _ => pose proof (halve_bounds F ltac:(lia)) as HF'
  end.
  cbv zeta in HF'.
  split_ifs; simpl in *; bool_to_Prop;
    rewrite ?wrap_u32_small by lia; rewrite ?wrap_s32_small by lia; lia.
Qed.

Lemma case_DAC_VOLT_0_BASELINE_bounded c hw :
  offset_bounded c -> offset_bounded (fst (case_DAC_VOLT_0_BASELINE c hw)).
Proof.
  unfold case_DAC_VOLT_0_BASELINE, offset_bounded.
  pose proof (auto_frequency_factor c hw) as HF.
  pose proof (auto_frequency_passes c hw) as Hp.
  pose proof (auto_frequency_offset c hw) as Ho.
  destruct (auto_frequency c hw) as [[u c'] hw'].
  destruct c, c'. cbn [fst snd] in *. simpl in HF, Hp, Ho. subst.
  simpl. change MAX_NUM_PASSES with 1500.
  change (Z.of_nat kHistoryDepth) with 10.
  intros (HF & Hp & Ho).
  destruct u; cbn [andb]; [|simpl; auto].
  destruct (10 <? _) eqn:Hmax; simpl; [lia|].
  apply Z.ltb_ge in Hmax. rewrite wrap_u32_small by lia. lia.
Qed.

Lemma case_AUTO_CALIBRATION_STEP_LAST_bounded c hw :
  offset_bounded c ->
  offset_bounded (fst (case_AUTO_CALIBRATION_STEP_LAST c hw)).
Proof.
  unfold case_AUTO_CALIBRATION_STEP_LAST, offset_bounded.
  destruct c. split_ifs; auto.
Qed.

Lemma measure_bounded c hw :
  offset_bounded c ->
  offset_bounded (fst (measure_frequency_and_calc_error c hw)).
Proof.
  intros Hc. rewrite measure_dispatch.
  repeat match goal with
         | |- context [if ?b then _ else _] => destruct b
         end.
  - exact Hc.
  - apply case_DAC_VOLT_0_BASELINE_bounded, Hc.
  - apply case_DAC_VOLT_bounded, Hc.
  - apply case_AUTO_CALIBRATION_STEP_LAST_bounded, Hc.
  - destruct c. exact Hc.
Qed.

Lemma Update_bounded c hw :
  offset_bounded c -> offset_bounded (fst (Update c hw)).
Proof.
  unfold Update, autotune_updateDAC, offset_bounded.
  pose proof (auto_frequency_factor (with_F_correction_factor_ 1 c) hw) as HF.
  pose proof (auto_frequency_passes (with_F_correction_factor_ 1 c) hw) as Hp.
  pose proof (auto_frequency_offset (with_F_correction_factor_ 1 c) hw) as Ho.
  destruct (auto_frequency (with_F_correction_factor_ 1 c) hw)
    as [[u c'] hw'].
  destruct c, c'. cbn [fst snd] in *. simpl in HF, Hp, Ho. subst.
  simpl. intros (HF & Hp & Ho).
  repeat case_match; simpl; split_ifs; simpl; lia.
Qed.

Lemma reset_autotuner_bounded c : offset_bounded (reset_autotuner c).
Proof.
  destruct c. unfold offset_bounded. cbn. change MAX_NUM_PASSES with 1500. lia.
Qed.

Lemma exec_bounded s e :
  offset_bounded (fst s) -> offset_bounded (fst (exec s e)).
Proof.
  destruct s as [c hw]. intros Hc.
  destruct e; exec_equation.
  - exact Hc.
  - apply Update_bounded, Hc.
  - apply measure_bounded, Hc.
  - pose proof (reset_autotuner_bounded c) as Hr.
    unfold autotuner_arm. destruct (reset_autotuner c). exact Hr.
  - unfold autotuner_run. destruct c.
    cbn [fst snd] in *. split_ifs; exact Hc.
  - apply reset_autotuner_bounded.
  - destruct c. exact Hc.
  - exact Hc.
  - exact Hc.
Qed.

Lemma power_on_bounded ch : offset_bounded (fst (power_on ch)).
Proof. unfold offset_bounded. cbn. change MAX_NUM_PASSES with 1500. lia. Qed.

Lemma reachable_bounded ch s : reachable ch s -> offset_bounded (fst s).
Proof.
  induction 1 as [|s e _ IH]; [apply power_on_bounded | apply exec_bounded, IH].
Qed.

Lemma reachable_run ch s calls :
  reachable ch s -> reachable ch (run s calls).
Proof.
  revert s. induction calls as [|e calls IH]; intros s Hs; [exact Hs|].
  apply (IH (exec s e)). constructor. exact Hs.
Qed.

(** C1, as the code has it: in every state a channel can reach, in
    particular during every convergence step, the correction
    [auto_DAC_offset_error_] is at most [0xFF * (MAX_NUM_PASSES + 1)]
    = 382755 in absolute value: a step corrects at most 1501 times, by at
    most 0xFF each time. *)
Theorem offset_error_bounded
    (ch : DAC_CHANNEL) (s : ReferenceChannel * Hardware) :
  reachable ch s ->
  Z.abs (auto_DAC_offset_error_ (fst s)) <= 0xFF * (MAX_NUM_PASSES + 1).
Proof.
  intros Hs. destruct (reachable_bounded ch s Hs) as (_ & _ & Ho). lia.
Qed.

(** ** Leaving a voltage step *)

(** An emit that finds the pass budget used up stores the step and moves
    on; on the way the doubling check may raise the error flag. *)
Lemma case_DAC_VOLT_advance c hw :
  fst (fst (auto_frequency c hw)) = true ->
  MAX_NUM_PASSES < auto_num_passes_ c ->
  autotuner_step_ (fst (case_DAC_VOLT c hw)) = wrap_u8 (autotuner_step_ c + 1)
  /\ auto_calibration_data_ (fst (case_DAC_VOLT c hw))
     = <[Z.to_nat (autotuner_step_ c - DAC_VOLT_3m)
         := wrap_s16 (auto_DAC_offset_error_ c)]> (auto_calibration_data_ c)
  /\ auto_error_ (fst (case_DAC_VOLT c hw))
     = auto_error_ (measured (c, hw))
       || ((DAC_VOLT_2m <? autotuner_step_ c)
           && F32.gtb (F32.mul (auto_last_frequency_ c) (F32.dec 125 2))
                      (auto_frequency_ (measured (c, hw))))
  /\ auto_last_frequency_ (fst (case_DAC_VOLT c hw))
     = average_with_history (measured (c, hw)).
Proof.
  unfold case_DAC_VOLT, measured. cbn [fst snd].
  pose proof (auto_frequency_step c hw) as Hs.
  pose proof (auto_frequency_passes c hw) as Hp.
  pose proof (auto_frequency_offset c hw) as Ho.
  pose proof (auto_frequency_calibration_data c hw) as Hd.
  pose proof (auto_frequency_last_frequency c hw) as Hl.
  destruct (auto_frequency c hw) as [[u c'] hw'].
  destruct c, c'. cbn [fst snd] in *. simpl in Hs, Hp, Ho, Hd, Hl. subst.
  simpl. intros -> Hmax. apply Z.ltb_lt in Hmax. rewrite Hmax. cbn [andb].
  unfold average_with_history.
  destruct (_ && _); simpl; rewrite ?orb_true_r, ?orb_false_r; auto.
Qed.

(** C2, as the code has it: when the doubling check fails on leaving one
    of the steps [DAC_VOLT_1m] to [DAC_VOLT_6], the error flag is raised,
    and the correction of the step is stored and the channel moves to the
    next step all the same. *)
Theorem failed_doubling_check_latches_and_advances
    (c : ReferenceChannel) (hw : Hardware) :
  DAC_VOLT_2m < autotuner_step_ c <= DAC_VOLT_6 ->
  fst (fst (auto_frequency c hw)) = true ->
  MAX_NUM_PASSES < auto_num_passes_ c ->
  F32.gtb (F32.mul (auto_last_frequency_ c) (F32.dec 125 2))
          (auto_frequency_ (measured (c, hw))) = true ->
  auto_error_ (fst (measure_frequency_and_calc_error c hw)) = true
  /\ autotuner_step_ (fst (measure_frequency_and_calc_error c hw))
     = autotuner_step_ c + 1
  /\ auto_calibration_data_ (fst (measure_frequency_and_calc_error c hw))
     = <[Z.to_nat (autotuner_step_ c - DAC_VOLT_3m)
         := wrap_s16 (auto_DAC_offset_error_ c)]> (auto_calibration_data_ c).
Proof.
  intros Hstep Hemit Hmax Hcheck.
  rewrite measure_in_DAC_VOLT by lia.
  destruct (case_DAC_VOLT_advance c hw Hemit Hmax) as (Hs & Hd & He & _).
  rewrite Hs, Hd, He, Hcheck.
  replace (3 <? autotuner_step_ c) with true by (symmetry; apply Z.ltb_lt; lia).
  rewrite orb_true_r, wrap_u8_small by lia. auto.
Qed.

(** C3, as the code has it: on leaving a voltage step the error flag is
    raised by the doubling check exactly when the step is past
    [DAC_VOLT_2m] and [auto_last_frequency_ * 1.25f > auto_frequency_];
    leaving [DAC_VOLT_3m] or [DAC_VOLT_2m] the comparison plays no part. *)
Theorem doubling_check_past_DAC_VOLT_2m
    (c : ReferenceChannel) (hw : Hardware) :
  DAC_VOLT_3m <= autotuner_step_ c <= DAC_VOLT_6 ->
  fst (fst (auto_frequency c hw)) = true ->
  MAX_NUM_PASSES < auto_num_passes_ c ->
  auto_error_ (fst (measure_frequency_and_calc_error c hw))
  = auto_error_ (measured (c, hw))
    || ((DAC_VOLT_2m <? autotuner_step_ c)
        && F32.gtb (F32.mul (auto_last_frequency_ c) (F32.dec 125 2))
                   (auto_frequency_ (measured (c, hw))))
  /\ (autotuner_step_ c <= DAC_VOLT_2m ->
      auto_error_ (fst (measure_frequency_and_calc_error c hw))
      = auto_error_ (measured (c, hw))).
Proof.
  intros Hstep Hemit Hmax.
  rewrite measure_in_DAC_VOLT by lia.
  destruct (case_DAC_VOLT_advance c hw Hemit Hmax) as (_ & _ & He & _).
  split; [exact He|].
  intros Hlow. rewrite He.
  replace (3 <? autotuner_step_ c) with false by (symmetry; apply Z.ltb_ge; lia).
  apply orb_false_r.
Qed.

(** ** The baseline *)

Lemma Update_passes c hw :
  auto_num_passes_ (fst (Update c hw)) = auto_num_passes_ c.
Proof.
  unfold Update, autotune_updateDAC.
  pose proof (auto_frequency_passes (with_F_correction_factor_ 1 c) hw) as Hp.
  destruct (auto_frequency (with_F_correction_factor_ 1 c) hw)
    as [[u c'] hw'].
  destruct c, c'. cbn [fst snd] in *. simpl in Hp. subst.
  simpl. repeat case_match; simpl; split_ifs; reflexivity.
Qed.






(** ** The halving factor *)

Lemma auto_frequency_targets_step c hw i :
  target_at (snd (fst (auto_frequency c hw))) i = target_at c i.
Proof. unfold target_at. rewrite auto_frequency_targets. reflexivity. Qed.

(** A correction: the factor is halved on a turn, and the direction
    follows the observation. *)
Lemma case_DAC_VOLT_corrects c hw :
  fst (fst (auto_frequency c hw)) = true ->
  auto_num_passes_ c <= MAX_NUM_PASSES ->
  autotuner_step_ (fst (case_DAC_VOLT c hw)) = autotuner_step_ c
  /\ F_correction_factor_ (fst (case_DAC_VOLT c hw))
     = (if turns (correction_direction_ c) (observation (c, hw))
        then halved (F_correction_factor_ c) else F_correction_factor_ c)
  /\ (observation (c, hw) <> on_target ->
      correction_direction_ (fst (case_DAC_VOLT c hw))
      = (if decide (observation (c, hw) = target_above) then true else false)).
Proof.
  unfold case_DAC_VOLT, observation, measured, halved. cbn [fst snd].
  pose proof (auto_frequency_step c hw) as Hs.
  pose proof (auto_frequency_passes c hw) as Hp.
  pose proof (auto_frequency_factor c hw) as HF.
  pose proof (auto_frequency_direction c hw) as Hd.
  destruct (auto_frequency c hw) as [[u c'] hw'].
  destruct c, c'. cbn [fst snd] in *. simpl in Hs, Hp, HF, Hd. subst.
  simpl. intros -> Hmax.
  replace (MAX_NUM_PASSES <? _) with false by (symmetry; apply Z.ltb_ge; lia).
  cbn [andb]. unfold target_at. simpl.
  destruct (F32.gtb _ _) eqn:Habove; [|destruct (F32.ltb _ _) eqn:Hbelow];
    cbn [turns];
    match goal with |- context [negb ?d] => destruct d | _ => idtac end;
    cbn [negb]; split_ifs; repeat split; auto; try congruence;
    try contradiction.
Qed.

(** Calls that neither correct nor leave the step keep the step, the
    factor and the direction. *)
Lemma idle_call_keeps_factor c hw e :
  DAC_VOLT_3m <= autotuner_step_ c <= DAC_VOLT_6 ->
  from_interrupt e ->
  advances (c, hw) e = false ->
  corrects (c, hw) e = false ->
  autotuner_step_ (fst (exec (c, hw) e)) = autotuner_step_ c
  /\ F_correction_factor_ (fst (exec (c, hw) e)) = F_correction_factor_ c
  /\ correction_direction_ (fst (exec (c, hw) e)) = correction_direction_ c.
Proof.
  intros Hstep He Hadv Hcor. destruct e; try contradiction; exec_equation.
  - (* capture *) auto.
  - (* Update *)
    unfold Update, autotune_updateDAC.
    destruct c. cbn [autotuner_step_] in Hstep.
    simpl. repeat case_match; simpl; split_ifs; repeat split; auto; lia.
  - (* measure_frequency_and_calc_error *)
    rewrite measure_in_DAC_VOLT by exact Hstep.
    unfold advances, corrects, emits in Hadv, Hcor. cbn [fst snd] in Hadv, Hcor.
    replace (1 <=? autotuner_step_ c) with true in Hadv, Hcor
      by (symmetry; apply Z.leb_le; lia).
    replace (autotuner_step_ c <=? 11) with true in Hadv, Hcor
      by (symmetry; apply Z.leb_le; lia).
    replace (2 <=? autotuner_step_ c) with true in Hadv, Hcor
      by (symmetry; apply Z.leb_le; lia).
    cbn [andb] in Hadv, Hcor.
    assert (Hu : fst (fst (auto_frequency c hw)) = false).
    { destruct (fst (fst (auto_frequency c hw))); [|reflexivity].
      destruct (MAX_NUM_PASSES <? auto_num_passes_ c); discriminate. }
    unfold case_DAC_VOLT. rewrite Hu. cbn [andb fst].
    rewrite auto_frequency_step, auto_frequency_factor,
      auto_frequency_direction. auto.
Qed.

Lemma step_log_halving calls :
  forall s,
    DAC_VOLT_3m <= autotuner_step_ (fst s) <= DAC_VOLT_6 ->
    1 <= F_correction_factor_ (fst s) <= 0xFF ->
    Forall from_interrupt calls ->
    alternating (map fst (step_log s calls)) ->
    halving (map snd (step_log s calls))
    /\ match step_log s calls with
       | [] => True
       | (sign, F1) :: _ =>
         F1 = if turns (correction_direction_ (fst s)) sign
              then halved (F_correction_factor_ (fst s))
              else F_correction_factor_ (fst s)
       end.
Proof.
  induction calls as [|e calls IH]; intros [c hw] Hstep HF Hcalls Halt;
    [cbn; auto|].
  inversion Hcalls as [|e' calls' He Hcalls']; subst e' calls'.
  cbn [step_log] in Halt |- *. cbn [fst] in Hstep, HF |- *.
  destruct (advances (c, hw) e) eqn:Hadv; [cbn; auto|].
  destruct (corrects (c, hw) e) eqn:Hcor.
  - (* a correction *)
    assert (He' : e = call_measure_frequency_and_calc_error).
    { unfold corrects, emits in Hcor. destruct e; try discriminate.
      reflexivity. }
    subst e. rewrite exec_measure in Halt |- *.
    rewrite measure_in_DAC_VOLT in Halt |- * by exact Hstep.
    unfold corrects, emits in Hcor. cbn [fst snd] in Hcor.
    apply andb_true_iff in Hcor as [Hcor Hmax].
    apply andb_true_iff in Hcor as [Hcor _].
    apply andb_true_iff in Hcor as [_ Hemit].
    apply negb_true_iff, Z.ltb_ge in Hmax.
    destruct (case_DAC_VOLT_corrects c hw Hemit Hmax) as (Hs' & HF' & Hd').
    cbn [app map fst snd alternating halving] in Halt |- *.
    destruct Halt as (Hoff & Hnext & Halt).
    pose proof (halve_bounds (F_correction_factor_ c) ltac:(lia)) as Hhalf.
    cbv zeta in Hhalf. fold (halved (F_correction_factor_ c)) in Hhalf.
    assert (HF1 : 1 <= F_correction_factor_ (fst (case_DAC_VOLT c hw)) <= 0xFF).
    { rewrite HF'. destruct (turns _ _); lia. }
    destruct (IH (case_DAC_VOLT c hw)) as [Hhalving Hhead]; auto.
    { rewrite Hs'. exact Hstep. }
    split; [|exact HF'].
    split; [|exact Hhalving].
    destruct (step_log (case_DAC_VOLT c hw) calls) as [|[sign2 F2] log'];
      [exact I|].
    cbn [map fst snd alternating] in Hnext, Halt |- *.
    destruct Halt as (Hoff2 & _ & _).
    rewrite (Hd' Hoff) in Hhead.
    assert (HF2 : 1 <= F_correction_factor_ (fst (case_DAC_VOLT c hw))
                  <= 0xFFFF) by (clear - HF1; lia).
    pose proof (halve_bounds _ HF2) as Hhalf2.
    cbv zeta in Hhalf2.
    fold (halved (F_correction_factor_ (fst (case_DAC_VOLT c hw)))) in Hhalf2.
    assert (Hturn : turns (if decide (observation (c, hw) = target_above)
                           then true else false) sign2 = true).
    { destruct (observation (c, hw)), sign2; cbn; try reflexivity;
        contradiction. }
    rewrite Hturn in Hhead. subst F2.
    destruct (Z.eqb_spec (F_correction_factor_ (fst (case_DAC_VOLT c hw))) 1)
      as [Hone | Hmore]; [apply Hhalf2, Hone | apply Hhalf2; lia].
  - (* nothing happens to the factor *)
    cbn [app] in Halt |- *.
    destruct (idle_call_keeps_factor c hw e Hstep He Hadv Hcor)
      as (Hs' & HF' & Hd').
    destruct (IH (exec (c, hw) e)) as [Hhalving Hhead]; auto.
    { rewrite Hs'. exact Hstep. }
    { rewrite HF'. exact HF. }
    rewrite HF', Hd' in Hhead. auto.
Qed.

(** A voltage step is only entered through [auto_reset_step]: a call
    after which the channel is in a voltage step it was not in before
    leaves the factor at 0xFF and the direction false. *)
Lemma case_DAC_VOLT_0_BASELINE_enters c hw :
  autotuner_step_ (fst (case_DAC_VOLT_0_BASELINE c hw)) <> autotuner_step_ c ->
  F_correction_factor_ (fst (case_DAC_VOLT_0_BASELINE c hw)) = 0xFF
  /\ correction_direction_ (fst (case_DAC_VOLT_0_BASELINE c hw)) = false.
Proof.
  unfold case_DAC_VOLT_0_BASELINE.
  pose proof (auto_frequency_step c hw) as Hstep.
  destruct (auto_frequency c hw) as [[u c'] hw'].
  destruct c, c'. cbn [fst snd] in *. simpl in Hstep.
  split_ifs; intros Hmoved;
    first [congruence | split; reflexivity].
Qed.

Lemma case_DAC_VOLT_enters c hw :
  autotuner_step_ (fst (case_DAC_VOLT c hw)) <> autotuner_step_ c ->
  F_correction_factor_ (fst (case_DAC_VOLT c hw)) = 0xFF
  /\ correction_direction_ (fst (case_DAC_VOLT c hw)) = false.
Proof.
  unfold case_DAC_VOLT.
  pose proof (auto_frequency_step c hw) as Hstep.
  destruct (auto_frequency c hw) as [[u c'] hw'].
  destruct c, c'. cbn [fst snd] in *. simpl in Hstep.
  split_ifs; intros Hmoved;
    first [congruence | split; reflexivity].
Qed.

Lemma entering_a_voltage_step s e :
  autotuner_step_ (fst (exec s e)) <> autotuner_step_ (fst s) ->
  DAC_VOLT_3m <= autotuner_step_ (fst (exec s e)) <= DAC_VOLT_6 ->
  F_correction_factor_ (fst (exec s e)) = 0xFF
  /\ correction_direction_ (fst (exec s e)) = false.
Proof.
  destruct s as [c hw]. cbn [fst snd].
  destruct e; exec_equation; cbn [fst snd].
  - (* capture *) intros Hmoved. contradiction Hmoved. reflexivity.
  - (* Update *) rewrite Update_step. intros Hmoved. contradiction Hmoved.
    reflexivity.
  - (* measure_frequency_and_calc_error *)
    rewrite measure_dispatch.
    destruct (autotuner_step_ c =? 0);
      [intros Hmoved; contradiction Hmoved; reflexivity|].
    destruct (autotuner_step_ c =? 1);
      [intros Hmoved _; apply case_DAC_VOLT_0_BASELINE_enters, Hmoved|].
    destruct ((2 <=? autotuner_step_ c) && (autotuner_step_ c <=? 11));
      [intros Hmoved _; apply case_DAC_VOLT_enters, Hmoved|].
    destruct (Z.eqb_spec (autotuner_step_ c) 12) as [E | E].
    + unfold case_AUTO_CALIBRATION_STEP_LAST. destruct c.
      simpl in E. subst.
      split_ifs; intros Hmoved Hstep;
        first [contradiction Hmoved; reflexivity
              | change (wrap_u8 (12 + 1)) with 13 in Hstep; lia].
    + destruct c. simpl. lia.
  - (* autotuner_arm *) rewrite autotuner_arm_step. lia.
  - (* autotuner_run *)
    destruct (autotuner_run_step c hw) as [E | E]; rewrite E; lia.
  - (* reset_autotuner *) rewrite reset_autotuner_step. lia.
  - destruct c. intros Hmoved. contradiction Hmoved. reflexivity.
  - intros Hmoved. contradiction Hmoved. reflexivity.
  - intros Hmoved. contradiction Hmoved. reflexivity.
Qed.

(** C8, as the code has it.  The call that takes the channel into a
    voltage step leaves the factor at 0xFF and the direction false.  From
    there, while the observations of the step alternate in sign, the
    factors after the corrections are strictly decreasing down to 1 and
    stay 1.  The first correction leaves the factor at 0xFF when the
    frequency is above the target and halves it to 0x7F when it is
    below. *)
Theorem factor_halves_on_alternating_observations
    (s : ReferenceChannel * Hardware) (e : Call) (calls : list Call) :
  autotuner_step_ (fst (exec s e)) <> autotuner_step_ (fst s) ->
  DAC_VOLT_3m <= autotuner_step_ (fst (exec s e)) <= DAC_VOLT_6 ->
  Forall from_interrupt calls ->
  alternating (map fst (step_log (exec s e) calls)) ->
  F_correction_factor_ (fst (exec s e)) = 0xFF
  /\ correction_direction_ (fst (exec s e)) = false
  /\ halving (map snd (step_log (exec s e) calls))
  /\ match step_log (exec s e) calls with
     | (target_above, F1) :: _ => F1 = 0x7F
     | (target_below, F1) :: _ => F1 = 0xFF
     | _ => True
     end.
Proof.
  intros Hmoved Hstep Hcalls Halt.
  destruct (entering_a_voltage_step s e Hmoved Hstep) as [HF Hd].
  split; [exact HF|]. split; [exact Hd|].
  destruct (step_log_halving calls (exec s e) Hstep) as [Hhalving Hhead]; auto;
    [lia|].
  split; [exact Hhalving|].
  destruct (step_log (exec s e) calls) as [|[sign F1] log]; [exact I|].
  rewrite HF, Hd in Hhead. destruct sign; auto.
Qed.

End Properties.

Lemma ticks_from_interrupt n count : Forall from_interrupt (ticks n count).
Proof.
  unfold ticks. induction n as [|n IH]; cbn [replicate concat]; [constructor|].
  apply Forall_app. split; [|exact IH].
  repeat constructor.
Qed.

Lemma pair_eq_inv {A B : Type} (a x : A) (b y : B) :
  (a, b) = (x, y) -> a = x /\ b = y.
Proof. intros Heq. inversion Heq. split; reflexivity. Qed.

(** The nine components of a [leaving_report], without computing them. *)
Ltac open_report R :=
  unfold leaving_report in R; cbv zeta in R;
  apply pair_eq_inv in R as [R ?Hafter_data];
  apply pair_eq_inv in R as [R ?Hafter_step];
  apply pair_eq_inv in R as [R ?Hafter_error];
  apply pair_eq_inv in R as [R ?Hdata];
  apply pair_eq_inv in R as [R ?Herror];
  apply pair_eq_inv in R as [R ?Hcheck];
  apply pair_eq_inv in R as [R ?Hpasses];
  apply pair_eq_inv in R as [?Hstep ?Hemit].

(** * The scenarios *)

Section Bench.
#[local] Existing Instance bench.

Lemma reachable_constant_vco n : reachable DAC_CHANNEL_A (constant_vco n).
Proof.
  unfold constant_vco, armed_and_run.
  do 2 apply reachable_run. apply reachable_power_on.
Qed.

(** C1 fails as stated: three emits into the -3 V step, at 100 Hz against
    a target of 12.5 Hz, the correction stands at -765. *)
Lemma offset_error_exceeds_509 :
  reachable DAC_CHANNEL_A three_corrections
  /\ autotuner_step_ (fst three_corrections) = DAC_VOLT_3m
  /\ auto_DAC_offset_error_ (fst three_corrections) = -765
  /\ ~ Z.abs (auto_DAC_offset_error_ (fst three_corrections)) <= 2 * 0xFF - 1.
Proof.
  split; [apply reachable_constant_vco|].
  assert (Ho : auto_DAC_offset_error_ (fst three_corrections) = -765)
    by (vm_compute; reflexivity).
  split; [vm_compute; reflexivity|]. split; [exact Ho|].
  rewrite Ho. lia.
Qed.

Lemma offset_error_bounded_witness :
  reachable DAC_CHANNEL_A three_corrections
  /\ Z.abs (auto_DAC_offset_error_ (fst three_corrections))
     <= 0xFF * (MAX_NUM_PASSES + 1).
Proof.
  split; [apply reachable_constant_vco|].
  apply (offset_error_bounded DAC_CHANNEL_A), reachable_constant_vco.
Defined.

(** *** The oscillator that does not track

    At a constant 100 Hz no step converges; each is left after its 1501
    corrections. *)

Abbreviation leaving_2m := (next_step leaving_3m).
Abbreviation leaving_1m := (next_step (next_step leaving_3m)).

Lemma non_tracking_vco :
  non_tracking_report
  = (- (0xFF * (MAX_NUM_PASSES + 1)),
     (DAC_VOLT_2m, true, MAX_NUM_PASSES + 1, true, false,
      [10461; 0; 0; 0; 0; 0; 0; 0; 0; 0; 0],
      false, DAC_VOLT_1m, [10461; 10461; 0; 0; 0; 0; 0; 0; 0; 0; 0]),
     (DAC_VOLT_1m, true, MAX_NUM_PASSES + 1, true, false,
      [10461; 10461; 0; 0; 0; 0; 0; 0; 0; 0; 0],
      true, DAC_VOLT_0, [10461; 10461; 10461; 0; 0; 0; 0; 0; 0; 0; 0])).
Proof. vm_compute. reflexivity. Qed.

(** The bound of C1 as the code has it is attained: an oscillator that
    stays above the target is corrected by -0xFF at each of the 1501
    passes. *)
Lemma offset_error_bound_attained :
  auto_DAC_offset_error_ (fst leaving_3m) = - (0xFF * (MAX_NUM_PASSES + 1)).
Proof.
  pose proof non_tracking_vco as R.
  unfold non_tracking_report in R. cbv zeta in R.
  apply pair_eq_inv in R as [R _]. apply pair_eq_inv in R as [R _]. exact R.
Qed.

(** C2 fails as stated: leaving the -1 V step the doubling check fails and
    the error flag goes up, yet the correction of the step is stored and
    the channel is in the 0 V step afterwards. *)
Lemma failed_doubling_check_does_not_freeze :
  autotuner_step_ (fst leaving_1m) = DAC_VOLT_1m
  /\ F32.gtb (F32.mul (auto_last_frequency_ (fst leaving_1m))
                      (F32.dec 125 2))
             (auto_frequency_
                (measured (fst leaving_1m,
                           snd leaving_1m))) = true
  /\ auto_error_ (fst (measure_frequency_and_calc_error
                         (fst leaving_1m)
                         (snd leaving_1m))) = true
  /\ autotuner_step_ (fst (measure_frequency_and_calc_error
                             (fst leaving_1m)
                             (snd leaving_1m)))
     <> autotuner_step_ (fst leaving_1m)
  /\ auto_calibration_data_ (fst (measure_frequency_and_calc_error
                                    (fst leaving_1m)
                                    (snd leaving_1m)))
     <> auto_calibration_data_ (fst leaving_1m).
Proof.
  pose proof non_tracking_vco as R.
  unfold non_tracking_report in R. cbv zeta in R.
  apply pair_eq_inv in R as [_ R]. open_report R.
  split; [exact Hstep|]. split; [exact Hcheck|]. split; [exact Hafter_error|].
  split; [rewrite Hafter_step, Hstep | rewrite Hafter_data, Hdata];
    discriminate.
Qed.

Lemma failed_doubling_check_latches_and_advances_witness :
  (DAC_VOLT_2m < autotuner_step_ (fst leaving_1m) <= DAC_VOLT_6
   /\ fst (fst (auto_frequency (fst leaving_1m)
                               (snd leaving_1m))) = true
   /\ MAX_NUM_PASSES < auto_num_passes_ (fst leaving_1m)
   /\ F32.gtb (F32.mul (auto_last_frequency_ (fst leaving_1m))
                       (F32.dec 125 2))
              (auto_frequency_
                 (measured (fst leaving_1m,
                            snd leaving_1m))) = true)
  /\ (auto_error_ (fst (measure_frequency_and_calc_error
                          (fst leaving_1m)
                          (snd leaving_1m))) = true
      /\ autotuner_step_ (fst (measure_frequency_and_calc_error
                                 (fst leaving_1m)
                                 (snd leaving_1m)))
         = autotuner_step_ (fst leaving_1m) + 1
      /\ auto_calibration_data_ (fst (measure_frequency_and_calc_error
                                        (fst leaving_1m)
                                        (snd leaving_1m)))
         = <[Z.to_nat (autotuner_step_ (fst leaving_1m)
                       - DAC_VOLT_3m)
             := wrap_s16 (auto_DAC_offset_error_ (fst leaving_1m))]>
             (auto_calibration_data_ (fst leaving_1m))).
Proof.
  pose proof non_tracking_vco as R.
  unfold non_tracking_report in R. cbv zeta in R.
  apply pair_eq_inv in R as [_ R]. open_report R.
  assert (Hrange : DAC_VOLT_2m < autotuner_step_ (fst leaving_1m)
                   <= DAC_VOLT_6) by (rewrite Hstep; lia).
  assert (Hmax : MAX_NUM_PASSES < auto_num_passes_ (fst leaving_1m))
    by (rewrite Hpasses; lia).
  split.
  - split; [exact Hrange|]. split; [exact Hemit|].
    split; [exact Hmax | exact Hcheck].
  - exact (failed_doubling_check_latches_and_advances
             (fst leaving_1m) (snd leaving_1m)
             Hrange Hemit Hmax Hcheck).
Defined.

(** C3 fails as stated: leaving the -2 V step the frequency has not
    doubled either ([100 * 1.25 > 100]), and the error flag stays down. *)
Lemma doubling_check_skipped_leaving_DAC_VOLT_2m :
  autotuner_step_ (fst leaving_2m) = DAC_VOLT_2m
  /\ F32.gtb (F32.mul (auto_last_frequency_ (fst leaving_2m))
                      (F32.dec 125 2))
             (auto_frequency_
                (measured (fst leaving_2m,
                           snd leaving_2m))) = true
  /\ autotuner_step_ (fst (measure_frequency_and_calc_error
                             (fst leaving_2m)
                             (snd leaving_2m)))
     = DAC_VOLT_1m
  /\ auto_error_ (fst (measure_frequency_and_calc_error
                         (fst leaving_2m)
                         (snd leaving_2m))) = false.
Proof.
  pose proof non_tracking_vco as R.
  unfold non_tracking_report in R. cbv zeta in R.
  apply pair_eq_inv in R as [R _]. apply pair_eq_inv in R as [_ R].
  open_report R.
  split; [exact Hstep|]. split; [exact Hcheck|].
  split; [exact Hafter_step | exact Hafter_error].
Qed.

Lemma doubling_check_past_DAC_VOLT_2m_witness :
  (DAC_VOLT_3m <= autotuner_step_ (fst leaving_2m) <= DAC_VOLT_6
   /\ fst (fst (auto_frequency (fst leaving_2m)
                               (snd leaving_2m))) = true
   /\ MAX_NUM_PASSES < auto_num_passes_ (fst leaving_2m))
  /\ (auto_error_ (fst (measure_frequency_and_calc_error
                          (fst leaving_2m)
                          (snd leaving_2m)))
      = auto_error_ (measured (fst leaving_2m,
                               snd leaving_2m))
        || ((DAC_VOLT_2m <? autotuner_step_ (fst leaving_2m))
            && F32.gtb
                 (F32.mul (auto_last_frequency_ (fst leaving_2m))
                          (F32.dec 125 2))
                 (auto_frequency_ (measured (fst leaving_2m,
                                             snd leaving_2m))))
      /\ (autotuner_step_ (fst leaving_2m) <= DAC_VOLT_2m ->
          auto_error_ (fst (measure_frequency_and_calc_error
                              (fst leaving_2m)
                              (snd leaving_2m)))
          = auto_error_ (measured (fst leaving_2m,
                                   snd leaving_2m)))).
Proof.
  pose proof non_tracking_vco as R.
  unfold non_tracking_report in R. cbv zeta in R.
  apply pair_eq_inv in R as [R _]. apply pair_eq_inv in R as [_ R].
  open_report R.
  assert (Hrange : DAC_VOLT_3m <= autotuner_step_ (fst leaving_2m)
                   <= DAC_VOLT_6) by (rewrite Hstep; lia).
  assert (Hmax : MAX_NUM_PASSES < auto_num_passes_ (fst leaving_2m))
    by (rewrite Hpasses; lia).
  split.
  - split; [exact Hrange|]. split; [exact Hemit | exact Hmax].
  - exact (doubling_check_past_DAC_VOLT_2m
             (fst leaving_2m) (snd leaving_2m)
             Hrange Hemit Hmax).
Defined.

(** *** Reset *)

Lemma reset_autotuner_clears_witness :
  length (auto_calibration_data_ (fst three_corrections)) = 11%nat
  /\ (auto_calibration_data_ (reset_autotuner (fst three_corrections))
      = replicate 11 0
      /\ auto_frequency_ (reset_autotuner (fst three_corrections)) = F32.zero
      /\ auto_last_frequency_ (reset_autotuner (fst three_corrections))
         = F32.zero
      /\ autotuner_step_ (reset_autotuner (fst three_corrections))
         = DAC_VOLT_0_ARM
      /\ autotuner_ (reset_autotuner (fst three_corrections)) = false).
Proof.
  assert (Hlen : length (auto_calibration_data_ (fst three_corrections))
                 = 11%nat) by (vm_compute; reflexivity).
  split; [exact Hlen|].
  exact (reset_autotuner_clears (fst three_corrections) Hlen).
Defined.

(** *** The baseline *)

Lemma target_table_at_100Hz_witness :
  (autotuner_step_ (fst before_twelfth_emit) = DAC_VOLT_0_BASELINE
   /\ fst (fst (auto_frequency (fst before_twelfth_emit)
                               (snd before_twelfth_emit))) = true
   /\ Z.of_nat kHistoryDepth < auto_num_passes_ (fst before_twelfth_emit)
   /\ average_with_history
        (measured (fst before_twelfth_emit, snd before_twelfth_emit))
      = F32.of_Z 100)
  /\ auto_target_frequencies_
       (fst (measure_frequency_and_calc_error (fst before_twelfth_emit)
                                              (snd before_twelfth_emit)))
     = [F32.dec 125 1; F32.of_Z 25; F32.of_Z 50; F32.of_Z 100; F32.of_Z 200;
        F32.of_Z 400; F32.of_Z 800; F32.of_Z 1600; F32.of_Z 3200;
        F32.of_Z 6400; F32.of_Z 12800].
Proof.
  assert (Hs : autotuner_step_ (fst before_twelfth_emit)
               = DAC_VOLT_0_BASELINE) by (vm_compute; reflexivity).
  assert (He : fst (fst (auto_frequency (fst before_twelfth_emit)
                                        (snd before_twelfth_emit))) = true)
    by (vm_compute; reflexivity).
  assert (Hp : Z.of_nat kHistoryDepth
               < auto_num_passes_ (fst before_twelfth_emit))
    by (vm_compute; reflexivity).
  assert (Hf : average_with_history
                 (measured (fst before_twelfth_emit, snd before_twelfth_emit))
               = F32.of_Z 100) by (vm_compute; reflexivity).
  split.
  - split; [exact Hs|]. split; [exact He|]. split; [exact Hp | exact Hf].
  - exact (target_table_at_100Hz (fst before_twelfth_emit)
             (snd before_twelfth_emit) Hs He Hp Hf).
Defined.



(** *** Completion *)

Lemma done_entered_with_auto_table_witness :
  (autotuner_step_ (fst finishing_commit) <> AUTO_CALIBRATION_STEP_LAST + 1
   /\ autotuner_step_
        (fst (exec finishing_commit call_measure_frequency_and_calc_error))
      = AUTO_CALIBRATION_STEP_LAST + 1)
  /\ autotune_completed_
       (fst (exec finishing_commit call_measure_frequency_and_calc_error))
     = true
  /\ DAC.calibration_data_used
       (dac_channel_
          (fst (exec finishing_commit call_measure_frequency_and_calc_error)))
       (dac (snd (exec finishing_commit
                       call_measure_frequency_and_calc_error)))
     = CALIBRATION_AUTO.
Proof.
  assert (Hbefore : autotuner_step_ (fst finishing_commit)
                    <> AUTO_CALIBRATION_STEP_LAST + 1)
    by (vm_compute; discriminate).
  assert (Hafter : autotuner_step_
                     (fst (exec finishing_commit
                                call_measure_frequency_and_calc_error))
                   = AUTO_CALIBRATION_STEP_LAST + 1)
    by (vm_compute; reflexivity).
  split; [split; [exact Hbefore | exact Hafter]|].
  exact (done_entered_with_auto_table finishing_commit
           call_measure_frequency_and_calc_error Hbefore Hafter).
Defined.

(** *** The halving factor *)

(** C8 fails as stated: entering the -3 V step the factor is 0xFF and the
    direction is false; when the first observation is above the target and
    the second below, the factors are 0xFF, 0xFF, 0x7F. *)
Lemma factor_kept_on_first_observation_above :
  autotuner_step_ (fst (entering_DAC_VOLT_3m)) = DAC_VOLT_3m
  /\ F_correction_factor_ (fst (entering_DAC_VOLT_3m)) = 0xFF
  /\ step_log (entering_DAC_VOLT_3m) above_then_below
     = [(target_below, 0xFF); (target_above, 0x7F)]
  /\ alternating (map fst (step_log (entering_DAC_VOLT_3m) above_then_below))
  /\ ~ halving (F_correction_factor_ (fst (entering_DAC_VOLT_3m))
                :: map snd (step_log (entering_DAC_VOLT_3m) above_then_below)).
Proof.
  assert (HF : F_correction_factor_ (fst (entering_DAC_VOLT_3m)) = 0xFF)
    by (vm_compute; reflexivity).
  assert (Hlog : step_log (entering_DAC_VOLT_3m) above_then_below
                 = [(target_below, 0xFF); (target_above, 0x7F)])
    by (vm_compute; reflexivity).
  split; [vm_compute; reflexivity|].
  split; [exact HF|]. split; [exact Hlog|].
  rewrite Hlog, HF. cbn [map fst snd alternating halving].
  clear. split.
  - repeat split; intros Hsign; discriminate Hsign.
  - intros [Hfirst _]. vm_compute in Hfirst. discriminate Hfirst.
Qed.

(** The call that enters the -3 V step. *)
Abbreviation entered_DAC_VOLT_3m :=
  (exec before_twelfth_emit call_measure_frequency_and_calc_error).

Lemma factor_halves_on_alternating_observations_witness :
  (autotuner_step_ (fst entered_DAC_VOLT_3m) <> autotuner_step_ (fst before_twelfth_emit)
   /\ DAC_VOLT_3m <= autotuner_step_ (fst entered_DAC_VOLT_3m) <= DAC_VOLT_6
   /\ Forall from_interrupt alternating_vco
   /\ alternating (map fst (step_log entered_DAC_VOLT_3m alternating_vco)))
  /\ F_correction_factor_ (fst entered_DAC_VOLT_3m) = 0xFF
  /\ correction_direction_ (fst entered_DAC_VOLT_3m) = false
  /\ halving (map snd (step_log entered_DAC_VOLT_3m alternating_vco))
  /\ match step_log entered_DAC_VOLT_3m alternating_vco with
     | (target_above, F1) :: _ => F1 = 0x7F
     | (target_below, F1) :: _ => F1 = 0xFF
     | _ => True
     end.
Proof.
  assert (Hs : autotuner_step_ (fst entered_DAC_VOLT_3m) = DAC_VOLT_3m)
    by (vm_compute; reflexivity).
  assert (Hmoved : autotuner_step_ (fst entered_DAC_VOLT_3m)
                   <> autotuner_step_ (fst before_twelfth_emit))
    by (vm_compute; discriminate).
  assert (Hstep : DAC_VOLT_3m <= autotuner_step_ (fst entered_DAC_VOLT_3m) <= DAC_VOLT_6)
    by (rewrite Hs; lia).
  assert (Hcalls : Forall from_interrupt alternating_vco).
  { assert (Hpair : Forall from_interrupt below_then_above)
      by (apply Forall_app; split; apply ticks_from_interrupt).
    unfold alternating_vco.
    apply Forall_app; split; [exact Hpair|].
    apply Forall_app; split; [exact Hpair|].
    apply Forall_app; split; [exact Hpair | apply ticks_from_interrupt]. }
  assert (Hlog : step_log entered_DAC_VOLT_3m alternating_vco
                 = [(target_above, 127); (target_below, 63);
                    (target_above, 31); (target_below, 15);
                    (target_above, 7); (target_below, 3);
                    (target_above, 1)])
    by (vm_compute; reflexivity).
  assert (Halt : alternating (map fst (step_log entered_DAC_VOLT_3m alternating_vco))).
  { rewrite Hlog. cbn [map fst alternating]. clear.
    repeat split; intros Hsign; discriminate Hsign. }
  split.
  - split; [exact Hmoved|]. split; [exact Hstep|].
    split; [exact Hcalls | exact Halt].
  - exact (factor_halves_on_alternating_observations
             before_twelfth_emit call_measure_frequency_and_calc_error
             alternating_vco Hmoved Hstep Hcalls Halt).
Defined.

(** *** No signal *)

Lemma no_signal_latches_in_ARM_witness :
  ERROR_TIMEOUT < ticks_since_last_freq_ (fst armed_in_silence)
  /\ auto_error_ (snd (fst (auto_frequency (fst armed_in_silence)
                                           (snd armed_in_silence)))) = true
  /\ autotuner_step_ (fst armed_in_silence) = DAC_VOLT_0_ARM.
Proof.
  assert (Ht : ERROR_TIMEOUT < ticks_since_last_freq_ (fst armed_in_silence))
    by (vm_compute; reflexivity).
  destruct (no_signal_latches_in_ARM (fst armed_in_silence)
              (snd armed_in_silence) 0) as [Hlatch _].
  split; [exact Ht|]. split; [exact (Hlatch Ht)|].
  vm_compute. reflexivity.
Defined.

End Bench.

(** * Further properties *)




Section Coverage.
Context `{Platform}.

Ltac exec_equation :=
  rewrite ?exec_capture, ?exec_Update, ?exec_measure, ?exec_arm, ?exec_run,
    ?exec_reset, ?exec_reset_completed, ?exec_use_default,
    ?exec_use_auto_calibration.

Ltac split_ifs :=
  repeat (simpl;
          match goal with
          | |- context [if ?b then _ else _] => destruct b eqn:?
          end);
  simpl.

Ltac bool_to_Prop :=
  repeat match goal with
         | H : (_ && _) = true |- _ => apply andb_true_iff in H as [? ?]
         | H : (_ <? _) = true |- _ => apply Z.ltb_lt in H
         | H : (_ <? _) = false |- _ => apply Z.ltb_ge in H
         | H : (_ <=? _) = true |- _ => apply Z.leb_le in H
         | H : (_ <=? _) = false |- _ => apply Z.leb_gt in H
         | H : (_ =? _) = true |- _ => apply Z.eqb_eq in H
         | H : (_ =? _) = false |- _ => apply Z.eqb_neq in H
         | H : negb _ = true |- _ => apply negb_true_iff in H
         | H : negb _ = false |- _ => apply negb_false_iff in H
         end.

(** ** The step only moves forward *)

Lemma case_AUTO_CALIBRATION_STEP_LAST_moves c hw :
  autotuner_step_ (fst (case_AUTO_CALIBRATION_STEP_LAST c hw))
  = autotuner_step_ c
  \/ autotuner_step_ (fst (case_AUTO_CALIBRATION_STEP_LAST c hw))
     = wrap_u8 (autotuner_step_ c + 1).
Proof.
  unfold case_AUTO_CALIBRATION_STEP_LAST. destruct c. split_ifs; auto.
Qed.

Lemma measure_step_cases c hw :
  autotuner_step_ (fst (measure_frequency_and_calc_error c hw))
  = autotuner_step_ c
  \/ (DAC_VOLT_0_BASELINE <= autotuner_step_ c <= AUTO_CALIBRATION_STEP_LAST
      /\ autotuner_step_ (fst (measure_frequency_and_calc_error c hw))
         = autotuner_step_ c + 1)
  \/ (~ DAC_VOLT_0_ARM <= autotuner_step_ c <= AUTO_CALIBRATION_STEP_LAST
      /\ autotuner_step_ (fst (measure_frequency_and_calc_error c hw))
         = DAC_VOLT_0_ARM
      /\ autotuner_ (fst (measure_frequency_and_calc_error c hw)) = false).
Proof.
  rewrite measure_dispatch.
  destruct (autotuner_step_ c =? 0) eqn:E0; [left; reflexivity|].
  destruct (autotuner_step_ c =? 1) eqn:E1.
  { apply Z.eqb_eq in E1.
    destruct (case_DAC_VOLT_0_BASELINE_step c hw) as [Hs | Hs];
      [left; exact Hs | right; left].
    rewrite Hs, E1. split; [lia | reflexivity]. }
  destruct ((2 <=? autotuner_step_ c) && (autotuner_step_ c <=? 11)) eqn:E2.
  { apply andb_true_iff in E2 as [Hlo Hhi]. apply Z.leb_le in Hlo, Hhi.
    destruct (case_DAC_VOLT_step c hw) as [Hs | Hs];
      [left; exact Hs | right; left].
    rewrite Hs, wrap_u8_small by lia. split; [lia | reflexivity]. }
  destruct (autotuner_step_ c =? 12) eqn:E3.
  { apply Z.eqb_eq in E3.
    destruct (case_AUTO_CALIBRATION_STEP_LAST_moves c hw) as [Hs | Hs];
      [left; exact Hs | right; left].
    rewrite Hs, E3. split; [lia | reflexivity]. }
  right; right.
  apply Z.eqb_neq in E0, E1, E3. apply andb_false_iff in E2.
  split; [|destruct c; split; reflexivity].
  destruct E2 as [E2 | E2]; [apply Z.leb_gt in E2 | apply Z.leb_gt in E2]; lia.
Qed.

Lemma interrupt_step_cases (s : ReferenceChannel * Hardware) (e : Call) :
  from_interrupt e ->
  autotuner_step_ (fst (exec s e)) = autotuner_step_ (fst s)
  \/ (DAC_VOLT_0_BASELINE <= autotuner_step_ (fst s)
        <= AUTO_CALIBRATION_STEP_LAST
      /\ autotuner_step_ (fst (exec s e)) = autotuner_step_ (fst s) + 1)
  \/ (~ DAC_VOLT_0_ARM <= autotuner_step_ (fst s) <= AUTO_CALIBRATION_STEP_LAST
      /\ autotuner_step_ (fst (exec s e)) = DAC_VOLT_0_ARM
      /\ autotuner_ (fst (exec s e)) = false).
Proof.
  destruct s as [c hw]. cbn [fst snd]. intros He.
  destruct e; try contradiction; exec_equation.
  - left. reflexivity.
  - left. apply Update_step.
  - apply measure_step_cases.
Qed.

(** X1: a call made from the interrupts (a capture, [Update],
    [measure_frequency_and_calc_error]) leaves the step where it is, or
    moves it forward by one from a step between BASELINE and
    [AUTO_CALIBRATION_STEP_LAST], or, from a value past the enumeration,
    takes it back to ARM and switches the autotuner off.  The step never
    goes backwards in any other way. *)
Theorem step_only_moves_forward (s : ReferenceChannel * Hardware) (e : Call) :
  from_interrupt e ->
  autotuner_step_ (fst (exec s e)) = autotuner_step_ (fst s)
  \/ (DAC_VOLT_0_BASELINE <= autotuner_step_ (fst s)
        <= AUTO_CALIBRATION_STEP_LAST
      /\ autotuner_step_ (fst (exec s e)) = autotuner_step_ (fst s) + 1)
  \/ (~ DAC_VOLT_0_ARM <= autotuner_step_ (fst s) <= AUTO_CALIBRATION_STEP_LAST
      /\ autotuner_step_ (fst (exec s e)) = DAC_VOLT_0_ARM
      /\ autotuner_ (fst (exec s e)) = false).
Proof.
  destruct s as [c hw]. cbn [fst snd]. intros He.
  destruct e; try contradiction; exec_equation.
  - left. reflexivity.
  - left. apply Update_step.
  - apply measure_step_cases.
Qed.

Lemma exec_step_in_range s e :
  0 <= autotuner_step_ (fst s) <= 13 ->
  0 <= autotuner_step_ (fst (exec s e)) <= 13.
Proof.
  destruct s as [c hw]. cbn [fst snd]. intros Hs.
  destruct e; exec_equation; cbn [fst snd].
  - exact Hs.
  - rewrite Update_step. exact Hs.
  - destruct (measure_step_cases c hw) as [E | [[? E] | [? [E ?]]]];
      rewrite E; lia.
  - rewrite autotuner_arm_step. lia.
  - destruct (autotuner_run_step c hw) as [E | E]; rewrite E; lia.
  - rewrite reset_autotuner_step. lia.
  - destruct c. exact Hs.
  - exact Hs.
  - exact Hs.
Qed.

(** X2: in every state a channel can reach the step is one of the
    thirteen enumerators or [AUTO_CALIBRATION_STEP_LAST + 1]. *)
Theorem step_in_range (ch : DAC_CHANNEL) (s : ReferenceChannel * Hardware) :
  reachable ch s ->
  DAC_VOLT_0_ARM <= autotuner_step_ (fst s) <= AUTO_CALIBRATION_STEP_LAST + 1.
Proof.
  induction 1 as [|s e _ IH].
  - cbn. lia.
  - apply exec_step_in_range, IH.
Qed.

(** ** The error flag is latched *)

Lemma case_DAC_VOLT_0_BASELINE_error_kept c hw :
  auto_error_ c = true ->
  auto_error_ (fst (case_DAC_VOLT_0_BASELINE c hw)) = true.
Proof.
  intros E. pose proof (auto_frequency_error_kept c hw E) as E'.
  unfold case_DAC_VOLT_0_BASELINE.
  destruct (auto_frequency c hw) as [[u c'] hw'].
  destruct c'. cbn [fst snd] in *. simpl in E'. subst.
  split_ifs; reflexivity.
Qed.

Lemma case_DAC_VOLT_error_kept c hw :
  auto_error_ c = true ->
  auto_error_ (fst (case_DAC_VOLT c hw)) = true.
Proof.
  intros E. pose proof (auto_frequency_error_kept c hw E) as E'.
  unfold case_DAC_VOLT.
  destruct (auto_frequency c hw) as [[u c'] hw'].
  destruct c'. cbn [fst snd] in *. simpl in E'. subst.
  split_ifs; reflexivity.
Qed.

Lemma measure_error_kept c hw :
  auto_error_ c = true ->
  auto_error_ (fst (measure_frequency_and_calc_error c hw)) = true.
Proof.
  intros E. rewrite measure_dispatch.
  repeat match goal with
         | |- context [if ?b then _ else _] => destruct b
         end.
  - exact E.
  - apply case_DAC_VOLT_0_BASELINE_error_kept, E.
  - apply case_DAC_VOLT_error_kept, E.
  - unfold case_AUTO_CALIBRATION_STEP_LAST. destruct c. simpl in *.
    split_ifs; exact E.
  - destruct c. exact E.
Qed.

Lemma Update_error_kept c hw :
  auto_error_ c = true -> auto_error_ (fst (Update c hw)) = true.
Proof.
  intros E. unfold Update, autotune_updateDAC.
  assert (E1 : auto_error_ (with_F_correction_factor_ 1 c) = true)
    by (destruct c; exact E).
  pose proof (auto_frequency_error_kept _ hw E1) as E'.
  destruct (auto_frequency (with_F_correction_factor_ 1 c) hw)
    as [[u c'] hw'].
  destruct c, c'. cbn [fst snd] in *. simpl in E, E'. subst.
  simpl. repeat case_match; simpl; split_ifs; reflexivity.
Qed.

(** X3: the error flag is latched: once raised it stays raised under
    every call but [autotuner_arm] and [reset_autotuner]. *)
Theorem error_stays_latched (s : ReferenceChannel * Hardware) (e : Call) :
  resets e = false ->
  auto_error_ (fst s) = true ->
  auto_error_ (fst (exec s e)) = true.
Proof.
  destruct s as [c hw]. cbn [fst snd]. intros He E.
  destruct e; try discriminate He; exec_equation; cbn [fst snd].
  - exact E.
  - apply Update_error_kept, E.
  - apply measure_error_kept, E.
  - unfold autotuner_run. destruct c. simpl in *. split_ifs; exact E.
  - destruct c. exact E.
  - exact E.
  - exact E.
Qed.


(** ** A channel only writes its own DAC channel *)

Lemma case_AUTO_CALIBRATION_STEP_LAST_frame c hw ch :
  ch <> dac_channel_ c ->
  dac_channel_ (fst (case_AUTO_CALIBRATION_STEP_LAST c hw)) = dac_channel_ c
  /\ dac_state ch (dac (snd (case_AUTO_CALIBRATION_STEP_LAST c hw)))
     = dac_state ch (dac hw).
Proof.
  intros Hch. unfold case_AUTO_CALIBRATION_STEP_LAST, dac_state.
  destruct c, hw as [fm d]. simpl in *.
  split_ifs; split; try reflexivity;
    rewrite ?fn_lookup_insert_ne by congruence; reflexivity.
Qed.

Lemma measure_frame c hw ch :
  ch <> dac_channel_ c ->
  dac_channel_ (fst (measure_frequency_and_calc_error c hw)) = dac_channel_ c
  /\ dac_state ch (dac (snd (measure_frequency_and_calc_error c hw)))
     = dac_state ch (dac hw).
Proof.
  intros Hch. rewrite measure_dispatch.
  repeat match goal with
         | |- context [if ?b then _ else _] => destruct b
         end.
  - split; reflexivity.
  - unfold case_DAC_VOLT_0_BASELINE.
    pose proof (auto_frequency_channel c hw) as Hc.
    pose proof (auto_frequency_dac c hw) as Hd.
    destruct (auto_frequency c hw) as [[u c'] hw'].
    destruct c'. cbn [fst snd] in *. simpl in Hc.
    split_ifs; rewrite ?Hd; split; auto.
  - unfold case_DAC_VOLT.
    pose proof (auto_frequency_channel c hw) as Hc.
    pose proof (auto_frequency_dac c hw) as Hd.
    destruct (auto_frequency c hw) as [[u c'] hw'].
    destruct c'. cbn [fst snd] in *. simpl in Hc.
    split_ifs; rewrite ?Hd; split; auto.
  - apply case_AUTO_CALIBRATION_STEP_LAST_frame, Hch.
  - destruct c. split; reflexivity.
Qed.

Lemma Update_frame c hw ch :
  ch <> dac_channel_ c ->
  dac_channel_ (fst (Update c hw)) = dac_channel_ c
  /\ dac_state ch (dac (snd (Update c hw))) = dac_state ch (dac hw).
Proof.
  intros Hch. unfold Update, autotune_updateDAC, dac_state.
  pose proof (auto_frequency_channel (with_F_correction_factor_ 1 c) hw) as Hc.
  pose proof (auto_frequency_dac (with_F_correction_factor_ 1 c) hw) as Hd.
  destruct (auto_frequency (with_F_correction_factor_ 1 c) hw)
    as [[u c'] hw'].
  destruct c, c', hw as [fm d], hw' as [fm' d'].
  cbn [fst snd] in *. simpl in Hc, Hd, Hch. subst.
  simpl. repeat case_match; simpl; split_ifs; split; try reflexivity;
    rewrite ?fn_lookup_insert_ne by congruence; reflexivity.
Qed.

(** X4: no call changes the DAC channel a channel drives, and what the
    DAC driver holds for any other channel (the code written last, the
    table that is live, the learned table) is left as it is. *)
Theorem other_channels_untouched
    (s : ReferenceChannel * Hardware) (e : Call) (ch : DAC_CHANNEL) :
  ch <> dac_channel_ (fst s) ->
  dac_channel_ (fst (exec s e)) = dac_channel_ (fst s)
  /\ dac_state ch (dac (snd (exec s e))) = dac_state ch (dac (snd s)).
Proof.
  destruct s as [c hw]. cbn [fst snd]. intros Hch.
  destruct e; exec_equation; cbn [fst snd].
  - split; reflexivity.
  - apply Update_frame, Hch.
  - apply measure_frame, Hch.
  - destruct c. split; reflexivity.
  - unfold autotuner_run, dac_state. destruct c, hw as [fm d]. simpl in *.
    split_ifs; split; try reflexivity;
      rewrite ?fn_lookup_insert_ne by congruence; reflexivity.
  - destruct c. split; reflexivity.
  - destruct c. split; reflexivity.
  - unfold dac_state. destruct hw as [fm d]. simpl.
    rewrite fn_lookup_insert_ne by congruence. split; reflexivity.
  - unfold dac_state. destruct hw as [fm d]. simpl.
    rewrite fn_lookup_insert_ne by congruence. split; reflexivity.
Qed.

(** ** The arrays and where the corrections go *)

Lemma wrap_s16_int16 n : int16 (wrap_s16 n).
Proof.
  unfold int16. rewrite wrap_s16_mod.
  pose proof (Z.mod_pos_bound (n + 2 ^ 15) (2 ^ 16)). lia.
Qed.

Lemma reset_calibration_data_shape c :
  tables_in_shape c -> tables_in_shape (reset_calibration_data c).
Proof.
  destruct c as [? ? ? ? ? ? ? ? targets data ? ? ? ? ? ? ? ? ? ? ? ? ? ? ? ?].
  unfold tables_in_shape. simpl.
  intros (Hd & Ht & _).
  destruct data as [|? data]; [discriminate|].
  do 10 (destruct data as [|? data]; [discriminate|]).
  destruct data; [|discriminate].
  destruct targets as [|? targets]; [discriminate|].
  do 10 (destruct targets as [|? targets]; [discriminate|]).
  destruct targets; [|discriminate].
  split; [reflexivity|]. split; [reflexivity|].
  split; [|reflexivity].
  cbn. repeat constructor; unfold int16; lia.
Qed.

Lemma reset_autotuner_shape c :
  tables_in_shape c -> tables_in_shape (reset_autotuner c).
Proof.
  intros Hc. pose proof (reset_calibration_data_shape c Hc) as Hr.
  destruct c. exact Hr.
Qed.

(** What a call of [measure_frequency_and_calc_error] does to the
    corrections: the emit that leaves a voltage step stores the correction
    of the step at the index of the step, which is below [OCTAVES]; every
    other call leaves them alone. *)
Lemma measure_corrections c hw :
  if advances (c, hw) call_measure_frequency_and_calc_error
  then 0 <= autotuner_step_ c - DAC_VOLT_3m < OCTAVES
       /\ auto_calibration_data_ (fst (measure_frequency_and_calc_error c hw))
          = <[Z.to_nat (autotuner_step_ c - DAC_VOLT_3m)
              := wrap_s16 (auto_DAC_offset_error_ c)]>
              (auto_calibration_data_ c)
  else auto_calibration_data_ (fst (measure_frequency_and_calc_error c hw))
       = auto_calibration_data_ c.
Proof.
  unfold advances, emits. cbn [fst snd].
  rewrite measure_dispatch.
  destruct (Z.eqb_spec (autotuner_step_ c) 0) as [E0 | E0].
  { rewrite E0. reflexivity. }
  destruct (Z.eqb_spec (autotuner_step_ c) 1) as [E1 | E1].
  { rewrite E1. change (2 <=? 1) with false.
    rewrite andb_false_r. cbn [andb].
    unfold case_DAC_VOLT_0_BASELINE.
    pose proof (auto_frequency_calibration_data c hw) as Hd.
    destruct (auto_frequency c hw) as [[u c'] hw'].
    destruct c, c'. cbn [fst snd] in *. simpl in Hd. subst.
    split_ifs; reflexivity. }
  destruct ((2 <=? autotuner_step_ c) && (autotuner_step_ c <=? 11)) eqn:E2.
  { apply andb_true_iff in E2 as [Hlo Hhi].
    assert (H1 : (1 <=? autotuner_step_ c) = true)
      by (apply Z.leb_le; apply Z.leb_le in Hlo; lia).
    rewrite H1, Hlo, Hhi. cbn [andb]. apply Z.leb_le in Hlo, Hhi.
    destruct (fst (fst (auto_frequency c hw))) eqn:Hemit; cbn [andb].
    - destruct (Z.ltb_spec MAX_NUM_PASSES (auto_num_passes_ c)) as [Hmax | Hmax].
      + destruct (case_DAC_VOLT_advance c hw Hemit Hmax) as (_ & Hd & _).
        split; [unfold OCTAVES; lia | exact Hd].
      + unfold case_DAC_VOLT. rewrite Hemit.
        pose proof (auto_frequency_calibration_data c hw) as Hd.
        pose proof (auto_frequency_passes c hw) as Hp.
        destruct (auto_frequency c hw) as [[u c'] hw'].
        destruct c, c'. cbn [fst snd] in *. simpl in Hd, Hp, Hmax. subst.
        simpl.
        replace (MAX_NUM_PASSES <? _) with false
          by (symmetry; apply Z.ltb_ge; exact Hmax).
        split_ifs; reflexivity.
    - unfold case_DAC_VOLT. rewrite Hemit. cbn [andb fst].
      apply auto_frequency_calibration_data. }
  assert (Hout : (1 <=? autotuner_step_ c) && (autotuner_step_ c <=? 11)
                 = false).
  { apply andb_false_iff. apply andb_false_iff in E2.
    destruct E2 as [E2 | E2]; apply Z.leb_gt in E2;
      [left | right]; apply Z.leb_gt; lia. }
  rewrite Hout. cbn [andb].
  destruct (autotuner_step_ c =? 12).
  - unfold case_AUTO_CALIBRATION_STEP_LAST. destruct c.
    split_ifs; reflexivity.
  - destruct c. reflexivity.
Qed.

Lemma measure_shape c hw :
  tables_in_shape c ->
  tables_in_shape (fst (measure_frequency_and_calc_error c hw)).
Proof.
  intros (Hd & Ht & Hi & Hlast).
  pose proof (measure_corrections c hw) as Hc.
  destruct (voltage_scaling_always_1V c hw) as [_ Htargets].
  unfold tables_in_shape.
  assert (Htl : length (auto_target_frequencies_
                          (fst (measure_frequency_and_calc_error c hw)))
                = 11%nat).
  { destruct Htargets as [-> | ->]; [exact Ht | reflexivity]. }
  destruct (advances _ _).
  - destruct Hc as [Hidx ->]. rewrite length_insert.
    split; [exact Hd|]. split; [exact Htl|].
    split; [apply Forall_insert; [exact Hi | apply wrap_s16_int16]|].
    rewrite list_lookup_insert_ne by (unfold OCTAVES in Hidx; lia). exact Hlast.
  - rewrite Hc. auto.
Qed.

Lemma Update_corrections c hw :
  auto_calibration_data_ (fst (Update c hw)) = auto_calibration_data_ c
  /\ auto_target_frequencies_ (fst (Update c hw)) = auto_target_frequencies_ c.
Proof.
  unfold Update, autotune_updateDAC.
  pose proof (auto_frequency_calibration_data
                (with_F_correction_factor_ 1 c) hw) as Hd.
  pose proof (auto_frequency_targets (with_F_correction_factor_ 1 c) hw) as Ht.
  destruct (auto_frequency (with_F_correction_factor_ 1 c) hw)
    as [[u c'] hw'].
  destruct c, c'. cbn [fst snd] in *. simpl in Hd, Ht. subst.
  simpl.
  repeat case_match; simpl; split_ifs; split; reflexivity.
Qed.

(** What a call does to the corrections. *)
Lemma exec_corrections s e :
  length (auto_calibration_data_ (fst s)) = 11%nat ->
  if advances s e
  then 0 <= autotuner_step_ (fst s) - DAC_VOLT_3m < OCTAVES
       /\ auto_calibration_data_ (fst (exec s e))
          = <[Z.to_nat (autotuner_step_ (fst s) - DAC_VOLT_3m)
              := wrap_s16 (auto_DAC_offset_error_ (fst s))]>
              (auto_calibration_data_ (fst s))
  else if resets e
  then auto_calibration_data_ (fst (exec s e))
       = replicate (Z.to_nat (OCTAVES + 1)) 0
  else auto_calibration_data_ (fst (exec s e)) = auto_calibration_data_ (fst s).
Proof.
  destruct s as [c hw]. cbn [fst snd]. intros Hlen.
  destruct e;
    try (exec_equation; cbn [advances emits andb resets fst snd]).
  - reflexivity.
  - apply Update_corrections.
  - pose proof (measure_corrections c hw) as Hc.
    destruct (advances _ _); exact Hc.
  - unfold autotuner_arm. cbv zeta.
    pose proof (reset_autotuner_data c) as Hr.
    rewrite reset_calibration_data_clears in Hr by exact Hlen.
    destruct (reset_autotuner c). exact Hr.
  - unfold autotuner_run. destruct c. split_ifs; reflexivity.
  - rewrite reset_autotuner_data.
    apply reset_calibration_data_clears, Hlen.
  - destruct c. reflexivity.
  - reflexivity.
  - reflexivity.
Qed.

Lemma exec_shape s e : tables_in_shape (fst s) -> tables_in_shape (fst (exec s e)).
Proof.
  destruct s as [c hw]. cbn [fst snd]. intros Hc.
  destruct e; exec_equation; cbn [fst snd].
  - exact Hc.
  - destruct (Update_corrections c hw) as [Hd Ht].
    unfold tables_in_shape. rewrite Hd, Ht. exact Hc.
  - apply measure_shape, Hc.
  - pose proof (reset_autotuner_shape c Hc) as Hr.
    unfold autotuner_arm. cbv zeta. destruct (reset_autotuner c). exact Hr.
  - unfold autotuner_run. destruct c. simpl in *. split_ifs; exact Hc.
  - apply reset_autotuner_shape, Hc.
  - destruct c. exact Hc.
  - exact Hc.
  - exact Hc.
Qed.

Lemma reachable_shape ch s : reachable ch s -> tables_in_shape (fst s).
Proof.
  intros Hs. induction Hs as [|s e _ IH].
  - cbn. split; [reflexivity|]. split; [reflexivity|].
    split; [|reflexivity].
    repeat constructor; unfold int16; lia.
  - apply exec_shape, IH.
Qed.

(** X5: the corrections are stored below the last entry.  In every
    state a channel can reach, the corrections and the target frequencies
    have their [OCTAVES + 1] = 11 entries, every correction is an
    [int16_t] value, and the correction at index [OCTAVES] is zero.  A
    call changes the corrections in two ways only: the emit that leaves a
    voltage step stores the correction of the step at index
    [autotuner_step_ - DAC_VOLT_3m], which lies between 0 and
    [OCTAVES - 1]; [autotuner_arm] and [reset_autotuner] clear them.  No
    call writes the entry at index [OCTAVES]. *)
Theorem corrections_stored_below_the_last
    (ch : DAC_CHANNEL) (s : ReferenceChannel * Hardware) (e : Call) :
  reachable ch s ->
  let data := auto_calibration_data_ (fst s) in
  let data' := auto_calibration_data_ (fst (exec s e)) in
  (length data = Z.to_nat (OCTAVES + 1)
   /\ length (auto_target_frequencies_ (fst s)) = Z.to_nat (OCTAVES + 1)
   /\ Forall int16 data
   /\ data !! Z.to_nat OCTAVES = Some 0)
  /\ (if advances s e
      then 0 <= autotuner_step_ (fst s) - DAC_VOLT_3m < OCTAVES
           /\ data' = <[Z.to_nat (autotuner_step_ (fst s) - DAC_VOLT_3m)
                        := wrap_s16 (auto_DAC_offset_error_ (fst s))]> data
      else if resets e
      then data' = replicate (Z.to_nat (OCTAVES + 1)) 0
      else data' = data).
Proof.
  intros Hs. cbv zeta.
  pose proof (reachable_shape ch s Hs) as Hshape.
  split; [exact Hshape|].
  apply exec_corrections. apply Hshape.
Qed.


(** ** The commit step *)












(** ** The averager *)

(** X7: the averager is exact on a constant input.  When the period
    counts summed so far are all [x] and the pending one is [x] too (and
    the sum fits 32 bits), the call takes the pending count off the queue
    and either emits [countToFrequency x], with the sum, the count and the
    tick counter reset, or keeps summing: the sum is still the count times
    [x], and the tick counter is left alone. *)
Theorem averager_exact_on_constant_input
    (c : ReferenceChannel) (hw : Hardware) (x : Z) (rest : list Z) :
  freq_measure hw = x :: rest ->
  0 < x ->
  0 <= auto_freq_count_ c ->
  auto_freq_sum_ c = auto_freq_count_ c * x ->
  (auto_freq_count_ c + 1) * x < 2 ^ 32 ->
  let r := auto_frequency c hw in
  freq_measure (snd r) = rest
  /\ if fst (fst r)
     then auto_frequency_ (snd (fst r)) = countToFrequency x
          /\ auto_freq_sum_ (snd (fst r)) = 0
          /\ auto_freq_count_ (snd (fst r)) = 0
          /\ ticks_since_last_freq_ (snd (fst r)) = 0
     else auto_freq_sum_ (snd (fst r)) = auto_freq_count_ (snd (fst r)) * x
          /\ auto_freq_count_ (snd (fst r)) = auto_freq_count_ c + 1
          /\ ticks_since_last_freq_ (snd (fst r)) = ticks_since_last_freq_ c.
Proof.
  destruct c, hw as [fm d]. simpl. intros -> Hx Hn -> Hmax.
  unfold auto_frequency. simpl.
  destruct (ERROR_TIMEOUT <? _); simpl;
  match goal with
  | |- context [wrap_u32 (?n * x + x)] =>
    assert (Hsum : wrap_u32 (n * x + x) = x * (n + 1))
      by (rewrite wrap_u32_small; nia);
    assert (Hcount : wrap_u32 (n + 1) = n + 1)
      by (rewrite wrap_u32_small; nia)
  end;
  split_ifs; rewrite ?Hsum, ?Hcount, ?Z.div_mul by lia;
    repeat split; try reflexivity; lia.
Qed.

(** ** Arming and running *)

(** X8: [autotuner_run] right after [autotuner_arm].  The status counts
    as the [uint8_t] the parameter receives.  When that is zero (0, 256,
    ...) the channel stays in ARM, inactive, and the hardware is left
    alone; otherwise the channel is in BASELINE, active under its own
    number, the factory table is live, and the error flag, the completion
    flag, the pass counter, the octave counter and the tick counter are
    reset. *)
Theorem arm_then_run
    (c : ReferenceChannel) (hw : Hardware) (_status : Z) :
  let s := autotuner_run (autotuner_arm _status c) hw in
  if wrap_u8 _status =? 0
  then autotuner_step_ (fst s) = DAC_VOLT_0_ARM
       /\ autotuner_active (fst s) = 0
       /\ snd s = hw
  else autotuner_step_ (fst s) = DAC_VOLT_0_BASELINE
       /\ autotuner_active (fst s) = DAC_CHANNEL_index (dac_channel_ c) + 1
       /\ DAC.calibration_data_used (dac_channel_ c) (dac (snd s))
          = CALIBRATION_DEFAULT
       /\ auto_error_ (fst s) = false
       /\ autotune_completed_ (fst s) = false
       /\ auto_num_passes_ (fst s) = 0
       /\ octaves_cnt_ (fst s) = 0
       /\ ticks_since_last_freq_ (fst s) = 0.
Proof.
  destruct c, hw as [fm d]. cbv zeta.
  unfold autotuner_run, autotuner_arm, autotuner_active,
    DAC.calibration_data_used. cbv zeta.
  destruct (wrap_u8 _status =? 0); simpl.
  - repeat split.
  - rewrite fn_lookup_insert.
    repeat split. match goal with ch : DAC_CHANNEL |- _ => destruct ch end;
      reflexivity.
Qed.

(** ** The autotuner and the normal output *)

Lemma auto_frequency_output c hw :
  output_state (snd (fst (auto_frequency c hw))) = output_state c.
Proof.
  destruct c. unfold auto_frequency, output_state. simpl.
  repeat match goal with
         | |- context [if ?b then _ else _] => destruct b
         end; reflexivity.
Qed.

Lemma measure_output c hw :
  output_state (fst (measure_frequency_and_calc_error c hw)) = output_state c.
Proof.
  rewrite measure_dispatch.
  repeat match goal with
         | |- context [if ?b then _ else _] => destruct b
         end.
  - reflexivity.
  - unfold case_DAC_VOLT_0_BASELINE.
    pose proof (auto_frequency_output c hw) as Ho.
    destruct (auto_frequency c hw) as [[u c'] hw'].
    destruct c, c'. unfold output_state in *. cbn [fst snd] in *.
    simpl in Ho. split_ifs; exact Ho.
  - unfold case_DAC_VOLT.
    pose proof (auto_frequency_output c hw) as Ho.
    destruct (auto_frequency c hw) as [[u c'] hw'].
    destruct c, c'. unfold output_state in *. cbn [fst snd] in *.
    simpl in Ho. split_ifs; exact Ho.
  - unfold case_AUTO_CALIBRATION_STEP_LAST. destruct c.
    unfold output_state. split_ifs; reflexivity.
  - destruct c. reflexivity.
Qed.

Lemma Update_autotuner_output c hw :
  autotuner_ c = true -> output_state (fst (Update c hw)) = output_state c.
Proof.
  unfold Update, autotune_updateDAC.
  pose proof (auto_frequency_output (with_F_correction_factor_ 1 c) hw) as Ho.
  destruct (auto_frequency (with_F_correction_factor_ 1 c) hw)
    as [[u c'] hw'].
  destruct c, c'. unfold output_state in *. cbn [fst snd] in *.
  simpl in Ho. simpl. intros ->.
  repeat case_match; simpl; first [exact Ho | reflexivity].
Qed.

Lemma autotuner_leaves_the_output_state_aux
    (s : ReferenceChannel * Hardware) (e : Call) :
  e <> call_Update \/ autotuner_ (fst s) = true ->
  output_state (fst (exec s e)) = output_state (fst s).
Proof.
  destruct s as [c hw]. cbn [fst snd]. intros He.
  destruct e; exec_equation; cbn [fst snd].
  - reflexivity.
  - destruct He as [He | He]; [contradiction|].
    apply Update_autotuner_output, He.
  - apply measure_output.
  - destruct c. reflexivity.
  - unfold autotuner_run. destruct c. simpl. split_ifs; reflexivity.
  - destruct c. reflexivity.
  - destruct c. reflexivity.
  - reflexivity.
  - reflexivity.
Qed.

(** X9: the autotuner never touches the normal output: the settings, the
    modulation phase and offset and the pitch last played are changed by
    no call but an [Update] made while the autotuner is switched off. *)
Theorem autotuner_leaves_the_output_state
    (s : ReferenceChannel * Hardware) (e : Call) :
  e <> call_Update \/ autotuner_ (fst s) = true ->
  output_state (fst (exec s e)) = output_state (fst s).
Proof.
  destruct s as [c hw]. cbn [fst snd]. intros He.
  destruct e; exec_equation; cbn [fst snd].
  - reflexivity.
  - destruct He as [He | He]; [contradiction|].
    apply Update_autotuner_output, He.
  - apply measure_output.
  - destruct c. reflexivity.
  - unfold autotuner_run. destruct c. simpl. split_ifs; reflexivity.
  - destruct c. reflexivity.
  - destruct c. reflexivity.
  - reflexivity.
  - reflexivity.
Qed.

(** ** The normal output *)

Lemma Call_eq_Update (e : Call) : e = call_Update \/ e <> call_Update.
Proof. destruct e; auto; right; discriminate. Qed.

Lemma Update_mod_offset c hw :
  mod_offset_ c = 0 \/ mod_offset_ c = 1 ->
  mod_offset_ (fst (Update c hw)) = 0 \/ mod_offset_ (fst (Update c hw)) = 1.
Proof.
  intros Hm. destruct (autotuner_ c) eqn:Ha.
  - pose proof (Update_autotuner_output c hw Ha) as Ho.
    unfold output_state in Ho.
    apply pair_eq_inv in Ho as [Ho _]. apply pair_eq_inv in Ho as [_ Ho].
    rewrite Ho. exact Hm.
  - unfold Update. rewrite Ha. destruct c. simpl in *.
    split_ifs; auto; destruct Hm as [-> | ->]; auto.
Qed.

(** X10: the modulation offset is 0 or 1, and stays so under every
    call. *)
Theorem mod_offset_stays_binary (s : ReferenceChannel * Hardware) (e : Call) :
  mod_offset_ (fst s) = 0 \/ mod_offset_ (fst s) = 1 ->
  mod_offset_ (fst (exec s e)) = 0 \/ mod_offset_ (fst (exec s e)) = 1.
Proof.
  intros Hm. destruct (Call_eq_Update e) as [-> | He].
  - destruct s as [c hw]. rewrite exec_Update. apply Update_mod_offset, Hm.
  - pose proof (autotuner_leaves_the_output_state_aux s e (or_introl He)) as Ho.
    unfold output_state in Ho.
    apply pair_eq_inv in Ho as [Ho _]. apply pair_eq_inv in Ho as [_ Ho].
    rewrite Ho. exact Hm.
Qed.

Ltac unwrap_s32 :=
  repeat first
    [ match goal with
      | |- context [wrap_s32 ?x] => rewrite (wrap_s32_small x) by lia
      end
    | rewrite Z.shiftl_mul_pow2 by lia; change (2 ^ 7) with 128 ].

(** X11: the normal output.  With the autotuner off and the settings
    within their declared ranges, [Update] sends to the DAC the code of
    the set semitone in the set octave, shifted by the modulation range
    when the modulation offset is 1, and the pitch it stores for the
    screensaver is that note in 128ths of a semitone; the stored pitch
    lies between -9216 and 15232.  With a modulation range of zero the
    offset and the phase are held at zero. *)
Theorem normal_output_pitch (c : ReferenceChannel) (hw : Hardware) :
  autotuner_ c = false ->
  settings_in_range c ->
  mod_offset_ c = 0 \/ mod_offset_ c = 1 ->
  let r := Update c hw in
  let octave := get_octave c + mod_offset_ (fst r) * get_range c in
  (get_range c = 0 -> mod_offset_ (fst r) = 0 /\ rate_phase_ (fst r) = 0)
  /\ DAC.values (dac (snd r)) (dac_channel_ c)
     = semitone_to_scaled_voltage_dac (dac_channel_ c) (get_semitone c)
         octave (get_voltage_scaling c)
  /\ last_pitch_ (fst r) = (get_semitone c + 12 * octave) * 128
  /\ - 9216 <= last_pitch_ (fst r) <= 15232.
Proof.
  destruct c, hw as [fm d].
  unfold settings_in_range, value_attr. simpl. intros -> Hv Hm.
  repeat match goal with
         | H : Forall2 _ _ (_ :: _) |- _ =>
           apply Forall2_cons_inv_r in H as (? & ? & ? & H & ->)
         end.
  apply Forall2_nil_inv_r in Hv as ->.
  simpl in *.
  unfold Update, get_octave, get_range, get_semitone, get_rate,
    get_voltage_scaling, value_at.
  simpl.
  match goal with
  | |- context [negb (?r =? 0)] => destruct (Z.eqb_spec r 0) as [-> | Hr]
  end; simpl.
  - rewrite fn_lookup_insert. unwrap_s32.
    repeat split; try lia. f_equal; lia.
  - split; [intros; contradiction|].
    destruct (_ <=? _); simpl;
      destruct Hm as [-> | ->]; simpl; rewrite fn_lookup_insert; unwrap_s32;
      (split; [f_equal; lia | lia]).
Qed.


(** ** The pass budget of a voltage step *)

(** Under the interrupts a step that has been left is not entered again:
    the channel is in ARM or at the step reached, or past it. *)
Lemma step_stays_away j calls :
  forall s,
    1 <= j ->
    Forall from_interrupt calls ->
    autotuner_step_ (fst s) = 0 \/ j <= autotuner_step_ (fst s) ->
    autotuner_step_ (fst (run s calls)) = 0
    \/ j <= autotuner_step_ (fst (run s calls)).
Proof.
  induction calls as [|e calls IH]; intros s Hj Hcalls Hs; [exact Hs|].
  inversion Hcalls as [|e' calls' He Hcalls']; subst e' calls'.
  cbn [run foldl]. change (foldl exec (exec s e) calls)
    with (run (exec s e) calls).
  apply IH; [exact Hj | exact Hcalls'|].
  destruct (interrupt_step_cases s e He) as [E | [[? E] | [? [E ?]]]];
    rewrite E; lia.
Qed.

Lemma case_DAC_VOLT_passes c hw :
  0 <= auto_num_passes_ c ->
  if fst (fst (auto_frequency c hw))
  then if MAX_NUM_PASSES <? auto_num_passes_ c
       then autotuner_step_ (fst (case_DAC_VOLT c hw))
            = wrap_u8 (autotuner_step_ c + 1)
       else autotuner_step_ (fst (case_DAC_VOLT c hw)) = autotuner_step_ c
            /\ (auto_num_passes_ (fst (case_DAC_VOLT c hw))
                = auto_num_passes_ c + 1
                \/ auto_num_passes_ (fst (case_DAC_VOLT c hw))
                   = 2 * MAX_NUM_PASSES)
  else autotuner_step_ (fst (case_DAC_VOLT c hw)) = autotuner_step_ c
       /\ auto_num_passes_ (fst (case_DAC_VOLT c hw)) = auto_num_passes_ c.
Proof.
  unfold case_DAC_VOLT.
  pose proof (auto_frequency_step c hw) as Hs.
  pose proof (auto_frequency_passes c hw) as Hp.
  destruct (auto_frequency c hw) as [[u c'] hw'].
  destruct c, c'. cbn [fst snd] in *. simpl in Hs, Hp. subst.
  simpl. change MAX_NUM_PASSES with 1500. change (Z.shiftl 1500 1) with 3000.
  intros Hp.
  destruct u; cbn [andb]; [|simpl; auto].
  destruct (1500 <? _) eqn:Hmax; [split_ifs; reflexivity|].
  apply Z.ltb_ge in Hmax. cbn [negb].
  split_ifs; rewrite ?wrap_u32_small by lia;
    (split; [reflexivity|]); first [left; reflexivity | right; reflexivity].
Qed.

Lemma voltage_step_emits calls :
  forall s,
    DAC_VOLT_3m <= autotuner_step_ (fst s) <= DAC_VOLT_6 ->
    0 <= auto_num_passes_ (fst s) ->
    Forall from_interrupt calls ->
    autotuner_step_ (fst (run s calls)) = autotuner_step_ (fst s) ->
    Z.of_nat (count_emits s calls)
    <= Z.max 0 (MAX_NUM_PASSES + 1 - auto_num_passes_ (fst s)).
Proof.
  change MAX_NUM_PASSES with 1500.
  induction calls as [|e calls IH]; intros [c hw] Hs Hp Hcalls Hstay.
  - cbn [count_emits]. lia.
  - inversion Hcalls as [|e' calls' He Hcalls']; subst e' calls'.
    clear Hcalls. rename Hcalls' into Hcalls.
    cbn [run foldl] in Hstay. cbn [count_emits]. cbn [fst] in Hs, Hp, Hstay |- *.
    change (foldl exec (exec (c, hw) e) calls)
      with (run (exec (c, hw) e) calls) in Hstay.
    destruct e; try contradiction.
    + (* capture *)
      cbn [emits]. rewrite exec_capture in Hstay |- *.
      apply (IH (c, with_freq_measure
                       (FreqMeasure.capture count (freq_measure hw)) hw));
        assumption.
    + (* Update *)
      cbn [emits]. rewrite exec_Update in Hstay |- *.
      pose proof (Update_step c hw) as HUs.
      pose proof (Update_passes c hw) as HUp.
      specialize (IH (Update c hw)).
      rewrite HUs, HUp in IH. apply IH; assumption.
    + (* measure_frequency_and_calc_error *)
      rewrite exec_measure in Hstay |- *.
      rewrite measure_in_DAC_VOLT in Hstay |- * by exact Hs.
      unfold emits. cbn [fst snd].
      replace (1 <=? autotuner_step_ c) with true
        by (symmetry; apply Z.leb_le; lia).
      replace (autotuner_step_ c <=? 11) with true
        by (symmetry; apply Z.leb_le; lia).
      cbn [andb].
      pose proof (case_DAC_VOLT_passes c hw Hp) as Hcase.
      change MAX_NUM_PASSES with 1500 in Hcase.
      specialize (IH (case_DAC_VOLT c hw)).
      destruct (fst (fst (auto_frequency c hw))).
      * destruct (1500 <? auto_num_passes_ c) eqn:Hmax.
        { (* the step is left, and not entered again *)
          exfalso.
          rewrite wrap_u8_small in Hcase by lia.
          destruct (step_stays_away (autotuner_step_ c + 1) calls
                      (case_DAC_VOLT c hw)) as [Hz | Hz];
            [lia | exact Hcalls | right; lia | lia | lia]. }
        apply Z.ltb_ge in Hmax. destruct Hcase as [Hs' Hp'].
        rewrite Hs' in IH.
        specialize (IH Hs ltac:(lia) Hcalls Hstay). lia.
      * destruct Hcase as [Hs' Hp']. rewrite Hs', Hp' in IH.
        specialize (IH Hs Hp Hcalls Hstay). lia.
Qed.

(** X12: the pass budget of a voltage step.  Entered with the pass
    counter at zero, a voltage step sees at most [MAX_NUM_PASSES + 1] =
    1501 emits of the averager for as long as the channel stays in it:
    the next emit leaves the step, whatever the input. *)
Theorem voltage_step_emit_budget
    (s : ReferenceChannel * Hardware) (calls : list Call) :
  DAC_VOLT_3m <= autotuner_step_ (fst s) <= DAC_VOLT_6 ->
  auto_num_passes_ (fst s) = 0 ->
  Forall from_interrupt calls ->
  autotuner_step_ (fst (run s calls)) = autotuner_step_ (fst s) ->
  (count_emits s calls <= Z.to_nat (MAX_NUM_PASSES + 1))%nat.
Proof.
  intros Hs Hp Hcalls Hstay.
  pose proof (voltage_step_emits calls s Hs ltac:(lia) Hcalls Hstay) as Hn.
  rewrite Hp in Hn. change MAX_NUM_PASSES with 1500 in Hn |- *. lia.
Qed.

(** ** After completion *)

(** X13: the step after [AUTO_CALIBRATION_STEP_LAST] lasts one tick.
    The [Update] of the next tick writes to the DAC the factory code at
    index [OCTAVES + 1] plus the correction of the step, and
    [measure_frequency_and_calc_error] then takes the channel back to ARM
    with the autotuner switched off; the completion flag, the error flag,
    the live table and the learned table are left as they are. *)
Theorem done_lasts_one_tick
    (c : ReferenceChannel) (hw : Hardware) (count : Z) :
  autotuner_step_ c = AUTO_CALIBRATION_STEP_LAST + 1 ->
  autotuner_ c = true ->
  let s := run (c, hw) (tick count) in
  autotuner_step_ (fst s) = DAC_VOLT_0_ARM
  /\ autotuner_ (fst s) = false
  /\ autotuner_active (fst s) = 0
  /\ autotune_completed_ (fst s) = autotune_completed_ c
  /\ auto_error_ (fst s) = auto_error_ c
  /\ DAC.calibration_data_used (dac_channel_ c) (dac (snd s))
     = DAC.calibration_data_used (dac_channel_ c) (dac hw)
  /\ DAC.auto_calibration (dac (snd s)) (dac_channel_ c)
     = DAC.auto_calibration (dac hw) (dac_channel_ c)
  /\ DAC.values (dac (snd s)) (dac_channel_ c)
     = wrap_s32 (calibrated_octaves (dac_channel_ c) (OCTAVES + 1)
                 + auto_DAC_offset_error_ c).
Proof.
  destruct c, hw as [fm d]. simpl. intros -> ->.
  unfold autotuner_active, DAC.calibration_data_used. simpl.
  rewrite fn_lookup_insert. repeat split.
Qed.


(** ** Convergence is counted at the finest step *)

Lemma auto_frequency_counters c hw :
  correction_cnt_positive_ (snd (fst (auto_frequency c hw)))
  = correction_cnt_positive_ c
  /\ correction_cnt_negative_ (snd (fst (auto_frequency c hw)))
     = correction_cnt_negative_ c.
Proof.
  destruct c. unfold auto_frequency. simpl.
  repeat match goal with
         | |- context [if ?b then _ else _] => destruct b
         end; split; reflexivity.
Qed.

Lemma case_DAC_VOLT_counting c hw :
  counting_at_unit_factor c ->
  counting_at_unit_factor (fst (case_DAC_VOLT c hw)).
Proof.
  unfold case_DAC_VOLT, counting_at_unit_factor.
  pose proof (auto_frequency_factor c hw) as HF.
  destruct (auto_frequency_counters c hw) as [Hp Hn].
  destruct (auto_frequency c hw) as [[u c'] hw'].
  destruct c, c'. cbn [fst snd] in *. simpl in HF, Hp, Hn. subst.
  simpl. intros Hc.
  destruct u; cbn [andb]; [|simpl; exact Hc].
  destruct (MAX_NUM_PASSES <? _); [split_ifs; intros [E | E]; contradiction|].
  cbn [negb].
  assert (Hone : wrap_u16 (Z.lor (Z.shiftr 1 1) 1) = 1) by reflexivity.
  split_ifs; bool_to_Prop; intros Hcnt; try assumption;
    try (rewrite (Hc Hcnt) in *; assumption);
    try (apply Hc; exact Hcnt);
    try (rewrite (Hc Hcnt); exact Hone).
Qed.

Lemma measure_counting c hw :
  counting_at_unit_factor c ->
  counting_at_unit_factor (fst (measure_frequency_and_calc_error c hw)).
Proof.
  intros Hc. rewrite measure_dispatch.
  repeat match goal with
         | |- context [if ?b then _ else _] => destruct b
         end.
  - exact Hc.
  - unfold case_DAC_VOLT_0_BASELINE, counting_at_unit_factor in *.
    pose proof (auto_frequency_factor c hw) as HF.
    destruct (auto_frequency_counters c hw) as [Hp Hn].
    destruct (auto_frequency c hw) as [[u c'] hw'].
    destruct c, c'. cbn [fst snd] in *. simpl in HF, Hp, Hn, Hc. subst.
    split_ifs; try exact Hc. intros [E | E]; contradiction.
  - apply case_DAC_VOLT_counting, Hc.
  - unfold case_AUTO_CALIBRATION_STEP_LAST, counting_at_unit_factor in *.
    destruct c. simpl in *. split_ifs; exact Hc.
  - destruct c. exact Hc.
Qed.

Lemma Update_counting c hw :
  counting_at_unit_factor c -> counting_at_unit_factor (fst (Update c hw)).
Proof.
  unfold Update, autotune_updateDAC, counting_at_unit_factor.
  pose proof (auto_frequency_factor (with_F_correction_factor_ 1 c) hw) as HF.
  destruct (auto_frequency_counters (with_F_correction_factor_ 1 c) hw)
    as [Hp Hn].
  destruct (auto_frequency (with_F_correction_factor_ 1 c) hw)
    as [[u c'] hw'].
  destruct c, c'. cbn [fst snd] in *. simpl in HF, Hp, Hn. subst.
  simpl. intros Hc.
  repeat case_match; simpl; split_ifs; first [exact Hc | reflexivity].
Qed.

Lemma exec_counting s e :
  counting_at_unit_factor (fst s) ->
  counting_at_unit_factor (fst (exec s e)).
Proof.
  destruct s as [c hw]. cbn [fst snd]. intros Hc.
  destruct e; exec_equation; cbn [fst snd].
  - exact Hc.
  - apply Update_counting, Hc.
  - apply measure_counting, Hc.
  - destruct c. intros [E | E]; contradiction.
  - unfold autotuner_run. destruct c. simpl in *. split_ifs; exact Hc.
  - destruct c. intros [E | E]; contradiction.
  - destruct c. exact Hc.
  - exact Hc.
  - exact Hc.
Qed.

(** X14: the two convergence counters only count corrections made with
    the factor at 1: in every state a channel can reach, if one of them is
    not zero the factor is 1. *)
Theorem convergence_counted_at_unit_factor
    (ch : DAC_CHANNEL) (s : ReferenceChannel * Hardware) :
  reachable ch s ->
  correction_cnt_positive_ (fst s) <> 0
  \/ correction_cnt_negative_ (fst s) <> 0 ->
  F_correction_factor_ (fst s) = 1.
Proof.
  intros Hs. change (counting_at_unit_factor (fst s)).
  induction Hs as [|s e _ IH].
  - intros [E | E]; contradiction.
  - apply exec_counting, IH.
Qed.

End Coverage.

Section CoverageBench.
#[local] Existing Instance bench.

Lemma step_only_moves_forward_witness :
  from_interrupt call_measure_frequency_and_calc_error
  /\ (autotuner_step_
        (fst (exec before_twelfth_emit call_measure_frequency_and_calc_error))
      = autotuner_step_ (fst before_twelfth_emit)
      \/ (DAC_VOLT_0_BASELINE <= autotuner_step_ (fst before_twelfth_emit)
            <= AUTO_CALIBRATION_STEP_LAST
          /\ autotuner_step_
               (fst (exec before_twelfth_emit
                          call_measure_frequency_and_calc_error))
             = autotuner_step_ (fst before_twelfth_emit) + 1)
      \/ (~ DAC_VOLT_0_ARM <= autotuner_step_ (fst before_twelfth_emit)
              <= AUTO_CALIBRATION_STEP_LAST
          /\ autotuner_step_
               (fst (exec before_twelfth_emit
                          call_measure_frequency_and_calc_error))
             = DAC_VOLT_0_ARM
          /\ autotuner_
               (fst (exec before_twelfth_emit
                          call_measure_frequency_and_calc_error))
             = false)).
Proof.
  split; [exact I|].
  exact (step_only_moves_forward before_twelfth_emit
           call_measure_frequency_and_calc_error I).
Defined.

Lemma step_in_range_witness :
  reachable DAC_CHANNEL_A three_corrections
  /\ DAC_VOLT_0_ARM <= autotuner_step_ (fst three_corrections)
     <= AUTO_CALIBRATION_STEP_LAST + 1.
Proof.
  split; [apply reachable_constant_vco|].
  apply (step_in_range DAC_CHANNEL_A), reachable_constant_vco.
Defined.

Lemma error_stays_latched_witness :
  (resets call_measure_frequency_and_calc_error = false
   /\ auto_error_ (fst silence_latched) = true)
  /\ auto_error_
       (fst (exec silence_latched call_measure_frequency_and_calc_error))
     = true.
Proof.
  assert (He : auto_error_ (fst silence_latched) = true)
    by (vm_compute; reflexivity).
  split; [split; [reflexivity | exact He]|].
  exact (error_stays_latched silence_latched
           call_measure_frequency_and_calc_error eq_refl He).
Defined.

Lemma other_channels_untouched_witness :
  DAC_CHANNEL_B <> dac_channel_ (fst finishing_commit)
  /\ dac_channel_
       (fst (exec finishing_commit call_measure_frequency_and_calc_error))
     = dac_channel_ (fst finishing_commit)
  /\ dac_state DAC_CHANNEL_B
       (dac (snd (exec finishing_commit call_measure_frequency_and_calc_error)))
     = dac_state DAC_CHANNEL_B (dac (snd finishing_commit)).
Proof.
  assert (Hch : DAC_CHANNEL_B <> dac_channel_ (fst finishing_commit))
    by (vm_compute; discriminate).
  split; [exact Hch|].
  exact (other_channels_untouched finishing_commit
           call_measure_frequency_and_calc_error DAC_CHANNEL_B Hch).
Defined.

Lemma corrections_stored_below_the_last_witness :
  reachable DAC_CHANNEL_A leaving_3m
  /\ advances leaving_3m call_measure_frequency_and_calc_error = true
  /\ auto_calibration_data_ (fst leaving_3m) !! Z.to_nat OCTAVES = Some 0
  /\ auto_calibration_data_
       (fst (exec leaving_3m call_measure_frequency_and_calc_error))
     = <[Z.to_nat (autotuner_step_ (fst leaving_3m) - DAC_VOLT_3m)
         := wrap_s16 (auto_DAC_offset_error_ (fst leaving_3m))]>
         (auto_calibration_data_ (fst leaving_3m)).
Proof.
  assert (Hs : reachable DAC_CHANNEL_A leaving_3m).
  { unfold leaving_3m, about_to_leave, entering_DAC_VOLT_3m.
    apply reachable_run. apply reachable_constant_vco. }
  assert (Ha : advances leaving_3m call_measure_frequency_and_calc_error
               = true) by (vm_compute; reflexivity).
  pose proof (corrections_stored_below_the_last DAC_CHANNEL_A leaving_3m
                call_measure_frequency_and_calc_error Hs) as Hx.
  cbv zeta in Hx. rewrite Ha in Hx.
  destruct Hx as [(_ & _ & _ & Hlast) [_ Hstore]].
  split; [exact Hs|]. split; [exact Ha|]. split; [exact Hlast | exact Hstore].
Defined.


Lemma averager_exact_on_constant_input_witness :
  (freq_measure (snd (measuring_at 2039)) = [600000]
   /\ 0 < 600000
   /\ 0 <= auto_freq_count_ (fst (measuring_at 2039))
   /\ auto_freq_sum_ (fst (measuring_at 2039))
      = auto_freq_count_ (fst (measuring_at 2039)) * 600000
   /\ (auto_freq_count_ (fst (measuring_at 2039)) + 1) * 600000 < 2 ^ 32)
  /\ fst (fst (auto_frequency (fst (measuring_at 2039))
                              (snd (measuring_at 2039)))) = true
  /\ auto_frequency_
       (snd (fst (auto_frequency (fst (measuring_at 2039))
                                 (snd (measuring_at 2039)))))
     = countToFrequency 600000.
Proof.
  assert (Hfm : freq_measure (snd (measuring_at 2039)) = [600000])
    by (vm_compute; reflexivity).
  assert (Hx : 0 < 600000) by lia.
  assert (Hn : 0 <= auto_freq_count_ (fst (measuring_at 2039)))
    by (vm_compute; discriminate).
  assert (Hsum : auto_freq_sum_ (fst (measuring_at 2039))
                 = auto_freq_count_ (fst (measuring_at 2039)) * 600000)
    by (vm_compute; reflexivity).
  assert (Hmax : (auto_freq_count_ (fst (measuring_at 2039)) + 1) * 600000
                 < 2 ^ 32) by (vm_compute; reflexivity).
  assert (Hemit : fst (fst (auto_frequency (fst (measuring_at 2039))
                                           (snd (measuring_at 2039)))) = true)
    by (vm_compute; reflexivity).
  split.
  - split; [exact Hfm|]. split; [exact Hx|]. split; [exact Hn|].
    split; [exact Hsum | exact Hmax].
  - split; [exact Hemit|].
    pose proof (averager_exact_on_constant_input
                  (fst (measuring_at 2039)) (snd (measuring_at 2039))
                  600000 [] Hfm Hx Hn Hsum Hmax) as Hexact.
    cbv zeta in Hexact. destruct Hexact as [_ Hexact].
    rewrite Hemit in Hexact. destruct Hexact as [Hf _]. exact Hf.
Defined.

Lemma autotuner_leaves_the_output_state_witness :
  (call_Update <> call_Update \/ autotuner_ (fst three_corrections) = true)
  /\ output_state (fst (exec three_corrections call_Update))
     = output_state (fst three_corrections).
Proof.
  assert (Ha : autotuner_ (fst three_corrections) = true)
    by (vm_compute; reflexivity).
  split; [right; exact Ha|].
  exact (autotuner_leaves_the_output_state three_corrections call_Update
           (or_intror Ha)).
Defined.

Lemma mod_offset_stays_binary_witness :
  (mod_offset_ (fst modulating) = 0 \/ mod_offset_ (fst modulating) = 1)
  /\ (mod_offset_ (fst (exec modulating call_Update)) = 0
      \/ mod_offset_ (fst (exec modulating call_Update)) = 1).
Proof.
  assert (Hm : mod_offset_ (fst modulating) = 0
               \/ mod_offset_ (fst modulating) = 1)
    by (left; reflexivity).
  split; [exact Hm|].
  exact (mod_offset_stays_binary modulating call_Update Hm).
Defined.

Lemma normal_output_pitch_witness :
  (autotuner_ (fst modulating) = false
   /\ settings_in_range (fst modulating)
   /\ (mod_offset_ (fst modulating) = 0 \/ mod_offset_ (fst modulating) = 1))
  /\ last_pitch_ (fst (Update (fst modulating) (snd modulating)))
     = (get_semitone (fst modulating)
        + 12 * (get_octave (fst modulating)
                + mod_offset_ (fst (Update (fst modulating) (snd modulating)))
                  * get_range (fst modulating))) * 128
  /\ last_pitch_ (fst (Update (fst modulating) (snd modulating))) = - 8576.
Proof.
  assert (Ha : autotuner_ (fst modulating) = false) by reflexivity.
  assert (Hv : settings_in_range (fst modulating)).
  { unfold settings_in_range. cbn. repeat constructor; cbn; lia. }
  assert (Hm : mod_offset_ (fst modulating) = 0
               \/ mod_offset_ (fst modulating) = 1)
    by (left; reflexivity).
  split; [split; [exact Ha|]; split; [exact Hv | exact Hm]|].
  destruct (normal_output_pitch (fst modulating) (snd modulating) Ha Hv Hm)
    as (_ & _ & Hp & _).
  split; [exact Hp | vm_compute; reflexivity].
Defined.

Lemma voltage_step_emit_budget_witness :
  (DAC_VOLT_3m <= autotuner_step_ (fst entering_DAC_VOLT_3m) <= DAC_VOLT_6
   /\ auto_num_passes_ (fst entering_DAC_VOLT_3m) = 0
   /\ Forall from_interrupt (ticks (129 * 3) 600000)
   /\ autotuner_step_ (fst (run entering_DAC_VOLT_3m (ticks (129 * 3) 600000)))
      = autotuner_step_ (fst entering_DAC_VOLT_3m))
  /\ (count_emits entering_DAC_VOLT_3m (ticks (129 * 3) 600000)
      <= Z.to_nat (MAX_NUM_PASSES + 1))%nat.
Proof.
  assert (Hs : autotuner_step_ (fst entering_DAC_VOLT_3m) = DAC_VOLT_3m)
    by (vm_compute; reflexivity).
  assert (Hstep : DAC_VOLT_3m <= autotuner_step_ (fst entering_DAC_VOLT_3m)
                  <= DAC_VOLT_6) by (rewrite Hs; lia).
  assert (Hp : auto_num_passes_ (fst entering_DAC_VOLT_3m) = 0)
    by (vm_compute; reflexivity).
  pose proof (ticks_from_interrupt (129 * 3) 600000) as Hcalls.
  assert (Hstay : autotuner_step_
                    (fst (run entering_DAC_VOLT_3m (ticks (129 * 3) 600000)))
                  = autotuner_step_ (fst entering_DAC_VOLT_3m))
    by (vm_compute; reflexivity).
  split.
  - split; [exact Hstep|]. split; [exact Hp|].
    split; [exact Hcalls | exact Hstay].
  - exact (voltage_step_emit_budget entering_DAC_VOLT_3m
             (ticks (129 * 3) 600000) Hstep Hp Hcalls Hstay).
Defined.

Lemma done_lasts_one_tick_witness :
  (autotuner_step_ (fst committed) = AUTO_CALIBRATION_STEP_LAST + 1
   /\ autotuner_ (fst committed) = true)
  /\ autotuner_step_ (fst (run (fst committed, snd committed) (tick 600000)))
     = DAC_VOLT_0_ARM
  /\ autotuner_active (fst (run (fst committed, snd committed) (tick 600000)))
     = 0
  /\ autotune_completed_
       (fst (run (fst committed, snd committed) (tick 600000)))
     = autotune_completed_ (fst committed).
Proof.
  assert (Hs : autotuner_step_ (fst committed) = AUTO_CALIBRATION_STEP_LAST + 1)
    by (vm_compute; reflexivity).
  assert (Ha : autotuner_ (fst committed) = true) by (vm_compute; reflexivity).
  split; [split; [exact Hs | exact Ha]|].
  destruct (done_lasts_one_tick (fst committed) (snd committed) 600000 Hs Ha)
    as (Hstep & _ & Hactive & Hcompleted & _).
  split; [exact Hstep|]. split; [exact Hactive | exact Hcompleted].
Defined.

Lemma convergence_counted_at_unit_factor_witness :
  (reachable DAC_CHANNEL_A settling
   /\ (correction_cnt_positive_ (fst settling) <> 0
       \/ correction_cnt_negative_ (fst settling) <> 0))
  /\ F_correction_factor_ (fst settling) = 1.
Proof.
  assert (Hr : reachable DAC_CHANNEL_A settling)
    by (apply reachable_run, reachable_constant_vco).
  assert (Hcnt : correction_cnt_positive_ (fst settling) <> 0
                 \/ correction_cnt_negative_ (fst settling) <> 0)
    by (left; vm_compute; discriminate).
  split; [split; [exact Hr | exact Hcnt]|].
  exact (convergence_counted_at_unit_factor DAC_CHANNEL_A settling Hr Hcnt).
Defined.

End CoverageBench.

(** * The application *)

Lemma wrap_s8_mod n : wrap_s8 n = (n + 2 ^ 7) mod 2 ^ 8 - 2 ^ 7.
Proof.
  unfold wrap_s8. change 0xFF with (Z.ones 8).
  rewrite Z.land_ones by lia. reflexivity.
Qed.

Lemma wrap_s8_small n : - 2 ^ 7 <= n < 2 ^ 7 -> wrap_s8 n = n.
Proof. intros. rewrite wrap_s8_mod, Z.mod_small; lia. Qed.

Section App.
Context `{Platform} `{Libm}.

Import ReferencesApp.

Ltac split_ifs :=
  repeat (simpl;
          match goal with
          | |- context [if ?b then _ else _] => destruct b eqn:?
          end);
  simpl.

(** ** The dispatch of the interrupt *)

Lemma channels_with_channels_ channels app :
  channels_ (with_channels_ channels app) = channels.
Proof. destruct app. reflexivity. Qed.

Lemma tuner_reading_with_channels_ channels app :
  tuner_reading (with_channels_ channels app) = tuner_reading app.
Proof. destruct app. reflexivity. Qed.

Lemma autotune_updateDAC_autotuner c hw :
  autotuner_ (fst (autotune_updateDAC c hw)) = autotuner_ c
  /\ dac_channel_ (fst (autotune_updateDAC c hw)) = dac_channel_ c.
Proof.
  unfold autotune_updateDAC.
  repeat case_match; cbn [fst snd];
    rewrite ?auto_frequency_autotuner, ?auto_frequency_channel;
    destruct c; split; reflexivity.
Qed.

Lemma Update_autotuner c hw :
  autotuner_ (fst (Update c hw)) = autotuner_ c
  /\ dac_channel_ (fst (Update c hw)) = dac_channel_ c.
Proof.
  unfold Update. destruct (autotuner_ c) eqn:Ha.
  - pose proof (autotune_updateDAC_autotuner c hw) as Hs. rewrite Ha in Hs.
    destruct (autotune_updateDAC c hw) as [c' hw'].
    destruct c'. simpl in *. exact Hs.
  - destruct c. simpl in Ha. subst. split_ifs; split; reflexivity.
Qed.

Lemma Update_active c hw :
  autotuner_active (fst (Update c hw)) = autotuner_active c
  /\ dac_channel_ (fst (Update c hw)) = dac_channel_ c.
Proof.
  destruct (Update_autotuner c hw) as [Ha Hc].
  unfold autotuner_active. rewrite Ha, Hc, Update_step. split; reflexivity.
Qed.

Lemma update_channels_active (l : list DAC_CHANNEL) :
  forall (channels : DAC_CHANNEL -> ReferenceChannel) hw ch,
    let r := foldl (fun st ch =>
                      let r := Update (fst st ch) (snd st) in
                      (<[ch := fst r]> (fst st), snd r))
                   (channels, hw) l in
    autotuner_active (fst r ch) = autotuner_active (channels ch)
    /\ dac_channel_ (fst r ch) = dac_channel_ (channels ch).
Proof.
  induction l as [|a l IH]; intros channels hw ch; cbn [foldl fst snd].
  - split; reflexivity.
  - cbv zeta in IH.
    destruct (IH (<[a := fst (Update (channels a) hw)]> channels)
                 (snd (Update (channels a) hw)) ch) as [Ha Hc].
    rewrite Ha, Hc.
    destruct (decide (a = ch)) as [-> | Hne].
    + rewrite fn_lookup_insert. apply Update_active.
    + rewrite fn_lookup_insert_ne by exact Hne. split; reflexivity.
Qed.

Lemma autotuner_active_value c :
  autotuner_active c = 0
  \/ autotuner_active c = DAC_CHANNEL_index (dac_channel_ c) + 1.
Proof.
  unfold autotuner_active. destruct (_ && _); [right | left; reflexivity].
  destruct (dac_channel_ c); reflexivity.
Qed.

(** The sum after the four calls of [Update] is the sum before. *)
Lemma active_channels_sum_updated channels hw :
  active_channels_sum (fst (update_channels channels hw))
  = active_channels_sum channels.
Proof.
  unfold active_channels_sum, update_channels, all_channels. cbn [foldl].
  pose proof (update_channels_active all_channels channels hw) as Hact.
  cbv zeta in Hact. unfold all_channels in Hact. cbn [foldl] in Hact.
  rewrite !(proj1 (Hact _)). reflexivity.
Qed.

Lemma sum_of_one_active channels ch :
  (forall ch', dac_channel_ (channels ch') = ch') ->
  autotuner_active (channels ch) <> 0 ->
  (forall ch', ch' <> ch -> autotuner_active (channels ch') = 0) ->
  active_channels_sum channels = DAC_CHANNEL_index ch + 1.
Proof.
  intros Hplace Hactive Hothers.
  destruct (autotuner_active_value (channels ch)) as [Hzero | Hv];
    [contradiction|].
  rewrite Hplace in Hv.
  unfold active_channels_sum, all_channels. cbn [foldl].
  destruct ch; rewrite Hv, !Hothers by discriminate; reflexivity.
Qed.

(** With a channel active the interrupt dispatches on the sum. *)
Lemma ISR_dispatch_on_sum app hw n :
  active_channels_sum (fst (update_channels (channels_ app) hw)) = n ->
  n <> 0 ->
  ISR app hw
  = let r := update_channels (channels_ app) hw in
    match channel_of_index (n - 1) with
    | Some ch =>
      let m := measure_frequency_and_calc_error (fst r ch) (snd r) in
      Some (with_channels_ (<[ch := fst m]> (fst r))
                           (with_channels_ (fst r) app),
            snd m)
    | None => None
    end.
Proof.
  intros Hsum Hn. unfold ISR. cbv zeta.
  rewrite !channels_with_channels_, Hsum.
  replace (n =? 0) with false by (symmetry; apply Z.eqb_neq; exact Hn).
  reflexivity.
Qed.

(** X15: the dispatch of the timer interrupt.  When the channels are in
    their places and exactly one of them is active, the interrupt updates
    the four channels and then calls [measure_frequency_and_calc_error] on
    the active one; the other channels are only updated, and the tuner
    display is left alone. *)
Theorem ISR_measures_the_active_channel
    (app : ReferencesApp.t) (hw : Hardware) (ch : DAC_CHANNEL) :
  channels_in_place app ->
  autotuner_active (channels_ app ch) <> 0 ->
  (forall ch', ch' <> ch -> autotuner_active (channels_ app ch') = 0) ->
  let r := update_channels (channels_ app) hw in
  let m := measure_frequency_and_calc_error (fst r ch) (snd r) in
  exists app',
    ISR app hw = Some (app', snd m)
    /\ channels_ app' ch = fst m
    /\ (forall ch', ch' <> ch -> channels_ app' ch' = fst r ch')
    /\ frequency_ app' = frequency_ app
    /\ tuner_reading app' = tuner_reading app.
Proof.
  intros Hplace Hactive Hothers r m.
  assert (Hsum : active_channels_sum (fst r) = DAC_CHANNEL_index ch + 1).
  { unfold r. rewrite active_channels_sum_updated.
    apply sum_of_one_active; assumption. }
  rewrite (ISR_dispatch_on_sum app hw _ Hsum) by (destruct ch; discriminate).
  cbv zeta. fold r.
  replace (DAC_CHANNEL_index ch + 1 - 1) with (DAC_CHANNEL_index ch) by lia.
  replace (channel_of_index (DAC_CHANNEL_index ch)) with (Some ch)
    by (destruct ch; reflexivity).
  fold m. eexists. split; [reflexivity|].
  rewrite !channels_with_channels_.
  split; [apply fn_lookup_insert|].
  split; [intros ch' Hne; apply fn_lookup_insert_ne; congruence|].
  destruct app. split; reflexivity.
Qed.

(** X16: the dispatch goes by the sum of the numbers of the active
    channels.  With two channels active the interrupt measures neither of
    them: it either indexes past the array of channels (no result) or
    calls [measure_frequency_and_calc_error] on a third channel. *)
Theorem ISR_with_two_active_channels
    (app : ReferencesApp.t) (hw : Hardware) (ch1 ch2 : DAC_CHANNEL) :
  channels_in_place app ->
  ch1 <> ch2 ->
  autotuner_active (channels_ app ch1) <> 0 ->
  autotuner_active (channels_ app ch2) <> 0 ->
  (forall ch', ch' <> ch1 -> ch' <> ch2 ->
               autotuner_active (channels_ app ch') = 0) ->
  let r := update_channels (channels_ app) hw in
  ISR app hw = None
  \/ exists app' hw',
       ISR app hw = Some (app', hw')
       /\ channels_ app' ch1 = fst r ch1
       /\ channels_ app' ch2 = fst r ch2.
Proof.
  intros Hplace Hne H1 H2 Hothers r.
  destruct (autotuner_active_value (channels_ app ch1)) as [? | Hv1];
    [contradiction|].
  destruct (autotuner_active_value (channels_ app ch2)) as [? | Hv2];
    [contradiction|].
  rewrite Hplace in Hv1, Hv2.
  assert (Hsum : active_channels_sum (fst r)
                 = DAC_CHANNEL_index ch1 + DAC_CHANNEL_index ch2 + 2).
  { unfold r. rewrite active_channels_sum_updated.
    unfold active_channels_sum, all_channels. cbn [foldl].
    destruct ch1, ch2; try contradiction;
      rewrite Hv1, Hv2, !Hothers by discriminate; reflexivity. }
  rewrite (ISR_dispatch_on_sum app hw _ Hsum)
    by (destruct ch1, ch2; discriminate).
  cbv zeta. fold r. clearbody r. clear Hsum.
  destruct ch1, ch2; try contradiction;
    match goal with
    | |- context [channel_of_index ?i] =>
      let v := eval vm_compute in (channel_of_index i) in
      change (channel_of_index i) with v
    end;
    cbv iota; first [left; reflexivity | right];
    (eexists; eexists; split; [reflexivity|]);
    rewrite !channels_with_channels_;
    split; apply fn_lookup_insert_ne; discriminate.
Qed.

(** ** The tuner display *)

Lemma deviation_decomposes d :
  0 <= d < 12000 * 130 ->
  let octave := wrap_s8 (wrap_s32 (- 2 + d ÷ 12000)) in
  let note := wrap_s8 (wrap_s32 (d - wrap_s32 ((octave + 2) * 12000)) ÷ 1000) in
  let residual :=
    wrap_s32 (Z.rem (wrap_s32 (d - wrap_s32 ((octave - 1) * 12000))) 1000
              - 500) in
  0 <= note <= 11
  /\ - 500 <= residual <= 499
  /\ d = 12000 * (octave + 2) + 1000 * note + (residual + 500).
Proof.
  intros Hd. cbv zeta.
  rewrite (Z.quot_div_nonneg d 12000) by lia.
  pose proof (Z.div_mod d 12000 ltac:(lia)) as Hdm.
  pose proof (Z.mod_pos_bound d 12000 ltac:(lia)) as Hm.
  assert (Hq : 0 <= d / 12000 < 130).
  { split; [apply Z.div_pos; lia | apply Z.div_lt_upper_bound; lia]. }
  rewrite (wrap_s32_small (- 2 + d / 12000)) by lia.
  rewrite (wrap_s8_small (- 2 + d / 12000)) by lia.
  replace (- 2 + d / 12000 + 2) with (d / 12000) by lia.
  replace (- 2 + d / 12000 - 1) with (d / 12000 - 3) by lia.
  rewrite (wrap_s32_small (d / 12000 * 12000)) by lia.
  rewrite (wrap_s32_small ((d / 12000 - 3) * 12000)) by lia.
  replace (d - d / 12000 * 12000) with (d mod 12000) by lia.
  replace (d - (d / 12000 - 3) * 12000) with (d mod 12000 + 36000) by lia.
  rewrite (wrap_s32_small (d mod 12000)) by lia.
  rewrite (wrap_s32_small (d mod 12000 + 36000)) by lia.
  rewrite Z.quot_div_nonneg, Z.rem_mod_nonneg by lia.
  pose proof (Z.div_mod (d mod 12000) 1000 ltac:(lia)) as Hdm2.
  pose proof (Z.mod_pos_bound (d mod 12000) 1000 ltac:(lia)) as Hm2.
  assert (Hq2 : 0 <= d mod 12000 / 1000 < 12).
  { split; [apply Z.div_pos; lia | apply Z.div_lt_upper_bound; lia]. }
  pose proof (Z.div_mod (d mod 12000 + 36000) 1000 ltac:(lia)) as Hdm3.
  pose proof (Z.mod_pos_bound (d mod 12000 + 36000) 1000 ltac:(lia)) as Hm3.
  assert (Hsame : (d mod 12000 + 36000) mod 1000 = (d mod 12000) mod 1000).
  { replace (d mod 12000 + 36000) with (d mod 12000 + 36 * 1000) by lia.
    apply Z.mod_add. lia. }
  rewrite Hsame.
  rewrite (wrap_s8_small (d mod 12000 / 1000)) by lia.
  rewrite (wrap_s32_small ((d mod 12000) mod 1000 - 500)) by lia.
  lia.
Qed.

(** X17: the tuner display.  An interrupt either leaves the reading
    (deviation, octave, note, residual) as it is, or stores a new
    deviation together with its decomposition: for a deviation from 0 to
    below 130 octaves, the note is between 0 and 11, the residual between
    -500 and 499, and 12000 * (octave + 2) + 1000 * note + residual + 500
    is the deviation again. *)
Theorem tuner_reading_decomposes
    (app app' : ReferencesApp.t) (hw hw' : Hardware) :
  ISR app hw = Some (app', hw') ->
  tuner_reading app' = tuner_reading app
  \/ (0 <= freq_decicents_deviation_ app' < 12000 * 130 ->
      0 <= freq_note_ app' <= 11
      /\ - 500 <= freq_decicents_residual_ app' <= 499
      /\ freq_decicents_deviation_ app'
         = 12000 * (freq_octave_ app' + 2) + 1000 * freq_note_ app'
           + (freq_decicents_residual_ app' + 500)).
Proof.
  unfold ISR. cbv zeta.
  set (r := update_channels (channels_ app) hw).
  rewrite !channels_with_channels_.
  destruct (negb _).
  { destruct (channel_of_index _); [|discriminate].
    intros [= <- _]. left.
    rewrite !tuner_reading_with_channels_. reflexivity. }
  destruct (FreqMeasure.available _).
  - destruct (750 <? _).
    + destruct (F64.to_uint32 _); [|discriminate].
      destruct (F64.to_int32 _) as [d|]; [|discriminate].
      intros [= <- _]. right. destruct app. simpl. intros Hd.
      apply (deviation_decomposes d Hd).
    + intros [= <- _]. left. destruct app. reflexivity.
  - destruct (100000 <? _); intros [= <- _]; left; destruct app; reflexivity.
Qed.

(** ** The menu *)

(** X18: [update_enabled_settings] writes at most [REF_SETTING_LAST]
    entries, each a declared setting; the entry at index 4 is the autotune
    entry on every channel; channel D has 9 entries and the others 7. *)
Theorem enabled_settings_fit (c : ReferenceChannel) :
  (length (update_enabled_settings c) <= REF_SETTING_LAST)%nat
  /\ Forall (fun setting => (setting < REF_SETTING_LAST)%nat)
            (update_enabled_settings c)
  /\ enabled_setting_at c 4 = Some REF_SETTING_AUTOTUNE
  /\ num_enabled_settings c
     = (if decide (DAC_CHANNEL_D = dac_channel_ c) then 9 else 7).
Proof.
  unfold num_enabled_settings, enabled_setting_at, update_enabled_settings.
  destruct (decide _); cbn; repeat split; try lia;
    repeat constructor.
Qed.

(** X19: the value [get_ppqn] returns for a selector is the number its
    menu label shows (1, 2, 4, 8, 16, 24, 32, 48, 64, 96); for a selector
    past the labels it is 8. *)
Theorem get_ppqn_matches_its_label (app : ReferencesApp.t) (k : nat) :
  get_channel_ppqn (channels_ app DAC_CHANNEL_D) = Z.of_nat k ->
  get_ppqn app
  = match ppqn_labels !! k with
    | Some label => F32.of_Z (label_value label)
    | None => F32.of_Z 8
    end.
Proof.
  intros Hk. unfold get_ppqn. rewrite Hk.
  do 10 (destruct k as [|k]; [vm_compute; reflexivity|]).
  replace (Z.of_nat (S (S (S (S (S (S (S (S (S (S k)))))))))))
    with (Z.of_nat k + 10) by lia.
  unfold CHANNEL_PPQN_1, CHANNEL_PPQN_2, CHANNEL_PPQN_4, CHANNEL_PPQN_8,
    CHANNEL_PPQN_16, CHANNEL_PPQN_24, CHANNEL_PPQN_32, CHANNEL_PPQN_48,
    CHANNEL_PPQN_64, CHANNEL_PPQN_96.
  repeat match goal with
         | |- context [?a =? ?b] =>
           replace (a =? b) with false by (symmetry; apply Z.eqb_neq; lia)
         end.
  vm_compute. reflexivity.
Qed.

End App.

Section AppBench.
#[local] Existing Instance bench.
#[local] Existing Instance bench_libm.

Import ReferencesApp.

Lemma heard_reading :
  ISR (fst listening) (snd listening) = Some heard.
Proof.
  unfold heard.
  destruct (ISR (fst listening) (snd listening)) eqn:E; [reflexivity|].
  vm_compute in E. discriminate E.
Qed.

Lemma tuning_B_in_place : channels_in_place (fst tuning_B).
Proof. intros ch. destruct ch; vm_compute; reflexivity. Qed.

Lemma tuning_A_and_B_in_place : channels_in_place (fst tuning_A_and_B).
Proof. intros ch. destruct ch; vm_compute; reflexivity. Qed.

Lemma ISR_measures_the_active_channel_witness :
  let r := update_channels (channels_ (fst tuning_B)) (snd tuning_B) in
  let m := measure_frequency_and_calc_error (fst r DAC_CHANNEL_B) (snd r) in
  (channels_in_place (fst tuning_B)
   /\ autotuner_active (channels_ (fst tuning_B) DAC_CHANNEL_B) <> 0
   /\ (forall ch', ch' <> DAC_CHANNEL_B ->
                   autotuner_active (channels_ (fst tuning_B) ch') = 0))
  /\ exists app',
       ISR (fst tuning_B) (snd tuning_B) = Some (app', snd m)
       /\ channels_ app' DAC_CHANNEL_B = fst m
       /\ (forall ch', ch' <> DAC_CHANNEL_B -> channels_ app' ch' = fst r ch')
       /\ frequency_ app' = frequency_ (fst tuning_B)
       /\ tuner_reading app' = tuner_reading (fst tuning_B).
Proof.
  assert (Hactive : autotuner_active (channels_ (fst tuning_B) DAC_CHANNEL_B)
                    <> 0) by (vm_compute; discriminate).
  assert (Hothers : forall ch', ch' <> DAC_CHANNEL_B ->
                      autotuner_active (channels_ (fst tuning_B) ch') = 0).
  { intros ch' Hne. destruct ch'; try contradiction; vm_compute; reflexivity. }
  split; [split; [exact tuning_B_in_place|]; split; assumption|].
  exact (ISR_measures_the_active_channel (fst tuning_B) (snd tuning_B)
           DAC_CHANNEL_B tuning_B_in_place Hactive Hothers).
Defined.

Lemma ISR_with_two_active_channels_witness :
  let r := update_channels (channels_ (fst tuning_A_and_B))
                           (snd tuning_A_and_B) in
  (channels_in_place (fst tuning_A_and_B)
   /\ DAC_CHANNEL_A <> DAC_CHANNEL_B
   /\ autotuner_active (channels_ (fst tuning_A_and_B) DAC_CHANNEL_A) <> 0
   /\ autotuner_active (channels_ (fst tuning_A_and_B) DAC_CHANNEL_B) <> 0
   /\ (forall ch', ch' <> DAC_CHANNEL_A -> ch' <> DAC_CHANNEL_B ->
                   autotuner_active (channels_ (fst tuning_A_and_B) ch') = 0))
  /\ (ISR (fst tuning_A_and_B) (snd tuning_A_and_B) = None
      \/ exists app' hw',
           ISR (fst tuning_A_and_B) (snd tuning_A_and_B) = Some (app', hw')
           /\ channels_ app' DAC_CHANNEL_A = fst r DAC_CHANNEL_A
           /\ channels_ app' DAC_CHANNEL_B = fst r DAC_CHANNEL_B).
Proof.
  assert (Hne : DAC_CHANNEL_A <> DAC_CHANNEL_B) by discriminate.
  assert (HA : autotuner_active (channels_ (fst tuning_A_and_B) DAC_CHANNEL_A)
               <> 0) by (vm_compute; discriminate).
  assert (HB : autotuner_active (channels_ (fst tuning_A_and_B) DAC_CHANNEL_B)
               <> 0) by (vm_compute; discriminate).
  assert (Hothers : forall ch', ch' <> DAC_CHANNEL_A -> ch' <> DAC_CHANNEL_B ->
                      autotuner_active (channels_ (fst tuning_A_and_B) ch')
                      = 0).
  { intros ch' HneA HneB.
    destruct ch'; try contradiction; vm_compute; reflexivity. }
  split.
  - split; [exact tuning_A_and_B_in_place|]. split; [exact Hne|].
    split; [exact HA|]. split; [exact HB | exact Hothers].
  - exact (ISR_with_two_active_channels (fst tuning_A_and_B)
             (snd tuning_A_and_B) DAC_CHANNEL_A DAC_CHANNEL_B
             tuning_A_and_B_in_place Hne HA HB Hothers).
Defined.

Lemma tuner_reading_decomposes_witness :
  ISR (fst listening) (snd listening) = Some (fst heard, snd heard)
  /\ (tuner_reading (fst heard) = tuner_reading (fst listening)
      \/ (0 <= freq_decicents_deviation_ (fst heard) < 12000 * 130 ->
          0 <= freq_note_ (fst heard) <= 11
          /\ - 500 <= freq_decicents_residual_ (fst heard) <= 499
          /\ freq_decicents_deviation_ (fst heard)
             = 12000 * (freq_octave_ (fst heard) + 2)
               + 1000 * freq_note_ (fst heard)
               + (freq_decicents_residual_ (fst heard) + 500))).
Proof.
  assert (Hisr : ISR (fst listening) (snd listening)
                 = Some (fst heard, snd heard)).
  { rewrite heard_reading. destruct heard. reflexivity. }
  split; [exact Hisr|].
  exact (tuner_reading_decomposes (fst listening) (fst heard)
           (snd listening) (snd heard) Hisr).
Defined.

Lemma get_ppqn_matches_its_label_witness :
  get_channel_ppqn (channels_ (fst listening) DAC_CHANNEL_D) = Z.of_nat 2
  /\ get_ppqn (fst listening)
     = match ppqn_labels !! 2%nat with
       | Some label => F32.of_Z (label_value label)
       | None => F32.of_Z 8
       end.
Proof.
  assert (Hk : get_channel_ppqn (channels_ (fst listening) DAC_CHANNEL_D)
               = Z.of_nat 2) by (vm_compute; reflexivity).
  split; [exact Hk|].
  exact (get_ppqn_matches_its_label (fst listening) 2 Hk).
Defined.

End AppBench.

(** * The screensaver *)

Section ScreensaverProperties.
Context `{Platform} `{Display}.

Lemma get_voltage_scaling_0 c : get_voltage_scaling c = 0.
Proof. reflexivity. Qed.

(** X20: the note name of the screensaver.  The name printed is the one
    at index [(unscaled_pitch rem 1536) >> 7] of the table of twelve
    names, where the unscaled pitch is the pitch last played plus
    [kOctaveZero] octaves.  The index is within 0 .. 11 when the unscaled
    pitch is not negative; when it is negative and not a whole number of
    octaves, the index is negative, from -12 to -1. *)
Theorem note_name_index
    (app : ReferencesApp.t) (this : ReferenceChannel) (start_x chan : Z) :
  0 <= chan <= 3 ->
  0 <= kOctaveZero <= 10 ->
  - 2 ^ 30 <= last_pitch_ this < 2 ^ 30 ->
  let unscaled_pitch := last_pitch_ this + kOctaveZero * 12 * 128 in
  exists draws,
    RenderScreensaver app this start_x chan = Some draws
    /\ In (print_note_name (Z.shiftr (Z.rem unscaled_pitch (12 * 128)) 7)) draws
    /\ (0 <= unscaled_pitch ->
        0 <= Z.shiftr (Z.rem unscaled_pitch (12 * 128)) 7 <= 11)
    /\ (unscaled_pitch < 0 -> Z.rem unscaled_pitch (12 * 128) <> 0 ->
        - 12 <= Z.shiftr (Z.rem unscaled_pitch (12 * 128)) 7 < 0).
Proof.
  intros Hchan Hk Hp u.
  unfold RenderScreensaver.
  assert (Hch : exists ch, channel_of_index (wrap_u8 chan) = Some ch).
  { assert (Hc : chan = 0 \/ chan = 1 \/ chan = 2 \/ chan = 3) by lia.
    destruct Hc as [-> | [-> | [-> | ->]]]; eexists; reflexivity. }
  destruct Hch as [ch ->]. cbv zeta.
  rewrite get_voltage_scaling_0.
  eexists. split; [reflexivity|].
  rewrite !Z.shiftl_mul_pow2 by lia.
  change (2 ^ 7) with 128.
  replace (kOctaveZero * 12 * 128) with (kOctaveZero * 12 * 128) by reflexivity.
  fold u.
  assert (Hu : - 2 ^ 31 <= u < 2 ^ 31) by (unfold u; lia).
  rewrite (wrap_s32_small u) by exact Hu.
  pose proof (Z.quot_rem' u (12 * 128)) as Hqr.
  pose proof (Z.rem_bound_abs u (12 * 128) ltac:(lia)) as Hrb.
  assert (Hrem : u - u ÷ (12 * 128) * 12 * 128 = Z.rem u (12 * 128)) by lia.
  assert (Hq : wrap_s32 (u ÷ (12 * 128) * 12 * 128)
               = u ÷ (12 * 128) * 12 * 128).
  { apply wrap_s32_small. lia. }
  rewrite Hq, Hrem.
  rewrite (wrap_s32_small (Z.rem u (12 * 128))) by lia.
  split.
  - rewrite !in_app_iff. left. left. left. left. right. left. reflexivity.
  - rewrite Z.shiftr_div_pow2 by lia. change (2 ^ 7) with 128.
    split.
    + intros Hpos.
      pose proof (Z.rem_nonneg u (12 * 128) ltac:(lia) Hpos) as Hr0.
      split; [apply Z.div_pos; lia | ].
      apply Z.lt_succ_r. apply Z.div_lt_upper_bound; lia.
    + intros Hneg Hnz.
      pose proof (Z.rem_nonpos u (12 * 128) ltac:(lia) ltac:(lia)) as Hr0.
      split; [apply Z.div_le_lower_bound; lia|].
      apply Z.div_lt_upper_bound; lia.
Qed.


Lemma fraction_rounds semitone :
  0 <= semitone <= 11 ->
  let fraction := Z.rem ((semitone * 10000 + 50) ÷ 120) 1000 in
  0 <= fraction <= 917 /\ - 6 <= 12 * fraction - 1000 * semitone <= 5.
Proof.
  intros Hs. cbv zeta.
  rewrite Z.quot_div_nonneg by lia.
  pose proof (Z.div_mod (semitone * 10000 + 50) 120 ltac:(lia)) as Hdm.
  pose proof (Z.mod_pos_bound (semitone * 10000 + 50) 120 ltac:(lia)) as Hm.
  assert (Hq : 0 <= (semitone * 10000 + 50) / 120 <= 917) by lia.
  rewrite Z.rem_mod_nonneg, Z.mod_small by lia. lia.
Qed.

(** X21: the voltage of the screensaver.  With [CONSTRAIN] the usual
    clamp, the screensaver ends with the mini minus, if the voltage is
    negative, and a [print_voltage] of one digit and three decimals; the
    number shown is the clamped pitch in volts, rounded to the nearest
    thousandth (12 times the number shown differs from 1000 times the
    semitones of the clamped pitch, counted from 0 V, by at most 6). *)
Theorem voltage_shown
    (app : ReferencesApp.t) (this : ReferenceChannel) (start_x chan : Z) :
  (forall x, CONSTRAIN x 0 (Z.shiftl 120 7)
             = Z.max 0 (Z.min x (Z.shiftl 120 7))) ->
  0 <= chan <= 3 ->
  0 <= kOctaveZero <= 10 ->
  - 2 ^ 30 <= last_pitch_ this < 2 ^ 30 ->
  let pitch :=
    Z.max 0 (Z.min (last_pitch_ this + kOctaveZero * 12 * 128) (120 * 128)) in
  exists (draws : list Draw) (minus : bool) (octave fraction : Z),
    RenderScreensaver app this start_x chan
    = Some (draws
            ++ (if minus then [drawHLine start_x (kTextDy + 3) 2] else [])
            ++ print_voltage octave fraction)
    /\ 0 <= octave <= 10
    /\ 0 <= fraction <= 999
    /\ minus = (shown minus octave fraction <? 0)
    /\ - 6 <= 12 * shown minus octave fraction
              - 1000 * (Z.shiftr pitch 7 - 12 * kOctaveZero) <= 5.
Proof.
  intros Hclamp Hchan Hk Hp pitch.
  unfold RenderScreensaver.
  assert (Hch : exists ch, channel_of_index (wrap_u8 chan) = Some ch).
  { assert (Hc : chan = 0 \/ chan = 1 \/ chan = 2 \/ chan = 3) by lia.
    destruct Hc as [-> | [-> | [-> | ->]]]; eexists; reflexivity. }
  destruct Hch as [ch ->]. cbv zeta.
  rewrite get_voltage_scaling_0. cbv beta iota.
  rewrite Hclamp.
  rewrite !Z.shiftl_mul_pow2 by lia. change (2 ^ 7) with 128.
  rewrite (wrap_s32_small (last_pitch_ this + kOctaveZero * 12 * 128)) by lia.
  fold pitch.
  assert (Hpitch : 0 <= pitch <= 120 * 128) by (unfold pitch; lia).
  clearbody pitch.
  rewrite (Z.quot_div_nonneg pitch) by lia.
  pose proof (Z.div_mod pitch (12 * 128) ltac:(lia)) as Hdm.
  pose proof (Z.mod_pos_bound pitch (12 * 128) ltac:(lia)) as Hm.
  assert (Hoct : 0 <= pitch / (12 * 128) <= 10).
  { split; [apply Z.div_pos; lia|].
    apply Z.lt_succ_r, Z.div_lt_upper_bound; lia. }
  rewrite (wrap_s32_small (pitch / (12 * 128) * 12 * 128)) by lia.
  replace (pitch - pitch / (12 * 128) * 12 * 128) with (pitch mod (12 * 128))
    by lia.
  rewrite (wrap_s32_small (pitch mod (12 * 128))) by lia.
  rewrite (wrap_s32_small (pitch / (12 * 128) - kOctaveZero)) by lia.
  rewrite (Z.shiftr_div_pow2 (pitch mod (12 * 128))) by lia.
  rewrite (Z.shiftr_div_pow2 pitch) by lia.
  change (2 ^ 7) with 128.
  set (semitone := pitch mod (12 * 128) / 128).
  assert (Hsemi : 0 <= semitone <= 11).
  { unfold semitone. split; [apply Z.div_pos; lia|].
    apply Z.lt_succ_r, Z.div_lt_upper_bound; lia. }
  assert (Hsplit : pitch / 128 = 12 * (pitch / (12 * 128)) + semitone).
  { unfold semitone.
    pose proof (Z.div_mod (pitch mod (12 * 128)) 128 ltac:(lia)) as Hdm2.
    pose proof (Z.mod_pos_bound (pitch mod (12 * 128)) 128 ltac:(lia)) as Hm2.
    symmetry. apply Z.div_unique with (r := (pitch mod (12 * 128)) mod 128);
      lia. }
  rewrite Hsplit.
  destruct (fraction_rounds semitone Hsemi) as [Hf Hround]. cbv zeta in Hf, Hround.
  set (fraction := Z.rem ((semitone * 10000 + 50) ÷ 120) 1000) in *.
  clearbody fraction semitone.
  set (octave := pitch / (12 * 128) - kOctaveZero) in *.
  assert (Hoctave : - 10 <= octave <= 10) by (unfold octave; lia).
  assert (Hrel : pitch / (12 * 128) = octave + kOctaveZero)
    by (unfold octave; lia).
  rewrite Hrel in *. clearbody octave.
  destruct (Z.leb_spec 0 octave) as [Hpos | Hneg].
  - eexists. exists false, octave, fraction.
    split; [reflexivity|]. unfold shown.
    split; [lia|]. split; [lia|].
    split; [symmetry; apply Z.ltb_ge; lia | lia].
  - destruct (Z.eqb_spec fraction 0) as [Hzero | Hnz]; cbn [negb].
    + eexists. exists true, (- octave), 0.
      split; [reflexivity|]. unfold shown.
      split; [lia|]. split; [lia|].
      split; [symmetry; apply Z.ltb_lt; lia | lia].
    + eexists. exists true, (- octave - 1), (1000 - fraction).
      split; [reflexivity|]. unfold shown.
      split; [lia|]. split; [lia|].
      split; [symmetry; apply Z.ltb_lt; lia | lia].
Qed.

End ScreensaverProperties.

Section ScreensaverBench.
#[local] Existing Instance bench.
#[local] Existing Instance bench_libm.
#[local] Existing Instance bench_display.

Lemma note_name_index_witness :
  (0 <= 1 <= 3
   /\ 0 <= kOctaveZero <= 10
   /\ - 2 ^ 30 <= last_pitch_ modulated < 2 ^ 30)
  /\ exists draws,
       RenderScreensaver (fst app_power_on) modulated 32 1 = Some draws
       /\ In (print_note_name
                (Z.shiftr (Z.rem (last_pitch_ modulated + kOctaveZero * 12 * 128)
                                 (12 * 128)) 7))
             draws
       /\ (0 <= last_pitch_ modulated + kOctaveZero * 12 * 128 ->
           0 <= Z.shiftr (Z.rem (last_pitch_ modulated
                                 + kOctaveZero * 12 * 128) (12 * 128)) 7
             <= 11)
       /\ (last_pitch_ modulated + kOctaveZero * 12 * 128 < 0 ->
           Z.rem (last_pitch_ modulated + kOctaveZero * 12 * 128) (12 * 128)
           <> 0 ->
           - 12 <= Z.shiftr (Z.rem (last_pitch_ modulated
                                    + kOctaveZero * 12 * 128) (12 * 128)) 7
             < 0).
Proof.
  assert (Hchan : 0 <= 1 <= 3) by lia.
  assert (Hk : 0 <= kOctaveZero <= 10) by (vm_compute; split; discriminate).
  assert (Hp : - 2 ^ 30 <= last_pitch_ modulated < 2 ^ 30)
    by (vm_compute; split; [discriminate | reflexivity]).
  split; [split; [exact Hchan|]; split; [exact Hk | exact Hp]|].
  exact (note_name_index (fst app_power_on) modulated 32 1 Hchan Hk Hp).
Defined.

(** On the bench the modulated channel B, F in octave -6, makes the
    screensaver print the note name at index -7. *)
Lemma note_name_index_below_the_table :
  RenderScreensaver (fst app_power_on) modulated 32 1
  = Some [setPixel 58 34; setPrintPos 34 41; print_note_name (- 7);
          drawHLine 48 48 8; drawBitmap8 60 37 8 8; setPrintPos 34 4;
          drawHLine 32 7 2; printf format_01d 3; movePrintPos (- 1) 0;
          print_char 46; movePrintPos (- 2) 0; printf format_03d 0].
Proof. vm_compute. reflexivity. Qed.

Lemma voltage_shown_witness :
  ((forall x, CONSTRAIN x 0 (Z.shiftl 120 7)
              = Z.max 0 (Z.min x (Z.shiftl 120 7)))
   /\ 0 <= 1 <= 3
   /\ 0 <= kOctaveZero <= 10
   /\ - 2 ^ 30 <= last_pitch_ modulated < 2 ^ 30)
  /\ exists (draws : list Draw) (minus : bool) (octave fraction : Z),
       RenderScreensaver (fst app_power_on) modulated 32 1
       = Some (draws
               ++ (if minus then [drawHLine 32 (kTextDy + 3) 2] else [])
               ++ print_voltage octave fraction)
       /\ 0 <= octave <= 10
       /\ 0 <= fraction <= 999
       /\ minus = (shown minus octave fraction <? 0)
       /\ - 6 <= 12 * shown minus octave fraction
                 - 1000 * (Z.shiftr
                             (Z.max 0 (Z.min (last_pitch_ modulated
                                              + kOctaveZero * 12 * 128)
                                             (120 * 128))) 7
                           - 12 * kOctaveZero) <= 5.
Proof.
  assert (Hclamp : forall x, CONSTRAIN x 0 (Z.shiftl 120 7)
                             = Z.max 0 (Z.min x (Z.shiftl 120 7))).
  { intros x. change (Z.shiftl 120 7) with 15360. cbn [CONSTRAIN bench_display].
    destruct (Z.ltb_spec x 0); [lia|]. destruct (Z.ltb_spec 15360 x); lia. }
  assert (Hchan : 0 <= 1 <= 3) by lia.
  assert (Hk : 0 <= kOctaveZero <= 10) by (vm_compute; split; discriminate).
  assert (Hp : - 2 ^ 30 <= last_pitch_ modulated < 2 ^ 30)
    by (vm_compute; split; [discriminate | reflexivity]).
  split; [split; [exact Hclamp|]; split; [exact Hchan|];
          split; [exact Hk | exact Hp]|].
  exact (voltage_shown (fst app_power_on) modulated 32 1 Hclamp Hchan Hk Hp).
Defined.

End ScreensaverBench.

(** * Activity and history *)

Section Activity.
Context `{Platform} `{Libm}.

Import ReferencesApp.

Ltac split_ifs :=
  repeat (simpl;
          match goal with
          | |- context [if ?b then _ else _] => destruct b eqn:?
          end);
  simpl.

(** ** The interrupts never start a run *)

Lemma measure_autotuner c hw :
  autotuner_ (fst (measure_frequency_and_calc_error c hw)) = autotuner_ c
  \/ autotuner_ (fst (measure_frequency_and_calc_error c hw)) = false.
Proof.
  rewrite measure_dispatch.
  repeat match goal with
         | |- context [if ?b then _ else _] => destruct b
         end.
  - left. reflexivity.
  - left. unfold case_DAC_VOLT_0_BASELINE.
    pose proof (auto_frequency_autotuner c hw) as Ha.
    destruct (auto_frequency c hw) as [[u c'] hw'].
    destruct c'. cbn [fst snd] in *. simpl in Ha.
    split_ifs; exact Ha.
  - left. unfold case_DAC_VOLT.
    pose proof (auto_frequency_autotuner c hw) as Ha.
    destruct (auto_frequency c hw) as [[u c'] hw'].
    destruct c'. cbn [fst snd] in *. simpl in Ha.
    split_ifs; exact Ha.
  - left. unfold case_AUTO_CALIBRATION_STEP_LAST. destruct c.
    split_ifs; reflexivity.
  - right. destruct c. reflexivity.
Qed.

Lemma measure_never_activates c hw :
  autotuner_active (fst (measure_frequency_and_calc_error c hw)) <> 0 ->
  autotuner_active c <> 0.
Proof.
  unfold autotuner_active.
  destruct (measure_autotuner c hw) as [-> | ->];
    [|intros Hn; exfalso; apply Hn; reflexivity].
  destruct (autotuner_ c); [|intros Hn; exfalso; apply Hn; reflexivity].
  cbn [andb].
  destruct (Z.eqb_spec (autotuner_step_ c) 0) as [E | E]; cbn [negb].
  - rewrite measure_dispatch, E. change (0 =? 0) with true. cbn [fst].
    rewrite E. intros Hn. exfalso. apply Hn. reflexivity.
  - intros _. destruct (dac_channel_ c); discriminate.
Qed.

(** X22: the interrupts never start a run: a capture, an [Update] or a
    [measure_frequency_and_calc_error] never makes an inactive channel
    active.  A channel that is active after such a call was active
    before it. *)
Theorem interrupts_never_activate
    (s : ReferenceChannel * Hardware) (e : Call) :
  from_interrupt e ->
  autotuner_active (fst (exec s e)) <> 0 ->
  autotuner_active (fst s) <> 0.
Proof.
  destruct s as [c hw]. cbn [fst snd]. intros He.
  destruct e; try contradiction.
  - rewrite exec_capture. auto.
  - rewrite exec_Update. rewrite (proj1 (Update_active c hw)). auto.
  - rewrite exec_measure. apply measure_never_activates.
Qed.

(** ** The channels stay in their places *)

Lemma measure_channel c hw :
  dac_channel_ (fst (measure_frequency_and_calc_error c hw)) = dac_channel_ c.
Proof.
  assert (Hother : exists ch, ch <> dac_channel_ c).
  { destruct (dac_channel_ c);
      [exists DAC_CHANNEL_B | exists DAC_CHANNEL_A | exists DAC_CHANNEL_A
       | exists DAC_CHANNEL_A]; discriminate. }
  destruct Hother as [ch Hne].
  exact (proj1 (measure_frame c hw ch Hne)).
Qed.

Lemma update_channels_in_place channels hw ch :
  dac_channel_ (fst (update_channels channels hw) ch) = dac_channel_ (channels ch).
Proof.
  unfold update_channels.
  exact (proj2 (update_channels_active all_channels channels hw ch)).
Qed.

(** X23: the interrupt keeps the channels in their places: when every
    channel drives the DAC channel of its own index before the interrupt,
    it does so after it. *)
Theorem channels_stay_in_place
    (app app' : ReferencesApp.t) (hw hw' : Hardware) :
  channels_in_place app ->
  ISR app hw = Some (app', hw') ->
  channels_in_place app'.
Proof.
  intros Hplace. unfold ISR. cbv zeta.
  set (r := update_channels (channels_ app) hw).
  assert (Hr : forall ch, dac_channel_ (fst r ch) = ch).
  { intros ch. unfold r. rewrite update_channels_in_place. apply Hplace. }
  rewrite !channels_with_channels_.
  destruct (negb _).
  { destruct (channel_of_index _) as [ch|]; [|discriminate].
    intros [= <- _] ch'. rewrite channels_with_channels_.
    destruct (decide (ch = ch')) as [-> | Hne].
    - rewrite fn_lookup_insert, measure_channel. apply Hr.
    - rewrite fn_lookup_insert_ne by exact Hne. apply Hr. }
  destruct (FreqMeasure.available _).
  - destruct (750 <? _).
    + destruct (F64.to_uint32 _); [|discriminate].
      destruct (F64.to_int32 _) as [d|]; [|discriminate].
      intros [= <- _] ch'. destruct app. simpl. apply Hr.
    + intros [= <- _] ch'. simpl. apply Hr.
  - destruct (100000 <? _); intros [= <- _] ch'; simpl;
      rewrite ?channels_with_channels_; apply Hr.
Qed.

End Activity.

Section History.
Context `{Platform}.

(** ** The average over the history *)

(** X24: the 0 V frequency taken at the end of the baseline.  The
    averager pushes its result on the history before the history is read,
    so with a full history the emit is both the newest entry and the
    term added to the sum: the frequency taken is the emit, twice, plus
    the [kHistoryDepth - 1] entries before it, over [kHistoryDepth + 1];
    the oldest entry has dropped out. *)
Theorem average_counts_the_last_emit_twice
    (c : ReferenceChannel) (hw : Hardware) :
  fst (fst (auto_frequency c hw)) = true ->
  length (ScrollingHistory.Read (history_ c)) = kHistoryDepth ->
  let f := auto_frequency_ (measured (c, hw)) in
  ScrollingHistory.Read (history_ (measured (c, hw)))
  = drop 1 (ScrollingHistory.Read (history_ c)) ++ [f]
  /\ average_with_history (measured (c, hw))
     = F32.div
         (F32.add f
            (F32.add (foldl F32.add F32.zero
                        (drop 1 (ScrollingHistory.Read (history_ c))))
                     f))
         (F32.of_Z (Z.of_nat kHistoryDepth + 1)).
Proof.
  unfold measured, average_with_history. cbn [fst snd].
  destruct c, hw as [fm d]. unfold auto_frequency. simpl.
  intros Hemit Hlen. revert Hemit.
  repeat (simpl;
          match goal with
          | |- context [if ?b then _ else _] => destruct b eqn:?
          end);
    simpl; try discriminate; intros _;
    (split; [reflexivity|]);
    rewrite take_ge, foldl_app by
      (rewrite length_app, length_drop; cbn [length];
       unfold ScrollingHistory.Read in Hlen; rewrite Hlen;
       unfold kHistoryDepth; lia);
    reflexivity.
Qed.

End History.

Section MoreBench.
#[local] Existing Instance bench.
#[local] Existing Instance bench_libm.

Import ReferencesApp.

Lemma interrupts_never_activate_witness :
  (from_interrupt call_measure_frequency_and_calc_error
   /\ autotuner_active
        (fst (exec before_twelfth_emit call_measure_frequency_and_calc_error))
      <> 0)
  /\ autotuner_active (fst before_twelfth_emit) <> 0.
Proof.
  assert (Ha : autotuner_active
                 (fst (exec before_twelfth_emit
                            call_measure_frequency_and_calc_error)) <> 0)
    by (vm_compute; discriminate).
  split; [split; [exact I | exact Ha]|].
  exact (interrupts_never_activate before_twelfth_emit
           call_measure_frequency_and_calc_error I Ha).
Defined.

Lemma channels_stay_in_place_witness :
  (channels_in_place (fst listening)
   /\ ISR (fst listening) (snd listening) = Some (fst heard, snd heard))
  /\ channels_in_place (fst heard).
Proof.
  assert (Hplace : channels_in_place (fst listening))
    by (intros ch; destruct ch; vm_compute; reflexivity).
  assert (Hisr : ISR (fst listening) (snd listening)
                 = Some (fst heard, snd heard)).
  { rewrite heard_reading. destruct heard. reflexivity. }
  split; [split; [exact Hplace | exact Hisr]|].
  exact (channels_stay_in_place (fst listening) (fst heard)
           (snd listening) (snd heard) Hplace Hisr).
Defined.

Lemma average_counts_the_last_emit_twice_witness :
  (fst (fst (auto_frequency (fst before_twelfth_emit)
                            (snd before_twelfth_emit))) = true
   /\ length (ScrollingHistory.Read (history_ (fst before_twelfth_emit)))
      = kHistoryDepth)
  /\ ScrollingHistory.Read
       (history_ (measured (fst before_twelfth_emit, snd before_twelfth_emit)))
     = drop 1 (ScrollingHistory.Read (history_ (fst before_twelfth_emit)))
       ++ [auto_frequency_
             (measured (fst before_twelfth_emit, snd before_twelfth_emit))]
  /\ average_with_history
       (measured (fst before_twelfth_emit, snd before_twelfth_emit))
     = F32.div
         (F32.add
            (auto_frequency_
               (measured (fst before_twelfth_emit, snd before_twelfth_emit)))
            (F32.add
               (foldl F32.add F32.zero
                  (drop 1 (ScrollingHistory.Read
                             (history_ (fst before_twelfth_emit)))))
               (auto_frequency_
                  (measured (fst before_twelfth_emit,
                             snd before_twelfth_emit)))))
         (F32.of_Z (Z.of_nat kHistoryDepth + 1)).
Proof.
  assert (He : fst (fst (auto_frequency (fst before_twelfth_emit)
                                        (snd before_twelfth_emit))) = true)
    by (vm_compute; reflexivity).
  assert (Hl : length (ScrollingHistory.Read
                         (history_ (fst before_twelfth_emit)))
               = kHistoryDepth) by (vm_compute; reflexivity).
  split; [split; [exact He | exact Hl]|].
  exact (average_counts_the_last_emit_twice (fst before_twelfth_emit)
           (snd before_twelfth_emit) He Hl).
Defined.

End MoreBench.
